(** * TDS working-paper tool: the sheet pipeline of [process_file]

    A shallow embedding of [process_file] from [src/app.py], of the pandas
    operations it calls (pandas 2) and of the handler of the button,
    followed by the properties of the pipeline.

    Modelling conventions.
    - Text is a [string]; a character is a code point below 256, and
      [str.strip] and [str.lower] act on it as Python does on that range.
    - A cell is empty ([NaN]), a whole number or text.  [NA] is the marker
      [pd.NA] that the code writes itself; no sheet holds it.  What
      [pd.to_numeric] makes of a text cell is a parameter of the pipeline.
    - A [sheet] holds the grid that [pd.read_excel] delivers for it.
    - A [DataFrame] keeps the column labels and, for every row, its index
      label and its values.  Selection is by label, as in pandas: a key
      selects every column that carries it, so a repeated label yields
      repeated columns.  Empty labels compare equal to each other.
    - Column types are not kept.  Where pandas goes by them the properties
      say under which inputs they hold: header labels that are text (a
      blank or numeric label is looked up and printed according to the
      type of its column), amounts that are whole numbers below 2^53 (the
      sums are then the same in [float64], [int64] and the integers), and
      cells compared up to which of the two missing values they hold after
      [pd.concat].
    - [fixed_cols] is a natural number (the input widget starts at 1).
    - An exception that escapes [process_file] is an explicit [Raise].
    - What [st.dataframe] and the Excel writer raise are parameters of the
      handler. *)

From Stdlib Require Import ZArith List String Ascii Bool Lia DecimalString.
Import ListNotations.
Open Scope string_scope.
Open Scope list_scope.

(** ** Python strings *)

Definition is_space (c : ascii) : bool :=
  let n := nat_of_ascii c in
  (((9 <=? n) && (n <=? 13)) || ((28 <=? n) && (n <=? 32))
   || (n =? 133) || (n =? 160))%nat.

Definition lower_char (c : ascii) : ascii :=
  let n := nat_of_ascii c in
  if (((65 <=? n) && (n <=? 90))
      || ((192 <=? n) && (n <=? 222) && negb (n =? 215)))%nat
  then ascii_of_nat (n + 32) else c.

(** [s.lower()] *)
Fixpoint lower (s : string) : string :=
  match s with
  | EmptyString => EmptyString
  | String c s' => String (lower_char c) (lower s')
  end.

Fixpoint lstrip (s : string) : string :=
  match s with
  | EmptyString => EmptyString
  | String c s' => if is_space c then lstrip s' else s
  end.

Fixpoint rstrip (s : string) : string :=
  match s with
  | EmptyString => EmptyString
  | String c s' =>
      match rstrip s' with
      | EmptyString => if is_space c then EmptyString else String c EmptyString
      | r => String c r
      end
  end.

(** [s.strip()] *)
Definition strip (s : string) : string := rstrip (lstrip s).

(** [needle in s] *)
Fixpoint contains (needle s : string) : bool :=
  prefix needle s
  || match s with
     | EmptyString => false
     | String _ s' => contains needle s'
     end.

(** [s.split(sep)] for a one-character separator: never the empty list. *)
Fixpoint split (sep : ascii) (s : string) : list string :=
  match s with
  | EmptyString => [EmptyString]
  | String c s' =>
      if Ascii.eqb c sep then EmptyString :: split sep s'
      else match split sep s' with
           | [] => [String c EmptyString]
           | piece :: rest => String c piece :: rest
           end
  end.

(** Truth value of a string: [bool(s)]. *)
Definition nonempty (s : string) : bool :=
  match s with EmptyString => false | _ => true end.

(** ** Cells and labels *)

Inductive cell : Type :=
| NaN
| NA
| Num (z : Z)
| Str (s : string).

(** [str(v)]; a number prints as a Python [int] does. *)
Definition str (v : cell) : string :=
  match v with
  | NaN => "nan"
  | NA => "<NA>"
  | Num z => NilEmpty.string_of_int (Z.to_int z)
  | Str s => s
  end.

(** [pd.isna(v)] *)
Definition isna (v : cell) : bool :=
  match v with NaN | NA => true | _ => false end.

(** [bool(v)] for a label: an empty string and zero are false;
    [float('nan')] is true.  [pd.NA], which has no truth value, is never a
    label that is tested. *)
Definition truthy (v : cell) : bool :=
  match v with
  | NaN => true
  | NA => false
  | Num z => negb (z =? 0)%Z
  | Str s => nonempty s
  end.

(** Equality of labels. *)
Definition cell_eqb (a b : cell) : bool :=
  match a, b with
  | NaN, NaN => true
  | NA, NA => true
  | Num x, Num y => (x =? y)%Z
  | Str s, Str t => String.eqb s t
  | _, _ => false
  end.

Definition Ledger_Amount : cell := Str "Ledger_Amount".
Definition TDS_Amount : cell := Str "TDS_Amount".
Definition LedgerName : cell := Str "LedgerName".

(** ** Exceptions *)

Inductive exn : Type :=
| IndexError
| KeyError
| AttributeError
| InvalidIndexError
| TypeError
| ValueError.

Inductive result (A : Type) : Type :=
| Ok (a : A)
| Raise (e : exn).
Arguments Ok {A} a.
Arguments Raise {A} e.

Definition bind {A B : Type} (m : result A) (k : A -> result B) : result B :=
  match m with
  | Ok a => k a
  | Raise e => Raise e
  end.

Notation "x <- m ;; k" := (bind m (fun x => k))
  (at level 61, m at next level, right associativity).

(** ** Data frames *)

(** The column labels and the rows, each row with its index label. *)
Record DataFrame : Type := mkDataFrame {
  columns : list cell;
  body : list (nat * list cell)
}.

(** A column on its own: index label and value. *)
Definition Series : Type := list (nat * cell).

Record sheet : Type := mkSheet {
  sheet_name : string;
  cells : list (list cell)
}.

Fixpoint enumerate {A : Type} (i : nat) (l : list A) : list (nat * A) :=
  match l with
  | [] => []
  | x :: t => (i, x) :: enumerate (S i) t
  end.

Definition width (g : list (list cell)) : nat :=
  fold_right (fun r w => Nat.max (List.length r) w) 0 g.

Definition pad (w : nat) (r : list cell) : list cell :=
  map (fun j => nth j r NaN) (seq 0 w).

(** [pd.read_excel(xls, sheet_name=..., header=None)]: positional column
    labels, a range index, short rows filled with [NaN]. *)
Definition read_excel (s : sheet) : DataFrame :=
  let w := width (cells s) in
  {| columns := map (fun j => Num (Z.of_nat j)) (seq 0 w);
     body := enumerate 0 (map (pad w) (cells s)) |}.

(** [key in df.columns] *)
Definition has_label (cols : list cell) (key : cell) : bool :=
  existsb (cell_eqb key) cols.

(** The entries of [vals] that stand under the label [key]. *)
Definition pick {A : Type} (cols : list cell) (vals : list A) (key : cell)
  : list A :=
  map snd (filter (fun p => cell_eqb (fst p) key) (combine cols vals)).

(** The indexer of a list of keys: for each key in turn, every column that
    carries it. *)
Definition take {A : Type} (cols : list cell) (vals : list A)
  (keys : list cell) : list A :=
  flat_map (pick cols vals) keys.

(** [df[keys]] and [df.loc[:, keys]] for a list of labels, each looked up
    by equality. *)
Definition getitem_list (df : DataFrame) (keys : list cell)
  : result DataFrame :=
  if forallb (has_label (columns df)) keys
  then Ok {| columns := take (columns df) (columns df) keys;
             body := map (fun r => (fst r, take (columns df) (snd r) keys))
                         (body df) |}
  else Raise KeyError.

(** What [df[key]] is for one label: a Series when a single column carries
    it, a DataFrame when several do. *)
Inductive selection : Type :=
| OneColumn (s : Series)
| Frame (df : DataFrame).

Definition getitem (df : DataFrame) (key : cell) : result selection :=
  match pick (columns df) (columns df) key with
  | [] => Raise KeyError
  | [_] => Ok (OneColumn
                 (map (fun r => (fst r, hd NaN (pick (columns df) (snd r) key)))
                      (body df)))
  | labels => Ok (Frame
                    {| columns := labels;
                       body := map (fun r =>
                                      (fst r, pick (columns df) (snd r) key))
                                   (body df) |})
  end.

(** [df[key] = value], the value given per index label: every column that
    carries [key] is overwritten, and a new last column is added when none
    does. *)
Definition setitem (df : DataFrame) (key : cell) (value : nat -> cell)
  : DataFrame :=
  if has_label (columns df) key
  then {| columns := columns df;
          body := map (fun r =>
                         (fst r,
                          map (fun p => if cell_eqb (fst p) key
                                        then value (fst r) else snd p)
                              (combine (columns df) (snd r))))
                      (body df) |}
  else {| columns := columns df ++ [key];
          body := map (fun r => (fst r, snd r ++ [value (fst r)])) (body df) |}.

(** [df.rename(columns={old: new})] *)
Definition rename (df : DataFrame) (old new : cell) : DataFrame :=
  {| columns := map (fun c => if cell_eqb c old then new else c) (columns df);
     body := body df |}.

(** [df.dropna(how="all")] *)
Definition dropna (df : DataFrame) : DataFrame :=
  {| columns := columns df;
     body := filter (fun r => negb (forallb isna (snd r))) (body df) |}.

(** [df.empty]: no column or no row. *)
Definition empty (df : DataFrame) : bool :=
  match columns df, body df with
  | [], _ => true
  | _, [] => true
  | _, _ => false
  end.

(** [df[mask]] for a boolean Series over the index of [df] itself. *)
Definition boolean_filter (df : DataFrame) (mask : list (nat * bool))
  : DataFrame :=
  {| columns := columns df;
     body := map fst (filter (fun p => snd (snd p)) (combine (body df) mask)) |}.

(** The value of a Series at an index label; a label it lacks aligns to
    [NaN]. *)
Definition series_at (s : Series) (i : nat) : cell :=
  match find (fun iv => Nat.eqb (fst iv) i) s with
  | Some iv => snd iv
  | None => NaN
  end.

Fixpoint cells_eqb (a b : list cell) : bool :=
  match a, b with
  | [], [] => true
  | x :: a', y :: b' => cell_eqb x y && cells_eqb a' b'
  | _, _ => false
  end.

(** [Index.is_unique] *)
Fixpoint is_unique (cols : list cell) : bool :=
  match cols with
  | [] => true
  | c :: rest => negb (has_label rest c) && is_unique rest
  end.

(** The union of the column indexes, in order of first appearance. *)
Definition union_columns (frames : list DataFrame) : list cell :=
  fold_left
    (fun acc f => acc ++ filter (fun c => negb (has_label acc c)) (columns f))
    frames [].

Definition reindex_row (cols : list cell) (vals : list cell)
  (target : list cell) : list cell :=
  map (fun k => hd NaN (pick cols vals k)) target.

(** Every row is missing its value at position [j]. *)
Definition missing_column (rows : list (list cell)) (j : nat) : bool :=
  forallb (fun vals => isna (nth j vals NaN)) rows.

(** What [pd.concat] makes of the rows of one frame among several: a
    column in which the frame has no value at all, [pd.NA] included, comes
    out filled with [NaN]. *)
Definition fill_missing (rows : list (list cell)) : list (list cell) :=
  map (fun vals =>
         map (fun jv => if missing_column rows (fst jv) then NaN else snd jv)
             (enumerate 0 vals))
      rows.

(** [pd.concat(frames, ignore_index=True)]: frames with one and the same
    column index are stacked; otherwise the indexes are united, which
    pandas refuses for an index that repeats a label.  A single frame is
    copied as it is. *)
Definition concat (frames : list DataFrame) : result DataFrame :=
  match frames with
  | [] => Raise ValueError
  | f :: rest =>
      let settle := match rest with
                    | [] => fun rows => rows
                    | _ :: _ => fill_missing
                    end in
      if forallb (fun g => cells_eqb (columns g) (columns f)) rest
      then Ok {| columns := columns f;
                 body := enumerate 0
                           (flat_map (fun g => settle (map snd (body g)))
                                     frames) |}
      else if forallb (fun g => is_unique (columns g)) frames
      then let target := union_columns frames in
           Ok {| columns := target;
                 body := enumerate 0
                           (flat_map
                              (fun g => settle
                                          (map (fun r =>
                                                  reindex_row (columns g)
                                                              (snd r) target)
                                               (body g)))
                              frames) |}
      else Raise InvalidIndexError
  end.

(** ** The pipeline of [process_file] *)

(** [[k.strip().lower() for k in raw.split(",") if k.strip()]], and
    [["tds"]] when that list is empty. *)
Definition tds_keywords (tds_keywords_raw : string) : list string :=
  match map (fun k => lower (strip k))
            (filter (fun k => nonempty (strip k))
                    (split "," tds_keywords_raw)) with
  | [] => ["tds"]
  | kws => kws
  end.

(** [str(v).strip().lower() == "date"] *)
Definition is_date (v : cell) : bool :=
  String.eqb (lower (strip (str v))) "date".

(** [raw.iloc[:, 0]] *)
Definition first_col (raw : DataFrame) : Series :=
  map (fun r => (fst r, nth 0 (snd r) NaN)) (body raw).

(** The loop over [first_col.items()] that stops at the first match. *)
Definition header_row_idx (raw : DataFrame) : option nat :=
  option_map fst (find (fun iv => is_date (snd iv)) (first_col raw)).

(** [raw.iloc[i].tolist()] *)
Definition iloc_row (raw : DataFrame) (i : nat) : list cell :=
  snd (nth i (body raw) (i, [])).

(** Lines 61-82: the table of a sheet, or [None] where the loop says
    [continue]. *)
Definition table_of (raw : DataFrame) : option DataFrame :=
  if empty (dropna raw) then None
  else match header_row_idx raw with
       | None => None
       | Some h =>
           let header := iloc_row raw h in
           let data := dropna {| columns := header;
                                 body := skipn (S h) (body raw) |} in
           if empty data then None else Some data
       end.

(** [data.columns[:fixed_cols]] *)
Definition base_cols (data : DataFrame) (fixed_cols : nat) : list cell :=
  firstn fixed_cols (columns data).

(** [l[-1]] *)
Definition last_label (l : list cell) : result cell :=
  match rev l with
  | [] => Raise IndexError
  | c :: _ => Ok c
  end.

(** Lines 85-89: the fixed columns, the last one renamed. *)
Definition fixed_columns (data : DataFrame) (fixed_cols : nat)
  : result DataFrame :=
  let bc := base_cols data fixed_cols in
  base_data <- getitem_list data bc ;;
  old <- last_label bc ;;
  Ok (rename base_data old Ledger_Amount).

(** Lines 92-96: the first column whose label mentions "particular". *)
Definition particulars_col (base_data : DataFrame) : option cell :=
  find (fun col => contains "particular" (lower (str col)))
       (columns base_data).

(** [.astype(str).str.lower().str.contains("grand total")] on one value. *)
Definition is_grand_total (v : cell) : bool :=
  contains "grand total" (lower (str v)).

(** Lines 98-104. *)
Definition drop_grand_total (base_data : DataFrame) : result DataFrame :=
  match particulars_col base_data with
  | None => Ok base_data
  | Some col =>
      if truthy col
      then sel <- getitem base_data col ;;
           match sel with
           | OneColumn s =>
               Ok (boolean_filter base_data
                     (map (fun iv => (fst iv, negb (is_grand_total (snd iv))))
                          s))
           | Frame _ => Raise AttributeError
           end
      else Ok base_data
  end.

(** Lines 111-113. *)
Definition add_missing (template : list cell) (base_data : DataFrame)
  : DataFrame :=
  fold_left
    (fun bd col =>
       if has_label (columns bd) col then bd else setitem bd col (fun _ => NA))
    template base_data.

(** Lines 107-114: the template after this sheet, and the aligned frame. *)
Definition align (template_cols : option (list cell)) (base_data : DataFrame)
  : result (list cell * DataFrame) :=
  match template_cols with
  | None => Ok (columns base_data, base_data)
  | Some template =>
      aligned <- getitem_list (add_missing template base_data) template ;;
      Ok (template, aligned)
  end.

(** [any(kw in str(col).lower() for kw in tds_keywords)] *)
Definition matches_keyword (keywords : list string) (col : cell) : bool :=
  existsb (fun kw => contains kw (lower (str col))) keywords.

(** Lines 117-121. *)
Definition tds_cols (data : DataFrame) (keywords : list string) : list cell :=
  filter (matches_keyword keywords) (columns data).

Section Pipeline.

(** What [pd.to_numeric(..., errors="coerce")] makes of a text cell: its
    number, or nothing where the text does not parse. *)
Variable numeric_text : string -> option Z.

Definition to_numeric (v : cell) : option Z :=
  match v with
  | Num z => Some z
  | Str s => numeric_text s
  | NaN | NA => None
  end.

(** [.sum(axis=1)] on one row: missing values are skipped; the sum is
    taken in the integers. *)
Definition nansum (vals : list cell) : Z :=
  fold_left (fun acc v => match to_numeric v with
                          | Some z => (acc + z)%Z
                          | None => acc
                          end)
            vals 0%Z.

(** Line 124. *)
Definition tds_sum (data : DataFrame) (cols : list cell) : result Series :=
  selected <- getitem_list data cols ;;
  Ok (map (fun r => (fst r, Num (nansum (snd r)))) (body selected)).

(** Lines 123-127. *)
Definition add_tds_amount (data base_data : DataFrame)
  (keywords : list string) : result DataFrame :=
  match tds_cols data keywords with
  | [] => Ok (setitem base_data TDS_Amount (fun _ => NA))
  | cols =>
      s <- tds_sum data cols ;;
      Ok (setitem base_data TDS_Amount (series_at s))
  end.

(** What a cell adds to the sum: its number, or nothing. *)
Definition contribution (v : cell) : Z :=
  match to_numeric v with
  | Some z => z
  | None => 0%Z
  end.

(** The value [process_file] puts under [TDS_Amount] for a body row with
    the values [vals]: [pd.NA] if no label of the header matches a keyword,
    else the sum over the selected columns. *)
Definition tds_amount (data : DataFrame) (keywords : list string)
  (vals : list cell) : cell :=
  match tds_cols data keywords with
  | [] => NA
  | cols => Num (nansum (take (columns data) vals cols))
  end.

(** The variables that live across the iterations of the loop. *)
Record state : Type := mkState {
  template_cols : option (list cell);
  all_ledgers : list DataFrame
}.

(** One iteration of the loop over the sheets (lines 59-132). *)
Definition process_sheet (fixed_cols : nat) (keywords : list string)
  (st : state) (s : sheet) : result state :=
  match table_of (read_excel s) with
  | None => Ok st
  | Some data =>
      base_data <- fixed_columns data fixed_cols ;;
      base_data <- drop_grand_total base_data ;;
      aligned <- align (template_cols st) base_data ;;
      base_data <- add_tds_amount data (snd aligned) keywords ;;
      Ok {| template_cols := Some (fst aligned);
            all_ledgers :=
              all_ledgers st
              ++ [setitem base_data LedgerName
                          (fun _ => Str (sheet_name s))] |}
  end.

Fixpoint process_sheets (fixed_cols : nat) (keywords : list string)
  (st : state) (workbook : list sheet) : result state :=
  match workbook with
  | [] => Ok st
  | s :: rest =>
      st' <- process_sheet fixed_cols keywords st s ;;
      process_sheets fixed_cols keywords st' rest
  end.

(** [process_file]: [Ok None] is the return value [None]. *)
Definition process_file (workbook : list sheet) (fixed_cols : nat)
  (tds_keywords_raw : string) : result (option DataFrame) :=
  let keywords := tds_keywords tds_keywords_raw in
  st <- process_sheets fixed_cols keywords
          {| template_cols := None; all_ledgers := [] |} workbook ;;
  match all_ledgers st with
  | [] => Ok None
  | ledgers =>
      final_df <- concat ledgers ;;
      match template_cols st with
      | None => Raise TypeError
      | Some template =>
          final <- getitem_list final_df
                     (template ++ [TDS_Amount; LedgerName]) ;;
          Ok (Some final)
      end
  end.

End Pipeline.

(** ** The inputs of the page *)

(** The text the keyword field starts with (line 41). *)
Definition tds_keywords_input_default : string :=
  "tds payable, tds payable-llp, interest on tds, tds".

(** ** The handler of the button (lines 143-169) *)

(** [df.head(n)] *)
Definition head (n : nat) (df : DataFrame) : DataFrame :=
  {| columns := columns df; body := firstn n (body df) |}.

(** What [df.to_excel(writer, index=False, sheet_name=name)] is given to
    write: one sheet of that name, the column labels in its first row, then
    the rows without their index labels. *)
Record written : Type := mkWritten {
  written_sheet : string;
  written_header : list cell;
  written_rows : list (list cell)
}.

Definition to_excel (df : DataFrame) (name : string) : written :=
  {| written_sheet := name;
     written_header := columns df;
     written_rows := map snd (body df) |}.

(** [str(n)] for a length. *)
Definition str_len (n : nat) : string :=
  NilEmpty.string_of_uint (Nat.to_uint n).

(** What the handler puts on the page, in order.  The spinner shown while
    [process_file] runs leaves nothing behind and is not listed. *)
Inductive widget : Type :=
| st_error (body : string)
| st_success (body : string)
| st_subheader (body : string)
| st_dataframe (data : DataFrame)
| st_download_button (label : string) (data : written) (file_name : string)
    (mime : string).

Section Page.

Variable numeric_text : string -> option Z.

(** What [st.dataframe] and the writing of the Excel file raise for a
    frame, if anything: both are calls into libraries. *)
Variable st_dataframe_raises : DataFrame -> option exn.
Variable to_excel_raises : DataFrame -> option exn.

(** The block under [if run_button:]: what is on the page when it ends, and
    the exception that ends it, if any.  What was shown before an exception
    stays on the page. *)
Definition on_run (run_button : bool) (uploaded_file : option (list sheet))
  (fixed_cols : nat) (tds_keywords_input : string)
  : list widget * option exn :=
  if run_button
  then match uploaded_file with
       | None => ([st_error "Please upload an Excel file first."], None)
       | Some file =>
           match process_file numeric_text file fixed_cols
                   tds_keywords_input with
           | Raise e => ([], Some e)
           | Ok None =>
               ([st_error
                   "No valid data found. Check the file structure / header row."],
                None)
           | Ok (Some df) =>
               let shown :=
                 [ st_success
                     ("TDS Working Paper created successfully. Total rows: "
                      ++ str_len (List.length (body df)));
                   st_subheader "Preview" ] in
               match st_dataframe_raises (head 100 df) with
               | Some e => (shown, Some e)
               | None =>
                   match to_excel_raises df with
                   | Some e => (shown ++ [st_dataframe (head 100 df)], Some e)
                   | None =>
                       (shown
                        ++ [ st_dataframe (head 100 df);
                             st_download_button
                               "⬇️ Download TDS Working Paper (Excel)"
                               (to_excel df "TDS_Working_Paper")
                               "TDS_Working_Paper.xlsx"
                               "application/vnd.openxmlformats-officedocument.spreadsheetml.sheet" ],
                        None)
                   end
               end
           end
       end
  else ([], None).

End Page.

(** * Vocabulary of the properties *)

(** The first cell of row [i] of the sheet, as [raw.iloc[:, 0]] sees it. *)
Definition first_cell (s : sheet) (i : nat) : cell :=
  nth 0 (nth i (cells s) []) NaN.

(** Every cell of the sheet is empty. *)
Definition all_empty (s : sheet) : bool :=
  forallb (forallb isna) (cells s).

(** No row of the sheet starts with "date". *)
Definition no_header (s : sheet) : bool :=
  match header_row_idx (read_excel s) with
  | None => true
  | Some _ => false
  end.

(** Every row below the header row is empty. *)
Definition empty_body (s : sheet) : bool :=
  match header_row_idx (read_excel s) with
  | None => false
  | Some h => forallb (forallb isna) (skipn (S h) (cells s))
  end.

(** The three ways in which the loop passes over a sheet. *)
Definition skipped (s : sheet) : bool :=
  all_empty s || no_header s || empty_body s.

(** The table a sheet yields when there is a header row [h]. *)
Definition table_at (s : sheet) (h : nat) : DataFrame :=
  dropna {| columns := iloc_row (read_excel s) h;
            body := skipn (S h) (body (read_excel s)) |}.

(** The index labels of the rows, in order. *)
Definition index (df : DataFrame) : list nat := map fst (body df).

(** Every row has one value per column. *)
Definition rect (df : DataFrame) : Prop :=
  forall r, In r (body df) -> List.length (snd r) = List.length (columns df).

(** The value a row of [df] has in the first column labelled [col]. *)
Definition value_at (df : DataFrame) (col : cell) (r : nat * list cell)
  : cell :=
  hd NaN (pick (columns df) (snd r) col).

(** How many columns carry the label [key]. *)
Definition occurrences (cols : list cell) (key : cell) : nat :=
  List.length (pick cols cols key).

(** [sep.join(pieces)] *)
Fixpoint join (sep : ascii) (pieces : list string) : string :=
  match pieces with
  | [] => EmptyString
  | [piece] => piece
  | piece :: rest => (piece ++ String sep (join sep rest))%string
  end.

(** [c in s] for one character. *)
Fixpoint has_char (c : ascii) (s : string) : bool :=
  match s with
  | EmptyString => false
  | String a s' => Ascii.eqb a c || has_char c s'
  end.

(** The cells of a row that stand in the columns whose header matches a
    keyword, each column once, in order. *)
Definition matching_cells (data : DataFrame) (keywords : list string)
  (vals : list cell) : list cell :=
  map snd (filter (fun q => matches_keyword keywords (fst q))
                  (combine (columns data) vals)).

(** The column labels after [df[key] = ...]. *)
Definition set_label (cols : list cell) (key : cell) : list cell :=
  if has_label cols key then cols else cols ++ [key].

(** The columns of a fragment whose fixed columns are [template]. *)
Definition fragment_columns (template : list cell) : list cell :=
  set_label (set_label template TDS_Amount) LedgerName.

(** The template a sheet's table would lock. *)
Definition own_template (fixed_cols : nat) (data : DataFrame) : list cell :=
  removelast (firstn fixed_cols (columns data)) ++ [Ledger_Amount].

(** The header of the sheet's table has pairwise distinct labels, and none
    of the fixed columns before the last is already called
    [Ledger_Amount]. *)
Definition distinct_labels (fixed_cols : nat) (s : sheet) : bool :=
  match table_of (read_excel s) with
  | None => true
  | Some data =>
      is_unique (columns data)
      && negb (has_label (removelast (firstn fixed_cols (columns data)))
                         Ledger_Amount)
  end.

(** What the loop maintains on such sheets: no template and no fragment
    yet, or a template of distinct labels and fragments that all have its
    columns. *)
Definition consistent (st : state) : Prop :=
  match template_cols st with
  | None => all_ledgers st = []
  | Some template =>
      NoDup template /\ all_ledgers st <> []
      /\ forall f, In f (all_ledgers st) ->
                   columns f = fragment_columns template /\ rect f
  end.

(** How many rows a sheet contributes: the rows of its table that pass the
    exclusion filter; none when the sheet is skipped. *)
Definition retained_rows (fixed_cols : nat) (s : sheet) : nat :=
  match table_of (read_excel s) with
  | None => 0
  | Some data =>
      match (base_data <- fixed_columns data fixed_cols ;;
             drop_grand_total base_data) with
      | Ok retained => List.length (body retained)
      | Raise _ => 0
      end
  end.

(** The rows of all the fragments gathered so far. *)
Definition rows_so_far (st : state) : nat :=
  list_sum (map (fun f => List.length (body f)) (all_ledgers st)).

(** The text is the name of a sheet of the workbook that was not
    skipped. *)
Definition named_after (workbook : list sheet) (v : cell) : Prop :=
  exists s, In s workbook /\ skipped s = false /\ v = Str (sheet_name s).

(** A fragment whose rows have one value per column and, under
    [LedgerName], names of sheets of the workbook. *)
Definition tagged (workbook : list sheet) (f : DataFrame) : Prop :=
  rect f
  /\ forall r, In r (body f) ->
               pick (columns f) (snd r) LedgerName <> []
               /\ Forall (named_after workbook)
                         (pick (columns f) (snd r) LedgerName).

(** The cell a body row of a table has under the label [k] of the
    template: that of its fixed column of that label, after the renaming
    of the last one, and [pd.NA] when no fixed column has the label. *)
Definition fixed_cell (fixed_cols : nat) (data : DataFrame)
  (d : nat * list cell) (k : cell) : cell :=
  if has_label (own_template fixed_cols data) k
  then hd NaN (pick (own_template fixed_cols data)
                    (firstn fixed_cols (snd d)) k)
  else NA.

(** The body row passes the exclusion filter: there is no fixed column
    whose label mentions "particular", or the row's cell in the first such
    column does not mention "grand total". *)
Definition passes (fixed_cols : nat) (data : DataFrame)
  (d : nat * list cell) : bool :=
  match find (fun col => contains "particular" (lower (str col)))
             (own_template fixed_cols data) with
  | Some col =>
      negb (is_grand_total
              (hd NaN (pick (own_template fixed_cols data)
                            (firstn fixed_cols (snd d)) col)))
  | None => true
  end.

(** The rows a sheet gives under a template: for each body row of its
    table that passes the filter, the fixed cells under the labels of the
    template, the TDS amount of the row, and the name of the sheet. *)
Definition sheet_rows (numeric_text : string -> option Z) (fixed_cols : nat)
  (keywords : list string) (template : list cell) (s : sheet)
  : list (nat * list cell) :=
  match table_of (read_excel s) with
  | None => []
  | Some data =>
      map (fun d =>
             (fst d,
              map (fixed_cell fixed_cols data d) template
              ++ [tds_amount numeric_text data keywords (snd d);
                  Str (sheet_name s)]))
          (filter (passes fixed_cols data) (body data))
  end.

(** The fragment with these rows. *)
Definition sheet_fragment (numeric_text : string -> option Z)
  (fixed_cols : nat) (keywords : list string) (template : list cell)
  (s : sheet) : DataFrame :=
  {| columns := template ++ [TDS_Amount; LedgerName];
     body := sheet_rows numeric_text fixed_cols keywords template s |}.

(** The template a workbook locks: that of its first sheet that is not
    skipped. *)
Fixpoint first_template (fixed_cols : nat) (workbook : list sheet)
  : option (list cell) :=
  match workbook with
  | [] => None
  | s :: rest =>
      match table_of (read_excel s) with
      | Some data => Some (own_template fixed_cols data)
      | None => first_template fixed_cols rest
      end
  end.

(** Every fragment has the labels the final selection asks for. *)
Definition selectable (st : state) : Prop :=
  match template_cols st with
  | None => all_ledgers st = []
  | Some template =>
      forall f, In f (all_ledgers st) ->
                incl (template ++ [TDS_Amount; LedgerName]) (columns f)
  end.

(** A sheet whose exclusion filter raises: the label it picks among the
    fixed columns is carried by several of them. *)
Definition ambiguous_particulars (fixed_cols : nat) (s : sheet) : Prop :=
  exists data base_data col,
    table_of (read_excel s) = Some data
    /\ fixed_columns data fixed_cols = Ok base_data
    /\ particulars_col base_data = Some col
    /\ 1 < occurrences (columns base_data) col.

(** Two cells that hold the same value, or are both missing. *)
Definition alike (a b : cell) : Prop :=
  a = b \/ (isna a = true /\ isna b = true).

(** The rows of a frame as [pd.concat] delivers them among [frames]. *)
Definition settled (frames : list DataFrame) (rows : list (list cell))
  : list (list cell) :=
  match frames with
  | _ :: _ :: _ => fill_missing rows
  | _ => rows
  end.

(** A text label. *)
Definition is_text (v : cell) : bool :=
  match v with Str _ => true | _ => false end.

(** The labels of the header of the sheet's table are all text: no header
    cell is blank or a number. *)
Definition text_headers (s : sheet) : bool :=
  match table_of (read_excel s) with
  | None => true
  | Some data => forallb is_text (columns data)
  end.

(** What a cell weighs in a sum. *)
Definition magnitude (v : cell) : Z :=
  match v with Num z => Z.abs z | _ => 0%Z end.

(** The cells of the TDS columns of the sheet's table are empty or whole
    numbers, and in no row do they weigh 2^53 or more together: the sum of
    a row is then the same in [float64], in [int64] and in the integers. *)
Definition plain_amounts (keywords : list string) (s : sheet) : bool :=
  match table_of (read_excel s) with
  | None => true
  | Some data =>
      forallb (fun r =>
                 forallb (fun v => negb (is_text v))
                         (matching_cells data keywords (snd r))
                 && (fold_right Z.add 0%Z
                       (map magnitude (matching_cells data keywords (snd r)))
                     <? 2 ^ 53)%Z)
              (body data)
  end.

(** * Example workbooks *)

(** A workbook of three skipped sheets: an empty one, one without a header
    row, one with a header row and nothing below it. *)
Definition skipped_workbook : list sheet :=
  [ mkSheet "Empty" [[NaN; NaN]; [NaN]];
    mkSheet "Notes" [[Str "Ledger"; Num 3]; [Str "Dated"; Str "x"]];
    mkSheet "Bare" [[Str "Date"; Str "Amount"]; [NaN; NaN]] ].

(** A sheet of two columns. *)
Definition narrow_sheet : sheet :=
  mkSheet "Cash"
    [ [Str "Date"; Str "Amount"];
      [Str "2024-04-01"; Num 250] ].

(** The table of [narrow_sheet]. *)
Definition narrow_table : DataFrame :=
  {| columns := [Str "Date"; Str "Amount"];
     body := [(1, [Str "2024-04-01"; Num 250])] |}.

(** A sheet whose "Particulars" column is the last of the fixed columns. *)
Definition bank_sheet : sheet :=
  mkSheet "Bank"
    [ [Str "Date"; Str "Particulars"];
      [Str "2024-04-01"; Str "Grand Total"] ].

(** A sheet with a "Particulars" column before the last fixed column. *)
Definition purchases_sheet : sheet :=
  mkSheet "Purchases"
    [ [Str "Date"; Str "Particulars"; Str "Amount"];
      [Str "2024-04-01"; Str "Stationery"; Num 100];
      [Str "2024-04-30"; Str "Total for April"; Num 100];
      [NaN; Str "GRAND TOTAL"; Num 100] ].

(** Its table, and its fixed columns for [fixed_cols = 3]. *)
Definition purchases_table : DataFrame :=
  {| columns := [Str "Date"; Str "Particulars"; Str "Amount"];
     body := [ (1, [Str "2024-04-01"; Str "Stationery"; Num 100]);
               (2, [Str "2024-04-30"; Str "Total for April"; Num 100]);
               (3, [NaN; Str "GRAND TOTAL"; Num 100]) ] |}.

Definition purchases_base : DataFrame :=
  {| columns := [Str "Date"; Str "Particulars"; Ledger_Amount];
     body := body purchases_table |}.



(** The last two fixed columns share the header "Amount". *)
Definition debit_credit_sheet : sheet :=
  mkSheet "Sales"
    [ [Str "Date"; Str "Amount"; Str "Amount"];
      [Str "2024-04-01"; Num 700; Num 300] ].

(** Its table. *)
Definition debit_credit_table : DataFrame :=
  {| columns := [Str "Date"; Str "Amount"; Str "Amount"];
     body := [(1, [Str "2024-04-01"; Num 700; Num 300])] |}.

(** Two TDS columns share the header "TDS". *)
Definition two_tds_sheet : sheet :=
  mkSheet "Fees"
    [ [Str "Date"; Str "Amount"; Str "TDS"; Str "TDS"];
      [Str "2024-04-01"; Num 100; Num 10; Num 5] ].

(** A plain first sheet, and a second one with two "Date" columns. *)
Definition plain_sheet : sheet :=
  mkSheet "Rent"
    [ [Str "Date"; Str "Particulars"; Str "Amount"];
      [Str "2024-04-01"; Str "Office"; Num 1000] ].

Definition two_dates_sheet : sheet :=
  mkSheet "Loan"
    [ [Str "Date"; Str "Date"; Str "Amount"];
      [Str "2024-04-01"; Str "2024-04-03"; Num 500] ].

(** The table of the second one, and its fixed columns for
    [fixed_cols = 3]. *)
Definition two_dates_table : DataFrame :=
  {| columns := [Str "Date"; Str "Date"; Str "Amount"];
     body := [(1, [Str "2024-04-01"; Str "2024-04-03"; Num 500])] |}.

Definition two_dates_base : DataFrame :=
  {| columns := [Str "Date"; Str "Date"; Str "Date"; Str "Date";
                 Ledger_Amount];
     body := [(1, [Str "2024-04-01"; Str "2024-04-03";
                   Str "2024-04-01"; Str "2024-04-03"; Num 500])] |}.

(** A sheet with two TDS columns beyond the fixed columns and a grand
    total row between two entries. *)
Definition fees_sheet : sheet :=
  mkSheet "Fees"
    [ [Str "Professional fees"];
      [Str "Date"; Str "Particulars"; Str "Amount"; Str "TDS Payable";
       Str "Interest on TDS"];
      [Str "2024-04-01"; Str "Audit"; Num 1000; Num 100; Str "-"];
      [NaN; Str "Grand Total"; Num 1000; Num 100; Num 7];
      [Str "2024-05-01"; Str "Tax advice"; Num 500; Num 50; Num 2] ].

(** Its table, and the variables of the loop after it. *)
Definition fees_table : DataFrame :=
  {| columns := [Str "Date"; Str "Particulars"; Str "Amount";
                 Str "TDS Payable"; Str "Interest on TDS"];
     body := [ (2, [Str "2024-04-01"; Str "Audit"; Num 1000; Num 100;
                    Str "-"]);
               (3, [NaN; Str "Grand Total"; Num 1000; Num 100; Num 7]);
               (4, [Str "2024-05-01"; Str "Tax advice"; Num 500; Num 50;
                    Num 2]) ] |}.

Definition fees_state : state :=
  {| template_cols := Some [Str "Date"; Str "Particulars"; Ledger_Amount];
     all_ledgers :=
       [ {| columns := [Str "Date"; Str "Particulars"; Ledger_Amount;
                        TDS_Amount; LedgerName];
            body := [ (2, [Str "2024-04-01"; Str "Audit"; Num 1000;
                           Num 100; Str "Fees"]);
                      (4, [Str "2024-05-01"; Str "Tax advice"; Num 500;
                           Num 52; Str "Fees"]) ] |} ] |}.

(** The two sheets of the worked example of the specification: the header
    row of the first is its third row; the second has no header row. *)
Definition sheet_a : sheet :=
  mkSheet "SheetA"
    [ [Str "Ledger account"];
      [NaN];
      [Str "Date"; Str "Particulars"; Str "Amount"; Str "TDS Payable"];
      [Str "2024-01-01"; Str "Purchase"; Num 100; Num 10] ].

Definition sheet_b : sheet :=
  mkSheet "SheetB" [ [Str "Notes"; Str "none"] ].

(** A sheet whose fixed columns differ from those of [fees_sheet]. *)
Definition journal_sheet : sheet :=
  mkSheet "Journal"
    [ [Str "Date"; Str "Narration"; Str "Debit"; Str "TDS"];
      [Str "2024-06-01"; Str "Adjustment"; Num 40; Num 4] ].

(** A sheet in which two fixed columns share the header "Particulars";
    its table, and its fixed columns for [fixed_cols = 4] and more. *)
Definition two_particulars_sheet : sheet :=
  mkSheet "Creditors"
    [ [Str "Date"; Str "Particulars"; Str "Particulars"; Str "Amount"];
      [Str "2024-04-01"; Str "Paper"; Str "Ink"; Num 90] ].

Definition two_particulars_table : DataFrame :=
  {| columns := [Str "Date"; Str "Particulars"; Str "Particulars";
                 Str "Amount"];
     body := [(1, [Str "2024-04-01"; Str "Paper"; Str "Ink"; Num 90])] |}.

Definition two_particulars_base : DataFrame :=
  {| columns := [Str "Date"; Str "Particulars"; Str "Particulars";
                 Str "Particulars"; Str "Particulars"; Ledger_Amount];
     body := [(1, [Str "2024-04-01"; Str "Paper"; Str "Ink"; Str "Paper";
                   Str "Ink"; Num 90])] |}.

(** A workbook of a skipped sheet and two sheets with different fixed
    columns, and the table [process_file] returns for it with three fixed
    columns and the keyword "tds". *)
Definition fees_workbook : list sheet := [sheet_b; fees_sheet; journal_sheet].

Definition fees_result : DataFrame :=
  {| columns := [Str "Date"; Str "Particulars"; Ledger_Amount;
                 TDS_Amount; LedgerName];
     body := [ (0, [Str "2024-04-01"; Str "Audit"; Num 1000; Num 100;
                    Str "Fees"]);
               (1, [Str "2024-05-01"; Str "Tax advice"; Num 500; Num 52;
                    Str "Fees"]);
               (2, [Str "2024-06-01"; NaN; Num 40; Num 4; Str "Journal"]) ] |}.

(** The table of [sheet_a], and the variables of the loop after it. *)
Definition sheet_a_table : DataFrame :=
  {| columns := [Str "Date"; Str "Particulars"; Str "Amount";
                 Str "TDS Payable"];
     body := [(3, [Str "2024-01-01"; Str "Purchase"; Num 100; Num 10])] |}.

Definition sheet_a_state : state :=
  {| template_cols := Some [Str "Date"; Str "Particulars"; Ledger_Amount];
     all_ledgers :=
       [ {| columns := [Str "Date"; Str "Particulars"; Ledger_Amount;
                        TDS_Amount; LedgerName];
            body := [(3, [Str "2024-01-01"; Str "Purchase"; Num 100;
                          Num 10; Str "SheetA"])] |} ] |}.

(** A workbook of a skipped sheet and two sheets with different fixed
    columns, whose TDS columns hold whole numbers only. *)
Definition plain_workbook : list sheet := [sheet_b; sheet_a; journal_sheet].

(** * Properties *)

(** ** Labels and strings *)

Lemma cell_eqb_eq (a b : cell) : cell_eqb a b = true <-> a = b.
Proof.
  destruct a, b; simpl; split; intro H;
    try reflexivity; try discriminate; try congruence.
  - apply Z.eqb_eq in H. now subst.
  - inversion H. apply Z.eqb_refl.
  - apply String.eqb_eq in H. now subst.
  - inversion H. apply String.eqb_refl.
Qed.

Lemma cell_eqb_refl (a : cell) : cell_eqb a a = true.
Proof. now apply cell_eqb_eq. Qed.

Lemma cell_eqb_neq (a b : cell) : cell_eqb a b = false <-> a <> b.
Proof.
  split.
  - intros H E. apply cell_eqb_eq in E. congruence.
  - intro H. destruct (cell_eqb a b) eqn:E; [|reflexivity].
    apply cell_eqb_eq in E. contradiction.
Qed.

Lemma cell_eqb_sym (a b : cell) : cell_eqb a b = cell_eqb b a.
Proof.
  destruct (cell_eqb b a) eqn:E.
  - apply cell_eqb_eq in E. subst. apply cell_eqb_refl.
  - apply cell_eqb_neq in E. apply cell_eqb_neq. congruence.
Qed.

Lemma has_label_In (cols : list cell) (key : cell) :
  has_label cols key = true <-> In key cols.
Proof.
  unfold has_label. rewrite existsb_exists. split.
  - intros [x [Hin E]]. apply cell_eqb_eq in E. now subst.
  - intro Hin. exists key. split; [assumption | apply cell_eqb_refl].
Qed.

Lemma prefix_app (n s : string) :
  prefix n s = true <-> exists post, s = (n ++ post)%string.
Proof.
  revert s. induction n as [|a n IH]; intro s; simpl.
  - destruct s; split; eauto.
  - destruct s as [|b s]; simpl.
    + split; [discriminate | intros [post H]; discriminate].
    + destruct (ascii_dec a b) as [->|Hne].
      * rewrite IH. split; intros [post H]; exists post; congruence.
      * split; [discriminate | intros [post H]; congruence].
Qed.

(** [contains] is substring containment. *)
Lemma contains_substring (n s : string) :
  contains n s = true <-> exists pre post, s = (pre ++ n ++ post)%string.
Proof.
  induction s as [|c s IH].
  - cbn [contains]. rewrite orb_false_r, prefix_app. split.
    + intros [post H]. exists EmptyString, post. exact H.
    + intros [pre [post H]]. destruct pre; [eauto | discriminate].
  - cbn [contains]. rewrite orb_true_iff, prefix_app, IH. split.
    + intros [[post H] | [pre [post H]]].
      * exists EmptyString, post. exact H.
      * exists (String c pre), post. simpl. now rewrite H.
    + intros [pre [post H]]. destruct pre as [|c' pre].
      * left. exists post. exact H.
      * right. exists pre, post. simpl in H. congruence.
Qed.

(** ** The raw grid *)

Lemma enumerate_length {A : Type} (l : list A) (k : nat) :
  List.length (enumerate k l) = List.length l.
Proof. revert k. induction l; intro k; simpl; auto. Qed.

Lemma enumerate_fst {A : Type} (l : list A) (k : nat) :
  map fst (enumerate k l) = seq k (List.length l).
Proof. revert k. induction l; intro k; simpl; f_equal; auto. Qed.

Lemma enumerate_snd {A : Type} (l : list A) (k : nat) :
  map snd (enumerate k l) = l.
Proof. revert k. induction l; intro k; simpl; f_equal; auto. Qed.

Lemma enumerate_nth {A : Type} (l : list A) (k i : nat) (d : A) :
  i < List.length l -> nth i (enumerate k l) (k + i, d) = (k + i, nth i l d).
Proof.
  revert k i. induction l as [|x l IH]; intros k i Hi; simpl in *; [lia|].
  destruct i as [|i].
  - now rewrite Nat.add_0_r.
  - replace (k + S i) with (S k + i) by lia. apply IH. lia.
Qed.

Lemma enumerate_In {A : Type} (l : list A) (k i : nat) (x : A) :
  In (i, x) (enumerate k l) ->
  k <= i < k + List.length l /\ nth_error l (i - k) = Some x.
Proof.
  revert k. induction l as [|y l IH]; intros k H; simpl in *; [contradiction|].
  destruct H as [H | H].
  - inversion H; subst. split; [lia|]. now rewrite Nat.sub_diag.
  - apply IH in H. destruct H as [Hb Hn]. split; [lia|].
    replace (i - k) with (S (i - S k)) by lia. exact Hn.
Qed.

Lemma width_ge (g : list (list cell)) (r : list cell) :
  In r g -> List.length r <= width g.
Proof.
  induction g as [|x g IH]; simpl; [contradiction|].
  intros [-> | H]; [lia | apply IH in H; lia].
Qed.

Lemma pad_length (w : nat) (r : list cell) : List.length (pad w r) = w.
Proof. unfold pad. now rewrite length_map, length_seq. Qed.

Lemma pad_nth (w j : nat) (r : list cell) :
  List.length r <= w -> nth j (pad w r) NaN = nth j r NaN.
Proof.
  intro Hle. unfold pad. destruct (Nat.lt_ge_cases j w) as [Hj | Hj].
  - rewrite (nth_indep _ NaN (nth w r NaN))
      by (now rewrite length_map, length_seq).
    rewrite (map_nth (fun j => nth j r NaN) (seq 0 w) w j).
    now rewrite seq_nth.
  - rewrite nth_overflow by (now rewrite length_map, length_seq).
    symmetry. apply nth_overflow. lia.
Qed.

Lemma find_first_col (p : cell -> bool) (g : list (list cell)) (k : nat) :
  forall i,
    option_map fst
      (find (fun iv => p (snd iv))
            (map (fun r : nat * list cell => (fst r, nth 0 (snd r) NaN))
                 (enumerate k g))) = Some i
    <-> (k <= i < k + List.length g
         /\ p (nth 0 (nth (i - k) g []) NaN) = true
         /\ forall j, k <= j < i -> p (nth 0 (nth (j - k) g []) NaN) = false).
Proof.
  revert k. induction g as [|r g IH]; intros k i; simpl.
  - split; [discriminate | intros [H _]; lia].
  - destruct (p (nth 0 r NaN)) eqn:Hp; simpl.
    + split.
      * intro H. inversion H; subst i. rewrite Nat.sub_diag.
        repeat split; try lia; auto.
      * intros [Hb [Hi Hlow]].
        destruct (Nat.eq_dec i k) as [->|Hne]; [reflexivity|].
        specialize (Hlow k ltac:(lia)). rewrite Nat.sub_diag in Hlow.
        congruence.
    + rewrite IH. split.
      * intros [Hb [Hi Hlow]].
        replace (i - k) with (S (i - S k)) by lia.
        repeat split; try lia; auto.
        intros j Hj. destruct (Nat.eq_dec j k) as [->|Hne].
        -- now rewrite Nat.sub_diag.
        -- replace (j - k) with (S (j - S k)) by lia. apply Hlow. lia.
      * intros [Hb [Hi Hlow]].
        assert (i <> k).
        { intros ->. rewrite Nat.sub_diag in Hi. congruence. }
        replace (i - k) with (S (i - S k)) in Hi by lia.
        repeat split; try lia; auto.
        intros j Hj. specialize (Hlow j ltac:(lia)).
        replace (j - k) with (S (j - S k)) in Hlow by lia. exact Hlow.
Qed.

Lemma find_first_col_None (p : cell -> bool) (g : list (list cell)) (k : nat) :
  option_map fst
    (find (fun iv => p (snd iv))
          (map (fun r : nat * list cell => (fst r, nth 0 (snd r) NaN))
               (enumerate k g))) = None
  <-> forall j, j < List.length g -> p (nth 0 (nth j g []) NaN) = false.
Proof.
  revert k. induction g as [|r g IH]; intro k; simpl.
  - split; [intros _ j Hj; lia | reflexivity].
  - destruct (p (nth 0 r NaN)) eqn:Hp; simpl.
    + split; [discriminate|]. intro H. specialize (H 0 ltac:(lia)).
      simpl in H. congruence.
    + rewrite IH. split.
      * intros H [|j] Hj; [assumption | apply H; lia].
      * intros H j Hj. apply (H (S j)). lia.
Qed.

Lemma padded_first_cell (s : sheet) (i : nat) :
  nth 0 (nth i (map (pad (width (cells s))) (cells s)) []) NaN
  = first_cell s i.
Proof.
  unfold first_cell.
  destruct (Nat.lt_ge_cases i (List.length (cells s))) as [Hi | Hi].
  - rewrite (nth_indep _ [] (pad (width (cells s)) []))
      by (now rewrite length_map).
    rewrite map_nth. apply pad_nth. apply width_ge. now apply nth_In.
  - rewrite (nth_overflow (map _ _)) by (now rewrite length_map).
    now rewrite (nth_overflow (cells s)) by assumption.
Qed.

Lemma header_row_idx_Some (s : sheet) (i : nat) :
  header_row_idx (read_excel s) = Some i
  <-> (i < List.length (cells s)
       /\ is_date (first_cell s i) = true
       /\ forall j, j < i -> is_date (first_cell s j) = false).
Proof.
  unfold header_row_idx, first_col, read_excel; simpl.
  rewrite find_first_col, length_map. rewrite Nat.sub_0_r.
  rewrite padded_first_cell. split.
  - intros [Hb [Hi Hlow]]. repeat split; try lia; auto.
    intros j Hj. specialize (Hlow j ltac:(lia)).
    now rewrite Nat.sub_0_r, padded_first_cell in Hlow.
  - intros [Hb [Hi Hlow]]. repeat split; try lia; auto.
    intros j Hj. rewrite Nat.sub_0_r, padded_first_cell. apply Hlow. lia.
Qed.

Lemma header_row_idx_None (s : sheet) :
  header_row_idx (read_excel s) = None
  <-> forall j, j < List.length (cells s) -> is_date (first_cell s j) = false.
Proof.
  unfold header_row_idx, first_col, read_excel; simpl.
  rewrite find_first_col_None, length_map. split.
  - intros H j Hj. rewrite <- padded_first_cell. now apply H.
  - intros H j Hj. rewrite padded_first_cell. now apply H.
Qed.

Lemma is_date_spec (v : cell) :
  is_date v = true <-> lower (strip (str v)) = "date".
Proof. unfold is_date. apply String.eqb_eq. Qed.

(** C3.  The header row of a sheet is the lowest row whose first cell, as
    text, stripped and lowercased, is exactly "date"; when no row has such
    a first cell the loop moves on to the next sheet with its variables
    untouched, so the sheet contributes nothing and no other row is taken
    as a header. *)
Theorem header_row_is_first_date_row (s : sheet) :
  (forall i,
      header_row_idx (read_excel s) = Some i
      <-> (i < List.length (cells s)
           /\ lower (strip (str (first_cell s i))) = "date"
           /\ forall j, j < i ->
                        lower (strip (str (first_cell s j))) <> "date"))
  /\ (header_row_idx (read_excel s) = None
      <-> forall j, j < List.length (cells s) ->
                    lower (strip (str (first_cell s j))) <> "date")
  /\ (header_row_idx (read_excel s) = None ->
      forall numeric_text fixed_cols keywords st,
        process_sheet numeric_text fixed_cols keywords st s = Ok st).
Proof.
  split; [|split].
  - intro i. rewrite header_row_idx_Some, is_date_spec. split.
    + intros [Hb [Hi Hlow]]. repeat split; auto.
      intros j Hj E. apply is_date_spec in E.
      rewrite (Hlow j Hj) in E. discriminate.
    + intros [Hb [Hi Hlow]]. repeat split; auto.
      intros j Hj. destruct (is_date (first_cell s j)) eqn:E; [|reflexivity].
      apply is_date_spec in E. now apply Hlow in E.
  - rewrite header_row_idx_None. split.
    + intros H j Hj E. apply is_date_spec in E. rewrite (H j Hj) in E.
      discriminate.
    + intros H j Hj. destruct (is_date (first_cell s j)) eqn:E; [|reflexivity].
      apply is_date_spec in E. now apply H in E.
  - intros Hnone numeric_text fixed_cols keywords st.
    unfold process_sheet, table_of. rewrite Hnone.
    now destruct (empty (dropna (read_excel s))).
Qed.

(** ** Skipped sheets *)

Lemma forallb_isna_pad (w : nat) (r : list cell) :
  List.length r <= w -> forallb isna (pad w r) = forallb isna r.
Proof.
  intro Hle. apply eq_true_iff_eq. rewrite !forallb_forall. split.
  - intros H v Hv. apply (In_nth _ _ NaN) in Hv. destruct Hv as [j [Hj E]].
    apply H. unfold pad. apply in_map_iff. exists j. split; [exact E|].
    apply in_seq. lia.
  - intros H v Hv. unfold pad in Hv. apply in_map_iff in Hv.
    destruct Hv as [j [E _]]. subst v.
    destruct (Nat.lt_ge_cases j (List.length r)) as [Hj | Hj].
    + apply H. now apply nth_In.
    + now rewrite nth_overflow.
Qed.

Lemma forallb_isna_padded (w : nat) (g : list (list cell)) :
  (forall r, In r g -> List.length r <= w) ->
  forallb (forallb isna) (map (pad w) g) = forallb (forallb isna) g.
Proof.
  induction g as [|r g IH]; intro H; simpl; [reflexivity|].
  rewrite forallb_isna_pad by (apply H; now left).
  f_equal. apply IH. intros x Hx. apply H. now right.
Qed.

Lemma dropna_rows_nil (g : list (list cell)) (k : nat) :
  filter (fun r : nat * list cell => negb (forallb isna (snd r)))
         (enumerate k g) = []
  <-> forallb (forallb isna) g = true.
Proof.
  revert k. induction g as [|r g IH]; intro k; simpl; [tauto|].
  destruct (forallb isna r); simpl; [apply IH|].
  split; discriminate.
Qed.

Lemma skipn_enumerate {A : Type} (n k : nat) (l : list A) :
  skipn n (enumerate k l) = enumerate (k + n) (skipn n l).
Proof.
  revert k l. induction n as [|n IH]; intros k l.
  - simpl. now rewrite Nat.add_0_r.
  - destruct l as [|x l]; simpl; [reflexivity|].
    rewrite IH. f_equal. lia.
Qed.

Lemma In_skipn {A : Type} (n : nat) (l : list A) (x : A) :
  In x (skipn n l) -> In x l.
Proof.
  intro H. rewrite <- (firstn_skipn n l). apply in_or_app. now right.
Qed.

Lemma empty_false (df : DataFrame) :
  empty df = false <-> columns df <> [] /\ body df <> [].
Proof.
  unfold empty. destruct (columns df), (body df); split;
    try discriminate; try (intros [H1 H2]; congruence);
    intros _; split; discriminate.
Qed.

Lemma width_0 (g : list (list cell)) :
  width g = 0 -> forallb (forallb isna) g = true.
Proof.
  intro Hw. apply forallb_forall. intros r Hr.
  apply width_ge in Hr. rewrite Hw in Hr.
  destruct r; [reflexivity | simpl in Hr; lia].
Qed.

Lemma raw_empty (s : sheet) :
  empty (dropna (read_excel s)) = all_empty s.
Proof.
  unfold all_empty.
  assert (Hpad : forallb (forallb isna)
                   (map (pad (width (cells s))) (cells s))
                 = forallb (forallb isna) (cells s)).
  { apply forallb_isna_padded. intros r. apply width_ge. }
  destruct (forallb (forallb isna) (cells s)) eqn:E.
  - unfold empty, dropna, read_excel; simpl.
    apply (dropna_rows_nil _ 0) in Hpad. rewrite Hpad.
    now destruct (map _ (seq 0 (width (cells s)))).
  - apply empty_false. unfold dropna, read_excel; simpl. split.
    + destruct (width (cells s)) eqn:Hw; [|discriminate].
      apply width_0 in Hw. congruence.
    + intro H. apply dropna_rows_nil in H. congruence.
Qed.

Lemma table_at_columns (s : sheet) (h : nat) :
  h < List.length (cells s) ->
  columns (table_at s h) = pad (width (cells s)) (nth h (cells s) []).
Proof.
  intro Hh. unfold table_at, dropna, iloc_row, read_excel; simpl.
  rewrite (nth_indep _ (h, []) (0 + h, []))
    by (now rewrite enumerate_length, length_map).
  rewrite enumerate_nth by (now rewrite length_map). simpl.
  rewrite (nth_indep _ [] (pad (width (cells s)) []))
    by (now rewrite length_map).
  now rewrite map_nth.
Qed.

Lemma table_at_empty (s : sheet) (h : nat) :
  h < List.length (cells s) -> all_empty s = false ->
  empty (table_at s h)
  = forallb (forallb isna) (skipn (S h) (cells s)).
Proof.
  intros Hh Hne.
  assert (Hpad : forallb (forallb isna)
                   (map (pad (width (cells s))) (skipn (S h) (cells s)))
                 = forallb (forallb isna) (skipn (S h) (cells s))).
  { apply forallb_isna_padded. intros r Hr. apply width_ge.
    now apply In_skipn in Hr. }
  assert (Hbody : body (table_at s h)
                  = filter (fun r : nat * list cell =>
                              negb (forallb isna (snd r)))
                      (enumerate (0 + S h)
                         (map (pad (width (cells s)))
                              (skipn (S h) (cells s))))).
  { unfold table_at, dropna, read_excel. cbn [body].
    now rewrite skipn_enumerate, skipn_map. }
  destruct (forallb (forallb isna) (skipn (S h) (cells s))) eqn:E.
  - unfold empty. rewrite Hbody.
    apply (dropna_rows_nil _ (0 + S h)) in Hpad. rewrite Hpad.
    now destruct (columns (table_at s h)).
  - apply empty_false. split.
    + rewrite table_at_columns by assumption. intro H.
      apply (f_equal (@List.length cell)) in H.
      rewrite pad_length in H. simpl in H.
      apply width_0 in H. unfold all_empty in Hne. congruence.
    + rewrite Hbody. intro H. apply dropna_rows_nil in H. congruence.
Qed.

Lemma table_of_read_excel (s : sheet) :
  table_of (read_excel s)
  = if skipped s then None
    else match header_row_idx (read_excel s) with
         | None => None
         | Some h => Some (table_at s h)
         end.
Proof.
  unfold table_of, skipped, no_header, empty_body.
  rewrite raw_empty.
  destruct (all_empty s) eqn:Hall; [reflexivity|]. cbn [orb].
  destruct (header_row_idx (read_excel s)) as [h|] eqn:Hh; [|reflexivity].
  cbv zeta.
  change (dropna {| columns := iloc_row (read_excel s) h;
                    body := skipn (S h) (body (read_excel s)) |})
    with (table_at s h).
  rewrite table_at_empty; auto.
  now apply header_row_idx_Some in Hh.
Qed.

Lemma table_of_None (s : sheet) :
  table_of (read_excel s) = None <-> skipped s = true.
Proof.
  rewrite table_of_read_excel.
  destruct (skipped s) eqn:Hs; [tauto|].
  unfold skipped, no_header in Hs.
  destruct (header_row_idx (read_excel s)).
  - split; discriminate.
  - rewrite orb_true_r in Hs. discriminate.
Qed.

Lemma table_of_columns (s : sheet) (data : DataFrame) :
  table_of (read_excel s) = Some data ->
  columns data <> [] /\ body data <> [].
Proof.
  unfold table_of. destruct (empty (dropna (read_excel s))); [discriminate|].
  destruct (header_row_idx (read_excel s)); [|discriminate].
  match goal with |- context [empty ?d] => destruct (empty d) eqn:E end;
    [discriminate|].
  intro H. inversion H; subst. now apply empty_false.
Qed.

Section Loop.

Variable numeric_text : string -> option Z.
Variable fixed_cols : nat.
Variable keywords : list string.

Lemma process_sheet_skipped (st : state) (s : sheet) :
  skipped s = true ->
  process_sheet numeric_text fixed_cols keywords st s = Ok st.
Proof.
  intro H. apply table_of_None in H. unfold process_sheet. now rewrite H.
Qed.

Lemma process_sheets_app (st : state) (a b : list sheet) :
  process_sheets numeric_text fixed_cols keywords st (a ++ b)
  = (st' <- process_sheets numeric_text fixed_cols keywords st a ;;
     process_sheets numeric_text fixed_cols keywords st' b).
Proof.
  revert st. induction a as [|s a IH]; intro st; simpl; [reflexivity|].
  destruct (process_sheet numeric_text fixed_cols keywords st s); simpl;
    [apply IH | reflexivity].
Qed.

Lemma process_sheets_skipped (st : state) (workbook : list sheet) :
  forallb skipped workbook = true ->
  process_sheets numeric_text fixed_cols keywords st workbook = Ok st.
Proof.
  induction workbook as [|s wb IH]; simpl; [reflexivity|].
  intro H. apply andb_true_iff in H. destruct H as [Hs Hwb].
  rewrite process_sheet_skipped by assumption. simpl. now apply IH.
Qed.

Lemma process_sheets_drop_skipped (st : state) (a b : list sheet) (s : sheet) :
  skipped s = true ->
  process_sheets numeric_text fixed_cols keywords st (a ++ s :: b)
  = process_sheets numeric_text fixed_cols keywords st (a ++ b).
Proof.
  intro H. rewrite !process_sheets_app.
  destruct (process_sheets numeric_text fixed_cols keywords st a); simpl;
    [|reflexivity].
  now rewrite process_sheet_skipped.
Qed.

Lemma process_sheet_ledgers (st st' : state) (s : sheet) :
  process_sheet numeric_text fixed_cols keywords st s = Ok st' ->
  (skipped s = true /\ st' = st)
  \/ (skipped s = false
      /\ exists fragment, all_ledgers st' = all_ledgers st ++ [fragment]).
Proof.
  intro H. destruct (skipped s) eqn:Hs.
  - left. rewrite process_sheet_skipped in H by assumption.
    inversion H. now split.
  - right. split; [reflexivity|]. unfold process_sheet in H.
    destruct (table_of (read_excel s)) as [data|] eqn:Ht.
    2:{ apply table_of_None in Ht. congruence. }
    destruct (fixed_columns data fixed_cols) as [bd|e]; simpl in H;
      [|discriminate].
    destruct (drop_grand_total bd) as [ret|e]; simpl in H; [|discriminate].
    destruct (align (template_cols st) ret) as [al|e]; simpl in H;
      [|discriminate].
    destruct (add_tds_amount numeric_text data (snd al) keywords) as [wt|e];
      simpl in H; [|discriminate].
    inversion H. simpl. eexists. reflexivity.
Qed.

Lemma process_sheets_no_ledgers (workbook : list sheet) :
  forall st st',
    process_sheets numeric_text fixed_cols keywords st workbook = Ok st' ->
    all_ledgers st' = [] ->
    forallb skipped workbook = true /\ all_ledgers st = [].
Proof.
  induction workbook as [|s wb IH]; intros st st' H Hnil; simpl in *.
  - inversion H; subst. now split.
  - destruct (process_sheet numeric_text fixed_cols keywords st s)
      as [st1|e] eqn:E1; simpl in H; [|discriminate].
    destruct (IH st1 st' H Hnil) as [Hwb Hst1].
    destruct (process_sheet_ledgers _ _ _ E1)
      as [[Hs ->] | [_ [fragment Hf]]].
    + rewrite Hs. now split.
    + rewrite Hf in Hst1. apply app_eq_nil in Hst1.
      destruct Hst1 as [_ Hst1]. discriminate.
Qed.

End Loop.

(** C6.  A workbook whose sheets are all skipped (all cells empty, no header
    row, or nothing but empty rows below the header) makes [process_file]
    return [None], which is not a table, not even one without rows; a
    skipped sheet raises nothing and leaves no trace: the run gives what it
    gives without that sheet; a run that returns a table has a sheet that
    was not skipped; and [None] is returned for no other workbook. *)
Theorem skipped_sheets_give_no_data
  (numeric_text : string -> option Z) (fixed_cols : nat)
  (tds_keywords_raw : string) :
  (forall workbook,
      forallb skipped workbook = true ->
      process_file numeric_text workbook fixed_cols tds_keywords_raw = Ok None)
  /\ (forall a s b,
         skipped s = true ->
         process_file numeric_text (a ++ s :: b) fixed_cols tds_keywords_raw
         = process_file numeric_text (a ++ b) fixed_cols tds_keywords_raw)
  /\ (forall workbook table,
         process_file numeric_text workbook fixed_cols tds_keywords_raw
         = Ok (Some table) ->
         exists s, In s workbook /\ skipped s = false)
  /\ (forall workbook,
         process_file numeric_text workbook fixed_cols tds_keywords_raw
         = Ok None ->
         forallb skipped workbook = true).
Proof.
  split; [|split; [|split]].
  - intros workbook H. unfold process_file.
    now rewrite process_sheets_skipped.
  - intros a s b H. unfold process_file.
    now rewrite process_sheets_drop_skipped.
  - intros workbook table H.
    destruct (forallb skipped workbook) eqn:E.
    + unfold process_file in H. rewrite process_sheets_skipped in H by exact E.
      discriminate.
    + assert (Hex : existsb (fun s => negb (skipped s)) workbook = true).
      { clear H. induction workbook as [|s wb IH]; simpl in *; [discriminate|].
        destruct (skipped s); simpl in *; auto. }
      apply existsb_exists in Hex. destruct Hex as [s [Hin Hs]].
      exists s. split; [assumption|]. now apply negb_true_iff.
  - intros workbook H. unfold process_file in H.
    destruct (process_sheets numeric_text fixed_cols
                (tds_keywords tds_keywords_raw)
                {| template_cols := None; all_ledgers := [] |} workbook)
      as [st|e] eqn:E; cbn [bind] in H; [|discriminate].
    destruct (all_ledgers st) as [|f rest] eqn:El.
    + now apply (process_sheets_no_ledgers _ _ _ _ _ _ E El).
    + destruct (concat (f :: rest)) as [df|e]; cbn [bind] in H;
        [|discriminate].
      destruct (template_cols st) as [t|]; [|discriminate].
      destruct (getitem_list df (t ++ [TDS_Amount; LedgerName]));
        cbn [bind] in H; discriminate.
Qed.

Lemma skipped_sheets_give_no_data_witness :
  forallb skipped skipped_workbook = true
  /\ process_file (fun _ => None) skipped_workbook 21 "tds" = Ok None.
Proof.
  split.
  - vm_compute. reflexivity.
  - apply (proj1 (skipped_sheets_give_no_data (fun _ => None) 21 "tds")).
    vm_compute. reflexivity.
Defined.

(** ** Selecting columns *)

Lemma forallb_has_label_incl (cols keys : list cell) :
  forallb (has_label cols) keys = true <-> incl keys cols.
Proof.
  rewrite forallb_forall. unfold incl. split; intros H k Hk.
  - apply has_label_In. now apply H.
  - apply has_label_In. now apply H.
Qed.

Lemma getitem_list_Ok (df : DataFrame) (keys : list cell) :
  incl keys (columns df) ->
  getitem_list df keys
  = Ok {| columns := take (columns df) (columns df) keys;
          body := map (fun r => (fst r, take (columns df) (snd r) keys))
                      (body df) |}.
Proof.
  intro H. unfold getitem_list.
  now rewrite (proj2 (forallb_has_label_incl _ _) H).
Qed.

Lemma firstn_incl {A : Type} (n : nat) (l : list A) : incl (firstn n l) l.
Proof.
  intros x Hx. rewrite <- (firstn_skipn n l). apply in_or_app. now left.
Qed.

Lemma last_label_Ok (l : list cell) :
  l <> [] -> exists c, last_label l = Ok c /\ In c l.
Proof.
  intro H. unfold last_label. destruct (rev l) as [|c r] eqn:E.
  - apply (f_equal (@rev cell)) in E. rewrite rev_involutive in E.
    simpl in E. contradiction.
  - exists c. split; [reflexivity|]. apply in_rev. rewrite E. now left.
Qed.

(** The step that uses [fixed_cols] raises nothing as soon as there is a
    column and [fixed_cols] is at least 1. *)
Lemma fixed_columns_Ok (data : DataFrame) (fixed_cols : nat) :
  columns data <> [] -> 1 <= fixed_cols ->
  exists old,
    last_label (base_cols data fixed_cols) = Ok old
    /\ fixed_columns data fixed_cols
       = Ok (rename
               {| columns := take (columns data) (columns data)
                                  (base_cols data fixed_cols);
                  body := map (fun r =>
                                 (fst r, take (columns data) (snd r)
                                              (base_cols data fixed_cols)))
                              (body data) |}
               old Ledger_Amount).
Proof.
  intros Hcols HX.
  assert (Hne : base_cols data fixed_cols <> []).
  { unfold base_cols. destruct (columns data); [contradiction|].
    destruct fixed_cols; [lia | discriminate]. }
  destruct (last_label_Ok _ Hne) as [old [Hold _]].
  exists old. split; [assumption|].
  unfold fixed_columns.
  rewrite getitem_list_Ok by apply firstn_incl.
  simpl. now rewrite Hold.
Qed.

(** Beyond the width of the table [data.columns[:fixed_cols]] is the whole
    header. *)
Lemma base_cols_beyond_width (data : DataFrame) (fixed_cols : nat) :
  List.length (columns data) <= fixed_cols ->
  base_cols data fixed_cols = columns data.
Proof. intro H. unfold base_cols. now apply firstn_all2. Qed.

(** C8 on [two_particulars_sheet] with [fixed_cols = 21]: the sheet's table
    has four columns, two of them labelled "Particulars"; the slice
    [data.loc[:, base_cols]], by label, has six columns, not the four that
    exist, and the run ends with [AttributeError], raised by the exclusion
    filter on the repeated label. *)
Lemma fixed_cols_beyond_width_repeated_label
  (numeric_text : string -> option Z) :
  table_of (read_excel two_particulars_sheet) = Some two_particulars_table
  /\ List.length (columns two_particulars_table) = 4
  /\ base_cols two_particulars_table 21 = columns two_particulars_table
  /\ fixed_columns two_particulars_table 21 = Ok two_particulars_base
  /\ List.length (columns two_particulars_base) = 6
  /\ process_file numeric_text [two_particulars_sheet] 21 "tds"
     = Raise AttributeError.
Proof. repeat split; vm_compute; reflexivity. Qed.

(** ** Frames: index labels and row lengths *)

Lemma pick_length {A B : Type} (cols : list cell) (v1 : list A) (v2 : list B)
  (key : cell) :
  List.length v1 = List.length v2 ->
  List.length (pick cols v1 key) = List.length (pick cols v2 key).
Proof.
  unfold pick. rewrite !length_map.
  revert v1 v2. induction cols as [|c cols IH]; intros v1 v2 H; [reflexivity|].
  destruct v1, v2; simpl in *; try discriminate; [reflexivity|].
  destruct (cell_eqb c key); simpl; auto.
Qed.

Lemma take_length {A B : Type} (cols : list cell) (v1 : list A) (v2 : list B)
  (keys : list cell) :
  List.length v1 = List.length v2 ->
  List.length (take cols v1 keys) = List.length (take cols v2 keys).
Proof.
  intro H. unfold take. induction keys as [|k keys IH]; simpl; [reflexivity|].
  rewrite !length_app, IH. f_equal. now apply pick_length.
Qed.

Lemma getitem_list_inv (df df' : DataFrame) (keys : list cell) :
  getitem_list df keys = Ok df' ->
  columns df' = take (columns df) (columns df) keys
  /\ body df' = map (fun r => (fst r, take (columns df) (snd r) keys))
                    (body df).
Proof.
  unfold getitem_list. destruct (forallb _ keys); [|discriminate].
  intro H. inversion H; subst. now split.
Qed.

Lemma getitem_list_index (df df' : DataFrame) (keys : list cell) :
  getitem_list df keys = Ok df' -> index df' = index df.
Proof.
  intro H. apply getitem_list_inv in H. destruct H as [_ Hb].
  unfold index. rewrite Hb, map_map. reflexivity.
Qed.

Lemma getitem_list_rect (df df' : DataFrame) (keys : list cell) :
  rect df -> getitem_list df keys = Ok df' -> rect df'.
Proof.
  intros Hr H. apply getitem_list_inv in H. destruct H as [Hc Hb].
  intros r' Hin. rewrite Hb in Hin. apply in_map_iff in Hin.
  destruct Hin as [r [<- Hin]]. simpl. rewrite Hc.
  apply take_length. now apply Hr.
Qed.

Lemma rename_rect (df : DataFrame) (old new : cell) :
  rect df -> rect (rename df old new).
Proof.
  intros Hr r Hin. simpl. rewrite length_map. now apply Hr.
Qed.

Lemma filter_combine_mask {A : Type} (g : A -> bool) (l : list (nat * A))
  (h : nat * A -> nat * list cell) (rows : list (nat * list cell)) :
  rows = map h l ->
  map fst (filter (fun p : (nat * list cell) * (nat * bool) => snd (snd p))
                  (combine rows (map (fun iv => (fst iv, g (snd iv))) l)))
  = map h (filter (fun iv => g (snd iv)) l).
Proof.
  intros ->. induction l as [|x l IH]; simpl; [reflexivity|].
  destruct (g (snd x)); simpl; now rewrite IH.
Qed.

Lemma boolean_filter_incl (df : DataFrame) (mask : list (nat * bool)) :
  incl (body (boolean_filter df mask)) (body df).
Proof.
  intros r Hin. unfold boolean_filter in Hin. simpl in Hin.
  apply in_map_iff in Hin. destruct Hin as [[r' m] [<- Hin]].
  apply filter_In in Hin. destruct Hin as [Hin _].
  now apply in_combine_l in Hin.
Qed.

Lemma setitem_index (df : DataFrame) (key : cell) (value : nat -> cell) :
  index (setitem df key value) = index df.
Proof.
  unfold index, setitem. destruct (has_label (columns df) key); simpl;
    now rewrite map_map.
Qed.

Lemma setitem_rect (df : DataFrame) (key : cell) (value : nat -> cell) :
  rect df -> rect (setitem df key value).
Proof.
  intros Hr r' Hin. unfold setitem in *.
  destruct (has_label (columns df) key); simpl in *;
    apply in_map_iff in Hin; destruct Hin as [r [<- Hin]]; simpl.
  - rewrite length_map, length_combine, (Hr r Hin). apply Nat.min_id.
  - rewrite !length_app, (Hr r Hin). reflexivity.
Qed.

Lemma add_missing_index (template : list cell) (df : DataFrame) :
  index (add_missing template df) = index df.
Proof.
  unfold add_missing. revert df.
  induction template as [|c t IH]; intro df; simpl; [reflexivity|].
  rewrite IH. destruct (has_label (columns df) c); [reflexivity|].
  apply setitem_index.
Qed.

Lemma add_missing_rect (template : list cell) (df : DataFrame) :
  rect df -> rect (add_missing template df).
Proof.
  unfold add_missing. revert df.
  induction template as [|c t IH]; intros df Hr; simpl; [assumption|].
  apply IH. destruct (has_label (columns df) c); [assumption|].
  now apply setitem_rect.
Qed.

Lemma NoDup_map_fst_filter {A : Type} (p : nat * A -> bool)
  (l : list (nat * A)) :
  NoDup (map fst l) -> NoDup (map fst (filter p l)).
Proof.
  induction l as [|x l IH]; simpl; intro H; [constructor|].
  inversion H as [|? ? Hnotin Hnd]; subst.
  destruct (p x); simpl; [|now apply IH].
  constructor; [|now apply IH].
  intro Hin. apply Hnotin. apply in_map_iff in Hin.
  destruct Hin as [y [E Hy]]. apply filter_In in Hy.
  apply in_map_iff. exists y. tauto.
Qed.

Lemma table_at_rect (s : sheet) (h : nat) :
  h < List.length (cells s) -> rect (table_at s h).
Proof.
  intros Hh r Hin. rewrite table_at_columns by assumption.
  rewrite pad_length.
  unfold table_at, dropna, read_excel in Hin. cbn [body] in Hin.
  apply filter_In in Hin. destruct Hin as [Hin _].
  apply In_skipn in Hin. destruct r as [i vals].
  apply enumerate_In in Hin. destruct Hin as [_ Hn].
  apply nth_error_In in Hn. apply in_map_iff in Hn.
  destruct Hn as [x [<- _]]. apply pad_length.
Qed.

Lemma table_at_index_NoDup (s : sheet) (h : nat) :
  NoDup (index (table_at s h)).
Proof.
  unfold index, table_at, dropna, read_excel. cbn [body].
  apply NoDup_map_fst_filter.
  rewrite skipn_enumerate, enumerate_fst. apply seq_NoDup.
Qed.

Lemma table_of_table_at (s : sheet) (data : DataFrame) :
  table_of (read_excel s) = Some data ->
  exists h, header_row_idx (read_excel s) = Some h
            /\ h < List.length (cells s) /\ data = table_at s h.
Proof.
  rewrite table_of_read_excel. destruct (skipped s); [discriminate|].
  destruct (header_row_idx (read_excel s)) as [h|] eqn:Hh; [|discriminate].
  intro H. inversion H. exists h. repeat split.
  now apply header_row_idx_Some in Hh.
Qed.

Lemma table_of_rect (s : sheet) (data : DataFrame) :
  table_of (read_excel s) = Some data ->
  rect data /\ NoDup (index data).
Proof.
  intro H. apply table_of_table_at in H. destruct H as [h [_ [Hh ->]]].
  split; [now apply table_at_rect | apply table_at_index_NoDup].
Qed.

(** ** Values under a label *)

Lemma combine_map_pairs {A B : Type} (f : cell * A -> B) (cols : list cell)
  (vals : list A) :
  combine cols (map f (combine cols vals))
  = map (fun p => (fst p, f p)) (combine cols vals).
Proof.
  revert vals. induction cols as [|c cols IH]; intro vals; [reflexivity|].
  destruct vals as [|v vals]; simpl; [reflexivity|]. now rewrite IH.
Qed.

Lemma pick_overwrite (cols vals : list cell) (key k' v : cell) :
  pick cols
       (map (fun p => if cell_eqb (fst p) key then v else snd p)
            (combine cols vals)) k'
  = if cell_eqb k' key then map (fun _ => v) (pick cols vals key)
    else pick cols vals k'.
Proof.
  unfold pick. rewrite combine_map_pairs.
  induction (combine cols vals) as [|[c x] l IH]; simpl.
  - now destruct (cell_eqb k' key).
  - destruct (cell_eqb k' key) eqn:Ek.
    + apply cell_eqb_eq in Ek. subst k'.
      destruct (cell_eqb c key); simpl; now rewrite IH.
    + destruct (cell_eqb c k') eqn:Ec; simpl; rewrite IH; [|reflexivity].
      apply cell_eqb_eq in Ec. subst c. now rewrite Ek.
Qed.

Lemma combine_snoc {A B : Type} (l : list A) (l' : list B) (x : A) (y : B) :
  List.length l = List.length l' ->
  combine (l ++ [x]) (l' ++ [y]) = combine l l' ++ [(x, y)].
Proof.
  revert l'. induction l as [|a l IH]; intros [|b l'] H; simpl in *;
    try discriminate; [reflexivity|].
  f_equal. apply IH. now inversion H.
Qed.

Lemma pick_snoc {A : Type} (cols : list cell) (vals : list A) (c k : cell)
  (v : A) :
  List.length vals = List.length cols ->
  pick (cols ++ [c]) (vals ++ [v]) k
  = pick cols vals k ++ (if cell_eqb c k then [v] else []).
Proof.
  intro H. unfold pick. rewrite combine_snoc by now symmetry.
  rewrite filter_app, map_app. simpl. now destruct (cell_eqb c k).
Qed.

Lemma pick_labels (cols : list cell) (key : cell) :
  pick cols cols key = repeat key (List.length (pick cols cols key)).
Proof.
  unfold pick. induction cols as [|c cols IH]; simpl; [reflexivity|].
  destruct (cell_eqb c key) eqn:E; simpl; [|exact IH].
  apply cell_eqb_eq in E. subst c. f_equal. exact IH.
Qed.

Lemma pick_none {A : Type} (cols : list cell) (vals : list A) (key : cell) :
  has_label cols key = false -> pick cols vals key = [].
Proof.
  unfold pick, has_label. revert vals.
  induction cols as [|c cols IH]; intros vals H; [reflexivity|].
  simpl in H. apply orb_false_iff in H. destruct H as [Hc Hrest].
  destruct vals as [|v vals]; simpl; [reflexivity|].
  rewrite cell_eqb_sym, Hc. now apply IH.
Qed.

Lemma pick_some (cols : list cell) (vals : list cell) (key : cell) :
  has_label cols key = true -> List.length vals = List.length cols ->
  pick cols vals key <> [].
Proof.
  intros Hl Hlen Hnil. apply (f_equal (@List.length cell)) in Hnil.
  rewrite (pick_length cols vals cols key Hlen) in Hnil.
  apply has_label_In in Hl. clear Hlen vals. unfold pick in Hnil.
  induction cols as [|c cols IH]; simpl in *; [contradiction|].
  destruct (cell_eqb c key) eqn:E; simpl in *; [discriminate|].
  destruct Hl as [-> | Hl]; [|now apply IH].
  rewrite cell_eqb_refl in E. discriminate.
Qed.

(** What [df[key] = value] leaves in a row: [value] under [key], in at
    least one place, and the other labels as they were. *)
Lemma setitem_row (df : DataFrame) (key : cell) (value : nat -> cell)
  (r' : nat * list cell) :
  rect df ->
  In r' (body (setitem df key value)) ->
  exists r,
    In r (body df) /\ fst r' = fst r
    /\ pick (columns (setitem df key value)) (snd r') key <> []
    /\ Forall (eq (value (fst r)))
              (pick (columns (setitem df key value)) (snd r') key)
    /\ forall k', k' <> key ->
                  pick (columns (setitem df key value)) (snd r') k'
                  = pick (columns df) (snd r) k'.
Proof.
  intros Hr Hin. unfold setitem in *.
  destruct (has_label (columns df) key) eqn:Hl; simpl in *;
    apply in_map_iff in Hin; destruct Hin as [r [<- Hin]];
    exists r; simpl; (split; [assumption|]); (split; [reflexivity|]).
  - rewrite pick_overwrite, cell_eqb_refl. repeat split.
    + intro H. apply map_eq_nil in H. revert H.
      apply pick_some; [assumption | now apply Hr].
    + apply Forall_forall. intros x Hx. apply in_map_iff in Hx.
      now destruct Hx as [_ [<- _]].
    + intros k' Hk. rewrite pick_overwrite.
      apply cell_eqb_neq in Hk. now rewrite Hk.
  - rewrite pick_snoc, cell_eqb_refl, (pick_none _ _ _ Hl) by now apply Hr.
    simpl. repeat split; [discriminate | now constructor |].
    intros k' Hk. rewrite pick_snoc by now apply Hr.
    assert (E : cell_eqb key k' = false) by (apply cell_eqb_neq; congruence).
    rewrite E. apply app_nil_r.
Qed.

(** ** The exclusion filter *)

Lemma contains_skip (a c : ascii) (n s : string) :
  a <> c -> contains (String a n) (String c s) = contains (String a n) s.
Proof.
  intro H. cbn [contains prefix].
  destruct (ascii_dec a c); [contradiction | reflexivity].
Qed.

Lemma digits_not_particular (d : Decimal.uint) :
  contains "particular" (lower (NilEmpty.string_of_uint d)) = false.
Proof.
  induction d; cbn [NilEmpty.string_of_uint lower];
    [reflexivity | rewrite contains_skip by (vm_compute; discriminate) ..];
    assumption.
Qed.

Lemma number_not_particular (z : Z) :
  contains "particular" (lower (str (Num z))) = false.
Proof.
  unfold str, NilEmpty.string_of_int. destruct (Z.to_int z).
  - apply digits_not_particular.
  - cbn [lower]. rewrite contains_skip by (vm_compute; discriminate).
    apply digits_not_particular.
Qed.

(** A label that mentions "particular" is true as a condition. *)
Lemma particular_truthy (col : cell) :
  contains "particular" (lower (str col)) = true -> truthy col = true.
Proof.
  destruct col as [| |z|s]; intro H.
  - reflexivity.
  - vm_compute in H. discriminate.
  - rewrite number_not_particular in H. discriminate.
  - destruct s; [vm_compute in H; discriminate | reflexivity].
Qed.

Lemma drop_grand_total_none (base_data : DataFrame) :
  particulars_col base_data = None ->
  drop_grand_total base_data = Ok base_data.
Proof. intro H. unfold drop_grand_total. now rewrite H. Qed.

Lemma drop_grand_total_one (base_data : DataFrame) (col : cell) :
  particulars_col base_data = Some col ->
  pick (columns base_data) (columns base_data) col = [col] ->
  drop_grand_total base_data
  = Ok {| columns := columns base_data;
          body := filter (fun r => negb (is_grand_total
                                           (value_at base_data col r)))
                         (body base_data) |}.
Proof.
  intros Hcol Hone. unfold drop_grand_total. rewrite Hcol.
  apply find_some in Hcol. destruct Hcol as [_ Hp].
  rewrite (particular_truthy _ Hp).
  unfold getitem. rewrite Hone. simpl. f_equal.
  unfold boolean_filter. f_equal. rewrite map_map. simpl.
  rewrite (filter_combine_mask
             (fun vals => negb (is_grand_total
                                  (hd NaN (pick (columns base_data) vals col))))
             (body base_data) (fun r => r));
    [| now rewrite map_id].
  now rewrite map_id.
Qed.

Lemma drop_grand_total_many (base_data : DataFrame) (col : cell) :
  particulars_col base_data = Some col ->
  1 < List.length (pick (columns base_data) (columns base_data) col) ->
  drop_grand_total base_data = Raise AttributeError.
Proof.
  intros Hcol Hmany. unfold drop_grand_total. rewrite Hcol.
  apply find_some in Hcol. destruct Hcol as [_ Hp].
  rewrite (particular_truthy _ Hp). unfold getitem.
  destruct (pick (columns base_data) (columns base_data) col) as [|a [|b l]];
    simpl in *; try lia. reflexivity.
Qed.

Lemma drop_grand_total_inv (base_data retained : DataFrame) :
  drop_grand_total base_data = Ok retained ->
  columns retained = columns base_data
  /\ incl (body retained) (body base_data).
Proof.
  unfold drop_grand_total.
  destruct (particulars_col base_data) as [col|].
  - destruct (truthy col).
    + destruct (getitem base_data col) as [[s|df]|e]; simpl;
        try discriminate.
      intro H. inversion H; subst. split; [reflexivity|].
      apply boolean_filter_incl.
    + intro H. inversion H; subst. split; [reflexivity | apply incl_refl].
  - intro H. inversion H; subst. split; [reflexivity | apply incl_refl].
Qed.

Lemma drop_grand_total_rect (base_data retained : DataFrame) :
  rect base_data -> drop_grand_total base_data = Ok retained -> rect retained.
Proof.
  intros Hr H. apply drop_grand_total_inv in H. destruct H as [Hc Hb].
  intros r Hin. rewrite Hc. apply Hr. now apply Hb.
Qed.

(** ** One sheet, step by step *)

Lemma fixed_columns_inv (data base_data : DataFrame) (fixed_cols : nat) :
  fixed_columns data fixed_cols = Ok base_data ->
  exists old,
    last_label (base_cols data fixed_cols) = Ok old
    /\ base_data
       = rename
           {| columns := take (columns data) (columns data)
                              (base_cols data fixed_cols);
              body := map (fun r =>
                             (fst r, take (columns data) (snd r)
                                          (base_cols data fixed_cols)))
                          (body data) |}
           old Ledger_Amount.
Proof.
  unfold fixed_columns. rewrite getitem_list_Ok by apply firstn_incl.
  simpl. destruct (last_label (base_cols data fixed_cols)) as [old|e];
    simpl; [|discriminate].
  intro H. inversion H. now exists old.
Qed.

Lemma fixed_columns_index (data base_data : DataFrame) (fixed_cols : nat) :
  fixed_columns data fixed_cols = Ok base_data ->
  index base_data = index data.
Proof.
  intro H. apply fixed_columns_inv in H. destruct H as [old [_ ->]].
  unfold index. simpl. now rewrite map_map.
Qed.

Lemma fixed_columns_rect (data base_data : DataFrame) (fixed_cols : nat) :
  rect data -> fixed_columns data fixed_cols = Ok base_data -> rect base_data.
Proof.
  intros Hr H. apply fixed_columns_inv in H. destruct H as [old [_ ->]].
  apply rename_rect. intros r' Hin. simpl in *.
  apply in_map_iff in Hin. destruct Hin as [r [<- Hin]]. simpl.
  apply take_length. now apply Hr.
Qed.

Lemma align_inv (template : option (list cell))
  (base_data aligned : DataFrame) (t : list cell) :
  align template base_data = Ok (t, aligned) ->
  index aligned = index base_data /\ (rect base_data -> rect aligned).
Proof.
  unfold align. destruct template as [tpl|].
  - destruct (getitem_list (add_missing tpl base_data) tpl) as [df|e] eqn:E;
      simpl; [|discriminate].
    intro H. inversion H; subst. split.
    + rewrite (getitem_list_index _ _ _ E). apply add_missing_index.
    + intro Hr. eapply getitem_list_rect; [|exact E].
      now apply add_missing_rect.
  - intro H. inversion H; subst. tauto.
Qed.

Section Sheet.

Variable numeric_text : string -> option Z.

Lemma tds_sum_Ok (data : DataFrame) (keywords : list string) :
  tds_sum numeric_text data (tds_cols data keywords)
  = Ok (map (fun r => (fst r,
                       Num (nansum numeric_text
                              (take (columns data) (snd r)
                                    (tds_cols data keywords)))))
            (body data)).
Proof.
  unfold tds_sum. rewrite getitem_list_Ok.
  - simpl. now rewrite map_map.
  - unfold tds_cols. intros c Hc. apply filter_In in Hc. tauto.
Qed.

Lemma series_at_map (g : nat * list cell -> cell)
  (rows : list (nat * list cell)) (r : nat * list cell) :
  NoDup (map fst rows) -> In r rows ->
  series_at (map (fun x => (fst x, g x)) rows) (fst r) = g r.
Proof.
  unfold series_at. induction rows as [|x rows IH]; simpl; [contradiction|].
  intros Hnd Hin. inversion Hnd as [|? ? Hnotin Hnd']; subst.
  destruct (Nat.eqb_spec (fst x) (fst r)) as [E | E].
  - simpl. destruct Hin as [-> | Hin]; [reflexivity|].
    exfalso. apply Hnotin. rewrite E. now apply in_map.
  - destruct Hin as [-> | Hin]; [contradiction|]. now apply IH.
Qed.

Lemma add_tds_amount_Ok (data base_data : DataFrame)
  (keywords : list string) :
  exists value,
    add_tds_amount numeric_text data base_data keywords
    = Ok (setitem base_data TDS_Amount value)
    /\ forall r, NoDup (index data) -> In r (body data) ->
                 value (fst r) = tds_amount numeric_text data keywords (snd r).
Proof.
  unfold add_tds_amount, tds_amount.
  destruct (tds_cols data keywords) as [|c cols] eqn:E.
  - exists (fun _ => NA). split; reflexivity.
  - rewrite <- E. rewrite tds_sum_Ok. simpl. eexists. split; [reflexivity|].
    intros r Hnd Hin.
    apply (series_at_map
             (fun x => Num (nansum numeric_text
                              (take (columns data) (snd x)
                                    (tds_cols data keywords))))
             (body data) r Hnd Hin).
Qed.

(** The steps of one iteration that does not [continue] and raises
    nothing. *)
Lemma process_sheet_steps (fixed_cols : nat) (keywords : list string)
  (st st' : state) (s : sheet) (data : DataFrame) :
  table_of (read_excel s) = Some data ->
  process_sheet numeric_text fixed_cols keywords st s = Ok st' ->
  exists base_data retained template aligned with_tds,
    fixed_columns data fixed_cols = Ok base_data
    /\ drop_grand_total base_data = Ok retained
    /\ align (template_cols st) retained = Ok (template, aligned)
    /\ add_tds_amount numeric_text data aligned keywords = Ok with_tds
    /\ st' = {| template_cols := Some template;
                all_ledgers :=
                  all_ledgers st
                  ++ [setitem with_tds LedgerName
                              (fun _ => Str (sheet_name s))] |}.
Proof.
  intros Ht H. unfold process_sheet in H. rewrite Ht in H.
  destruct (fixed_columns data fixed_cols) as [bd|e] eqn:E1;
    simpl in H; [|discriminate].
  destruct (drop_grand_total bd) as [ret|e] eqn:E2; simpl in H; [|discriminate].
  destruct (align (template_cols st) ret) as [[t al]|e] eqn:E3;
    simpl in H; [|discriminate].
  destruct (add_tds_amount numeric_text data al keywords) as [wt|e] eqn:E4;
    simpl in H; [|discriminate].
  inversion H; subst. exists bd, ret, t, al, wt. now repeat split.
Qed.

(** The rows of the fragment a sheet contributes, and what they carry
    under [TDS_Amount]. *)
Lemma fragment_rows
  (fixed_cols : nat) (keywords : list string) (st st' : state)
  (s : sheet) (data : DataFrame) :
  table_of (read_excel s) = Some data ->
  process_sheet numeric_text fixed_cols keywords st s = Ok st' ->
  exists base_data retained fragment,
    fixed_columns data fixed_cols = Ok base_data
    /\ drop_grand_total base_data = Ok retained
    /\ all_ledgers st' = all_ledgers st ++ [fragment]
    /\ index fragment = index retained
    /\ incl (index retained) (index data)
    /\ forall i vals,
        In (i, vals) (body fragment) ->
        exists dvals,
          In (i, dvals) (body data)
          /\ (forall dvals', In (i, dvals') (body data) -> dvals' = dvals)
          /\ pick (columns fragment) vals TDS_Amount <> []
          /\ Forall (eq (tds_amount numeric_text data keywords dvals))
                    (pick (columns fragment) vals TDS_Amount).
Proof.
  intros Ht H.
  destruct (process_sheet_steps _ _ _ _ _ _ Ht H)
    as [bd [ret [t [al [wt [E1 [E2 [E3 [E4 ->]]]]]]]]].
  destruct (table_of_rect _ _ Ht) as [Hrect Hnd].
  destruct (align_inv _ _ _ _ E3) as [Hidx Hral].
  destruct (add_tds_amount_Ok data al keywords) as [value [E4' Hvalue]].
  rewrite E4' in E4. inversion E4; subst wt. clear E4 E4'.
  assert (Hbd : rect bd) by (eapply fixed_columns_rect; eauto).
  assert (Hret : rect ret) by (eapply drop_grand_total_rect; eauto).
  assert (Hal : rect al) by auto.
  assert (Hsub : incl (index ret) (index data)).
  { rewrite <- (fixed_columns_index _ _ _ E1).
    destruct (drop_grand_total_inv _ _ E2) as [_ Hincl].
    unfold index. intros i Hi. apply in_map_iff in Hi.
    destruct Hi as [r [<- Hr]]. apply in_map. now apply Hincl. }
  exists bd, ret. eexists. repeat split; try eassumption; try reflexivity.
  - now rewrite !setitem_index.
  - intros i vals Hin.
    destruct (setitem_row _ _ _ _ (setitem_rect _ _ _ Hal) Hin)
      as [r1 [Hin1 [Hi1 [_ [_ Hother]]]]].
    destruct (setitem_row _ _ _ _ Hal Hin1)
      as [r0 [Hin0 [Hi0 [Hne [Hall _]]]]].
    cbn [fst snd] in Hi1, Hother.
    assert (Hi : In i (index data)).
    { apply Hsub. rewrite <- Hidx. unfold index.
      apply in_map_iff. exists r0. split; [congruence | assumption]. }
    unfold index in Hi. apply in_map_iff in Hi.
    destruct Hi as [[i' dvals] [Ei Hd]]. simpl in Ei. subst i'.
    exists dvals. split; [assumption|]. split; [|split].
    + intros dvals' Hd'.
      clear - Hnd Hd Hd'. unfold index in Hnd.
      induction (body data) as [|x l IH]; simpl in *; [contradiction|].
      inversion Hnd as [|? ? Hnotin Hnd']; subst.
      destruct Hd as [-> | Hd], Hd' as [E | Hd'].
      * now inversion E.
      * exfalso. apply Hnotin. apply in_map_iff. now exists (i, dvals').
      * exfalso. apply Hnotin. subst x. apply in_map_iff. now exists (i, dvals).
      * now apply IH.
    + rewrite (Hother TDS_Amount) by discriminate. exact Hne.
    + rewrite (Hother TDS_Amount) by discriminate.
      specialize (Hvalue (i, dvals) Hnd Hd). cbn [fst snd] in Hvalue.
      rewrite <- Hvalue. replace i with (fst r0) by congruence. exact Hall.
Qed.

(** C10.  In the fragment a sheet contributes, the rows are the rows that
    survived the exclusion filter, index label by index label; each of them
    carries under [TDS_Amount] the amount computed from the cells of the
    body row with that same index label (the only row with it), so the
    amount of a row that was filtered out is attached to no row. *)
Theorem tds_amount_follows_row
  (fixed_cols : nat) (keywords : list string) (st st' : state)
  (s : sheet) (data : DataFrame) :
  table_of (read_excel s) = Some data ->
  process_sheet numeric_text fixed_cols keywords st s = Ok st' ->
  exists base_data retained fragment,
    fixed_columns data fixed_cols = Ok base_data
    /\ drop_grand_total base_data = Ok retained
    /\ all_ledgers st' = all_ledgers st ++ [fragment]
    /\ index fragment = index retained
    /\ incl (index retained) (index data)
    /\ forall i vals,
        In (i, vals) (body fragment) ->
        exists dvals,
          In (i, dvals) (body data)
          /\ (forall dvals', In (i, dvals') (body data) -> dvals' = dvals)
          /\ pick (columns fragment) vals TDS_Amount <> []
          /\ Forall (eq (tds_amount numeric_text data keywords dvals))
                    (pick (columns fragment) vals TDS_Amount).
Proof. exact (fragment_rows fixed_cols keywords st st' s data). Qed.

End Sheet.

Lemma tds_amount_follows_row_witness :
  exists base_data retained fragment,
    fixed_columns fees_table 3 = Ok base_data
    /\ drop_grand_total base_data = Ok retained
    /\ all_ledgers fees_state = [] ++ [fragment]
    /\ index fragment = index retained
    /\ incl (index retained) (index fees_table)
    /\ forall i vals,
        In (i, vals) (body fragment) ->
        exists dvals,
          In (i, dvals) (body fees_table)
          /\ (forall dvals', In (i, dvals') (body fees_table) ->
                             dvals' = dvals)
          /\ pick (columns fragment) vals TDS_Amount <> []
          /\ Forall (eq (tds_amount (fun _ => None) fees_table ["tds"] dvals))
                    (pick (columns fragment) vals TDS_Amount).
Proof.
  exact (tds_amount_follows_row (fun _ => None) 3 ["tds"]
           {| template_cols := None; all_ledgers := [] |} fees_state
           fees_sheet fees_table eq_refl eq_refl).
Defined.

(** ** The exclusion filter within a sheet *)

Lemma find_first {A : Type} (f : A -> bool) (l : list A) (x : A) :
  find f l = Some x ->
  exists before after,
    l = before ++ x :: after /\ f x = true
    /\ forall y, In y before -> f y = false.
Proof.
  induction l as [|a l IH]; simpl; [discriminate|].
  destruct (f a) eqn:E.
  - intro H. inversion H; subst. exists [], l. repeat split; auto.
    intros y [].
  - intro H. destruct (IH H) as [b [c [-> [Hx Hb]]]].
    exists (a :: b), c. repeat split; auto.
    intros y [<- | Hy]; auto.
Qed.

(** The column the filter looks at is the first whose label mentions
    "particular". *)
Lemma particulars_col_first (base_data : DataFrame) (col : cell) :
  particulars_col base_data = Some col ->
  exists before after,
    columns base_data = before ++ col :: after
    /\ contains "particular" (lower (str col)) = true
    /\ forall c, In c before ->
                 contains "particular" (lower (str c)) = false.
Proof.
  intro H.
  exact (find_first (fun c => contains "particular" (lower (str c)))
           (columns base_data) col H).
Qed.

(** C5, as stated, fails.  The second of the two fixed columns of
    [bank_sheet] has the header "Particulars" and its only body row says
    "Grand Total" there, yet the row is in the table [process_file]
    returns: the column was renamed to [Ledger_Amount] before the search
    for a "particular" label. *)
Lemma grand_total_kept_under_renamed_particulars :
  table_of (read_excel bank_sheet)
  = Some {| columns := [Str "Date"; Str "Particulars"];
            body := [(1, [Str "2024-04-01"; Str "Grand Total"])] |}
  /\ In (Str "Particulars") (firstn 2 [Str "Date"; Str "Particulars"])
  /\ contains "particular" (lower (str (Str "Particulars"))) = true
  /\ contains "grand total" (lower (str (Str "Grand Total"))) = true
  /\ process_file (fun _ => None) [bank_sheet] 2 "tds"
     = Ok (Some {| columns := [Str "Date"; Ledger_Amount;
                               TDS_Amount; LedgerName];
                   body := [(0, [Str "2024-04-01"; Str "Grand Total";
                                 NA; Str "Bank"])] |}).
Proof.
  repeat split; try (vm_compute; reflexivity).
  simpl. auto.
Qed.

(** C5, amended.  The search is over the labels of the fixed columns after
    the last one has been renamed to [Ledger_Amount].  If none of them
    contains "particular" (in lowercase text), no row is filtered.
    Otherwise [col] is the first that does; when it labels one column only,
    exactly the rows whose value under it, as lowercase text, contains
    "grand total" are dropped, the other rows stay in their order, and the
    fragment the sheet contributes has the index labels of the rows that
    stayed. *)
Theorem grand_total_rows_dropped
  (numeric_text : string -> option Z) (fixed_cols : nat)
  (keywords : list string) (st : state) (s : sheet)
  (data base_data : DataFrame) :
  table_of (read_excel s) = Some data ->
  fixed_columns data fixed_cols = Ok base_data ->
  ((forall c, In c (columns base_data) ->
              contains "particular" (lower (str c)) = false) ->
   drop_grand_total base_data = Ok base_data)
  /\ (forall before col after,
         columns base_data = before ++ col :: after ->
         (forall c, In c before ->
                    contains "particular" (lower (str c)) = false) ->
         contains "particular" (lower (str col)) = true ->
         occurrences (columns base_data) col = 1 ->
         exists retained,
           drop_grand_total base_data = Ok retained
           /\ columns retained = columns base_data
           /\ body retained
              = filter (fun r => negb (contains "grand total"
                                         (lower (str (value_at base_data
                                                               col r)))))
                       (body base_data)
           /\ (forall r, In r (body retained)
                         <-> In r (body base_data)
                             /\ contains "grand total"
                                  (lower (str (value_at base_data col r)))
                                = false))
  /\ (forall st',
         process_sheet numeric_text fixed_cols keywords st s = Ok st' ->
         exists retained fragment,
           drop_grand_total base_data = Ok retained
           /\ all_ledgers st' = all_ledgers st ++ [fragment]
           /\ index fragment = index retained).
Proof.
  intros Ht Hbase. split; [|split].
  - intro Hnone. apply drop_grand_total_none. unfold particulars_col.
    destruct (find _ (columns base_data)) as [c|] eqn:E; [|reflexivity].
    apply find_some in E. destruct E as [Hin Hc].
    rewrite (Hnone c Hin) in Hc. discriminate.
  - intros before col after Hcols Hbefore Hcol Hone.
    assert (Hfind : particulars_col base_data = Some col).
    { unfold particulars_col. rewrite Hcols. clear - Hbefore Hcol.
      induction before as [|b before IH]; simpl.
      - now rewrite Hcol.
      - rewrite (Hbefore b) by now left.
        apply IH. intros c Hc. apply Hbefore. now right. }
    assert (Hpick : pick (columns base_data) (columns base_data) col = [col]).
    { rewrite pick_labels. unfold occurrences in Hone. now rewrite Hone. }
    eexists. split; [exact (drop_grand_total_one _ _ Hfind Hpick)|].
    cbn [columns body]. unfold is_grand_total.
    split; [reflexivity|]. split; [reflexivity|].
    intro r. rewrite filter_In, negb_true_iff. reflexivity.
  - intros st' Hst'.
    destruct (process_sheet_steps _ _ _ _ _ _ _ Ht Hst')
      as [bd [ret [t [al [wt [E1 [E2 [E3 [E4 ->]]]]]]]]].
    rewrite Hbase in E1. inversion E1; subst bd.
    destruct (align_inv _ _ _ _ E3) as [Hidx _].
    destruct (add_tds_amount_Ok numeric_text data al keywords)
      as [value [E4' _]].
    rewrite E4' in E4. inversion E4; subst wt.
    exists ret. eexists. repeat split; try eassumption; try reflexivity.
    now rewrite !setitem_index.
Qed.

Lemma grand_total_rows_dropped_witness :
  exists retained,
    drop_grand_total purchases_base = Ok retained
    /\ columns retained = columns purchases_base
    /\ body retained
       = filter (fun r => negb (contains "grand total"
                                  (lower (str (value_at purchases_base
                                                 (Str "Particulars") r)))))
                (body purchases_base)
    /\ (forall r, In r (body retained)
                  <-> In r (body purchases_base)
                      /\ contains "grand total"
                           (lower (str (value_at purchases_base
                                          (Str "Particulars") r)))
                         = false).
Proof.
  exact (proj1 (proj2
           (grand_total_rows_dropped (fun _ => None) 3 ["tds"]
              {| template_cols := None; all_ledgers := [] |}
              purchases_sheet purchases_table purchases_base
              eq_refl eq_refl))
           [Str "Date"] (Str "Particulars") [Ledger_Amount] eq_refl
           ltac:(intros c [<- | []]; reflexivity) eq_refl eq_refl).
Defined.

(** ** Keywords *)

Lemma split_not_nil (sep : ascii) (s : string) : split sep s <> [].
Proof.
  destruct s as [|c s]; simpl; [discriminate|].
  destruct (Ascii.eqb c sep); [discriminate|].
  destruct (split sep s); discriminate.
Qed.


Lemma split_no_sep (sep : ascii) (s piece : string) :
  In piece (split sep s) -> has_char sep piece = false.
Proof.
  revert piece. induction s as [|c s IH]; intros piece Hin.
  - simpl in Hin. destruct Hin as [<- | []]. reflexivity.
  - cbn [split] in Hin. destruct (Ascii.eqb c sep) eqn:E.
    + destruct Hin as [<- | Hin]; [reflexivity | now apply IH].
    + pose proof (split_not_nil sep s) as Hnn.
      destruct (split sep s) as [|p rest]; [contradiction|].
      destruct Hin as [<- | Hin].
      * simpl. rewrite E. apply IH. now left.
      * apply IH. now right.
Qed.

Lemma nonempty_true (s : string) : nonempty s = true <-> s <> EmptyString.
Proof. destruct s; simpl; split; congruence. Qed.

Lemma lower_nonempty (s : string) : nonempty (lower s) = nonempty s.
Proof. now destruct s. Qed.




(** ** Headers that repeat a label *)

(** C9 on [debit_credit_sheet] with three fixed columns: the sheet's table
    has the header Date, Amount, Amount; the renaming goes by label, so
    every column labelled "Amount" becomes [Ledger_Amount], not the last
    one alone (and the selection by label has doubled both of them). *)
Lemma rename_hits_every_column_of_the_label :
  table_of (read_excel debit_credit_sheet) = Some debit_credit_table
  /\ base_cols debit_credit_table 3
     = [Str "Date"; Str "Amount"; Str "Amount"]
  /\ fixed_columns debit_credit_table 3
     = Ok {| columns := [Str "Date"; Ledger_Amount; Ledger_Amount;
                         Ledger_Amount; Ledger_Amount];
             body := [(1, [Str "2024-04-01"; Num 700; Num 300;
                           Num 700; Num 300])] |}.
Proof. repeat split; vm_compute; reflexivity. Qed.

(** C2 on [two_tds_sheet]: the columns that match "tds" hold 10 and 5 in
    the only body row, and [TDS_Amount] is 30: each of the two labels in
    [tds_cols] selects both columns. *)
Lemma repeated_tds_label_counted_twice (numeric_text : string -> option Z) :
  tds_cols {| columns := [Str "Date"; Str "Amount"; Str "TDS"; Str "TDS"];
              body := [(1, [Str "2024-04-01"; Num 100; Num 10; Num 5])] |}
           (tds_keywords "tds")
  = [Str "TDS"; Str "TDS"]
  /\ process_file numeric_text [two_tds_sheet] 2 "tds"
     = Ok (Some {| columns := [Str "Date"; Ledger_Amount;
                               TDS_Amount; LedgerName];
                   body := [(0, [Str "2024-04-01"; Num 100; Num 30;
                                 Str "Fees"])] |}).
Proof. split; vm_compute; reflexivity. Qed.

(** C7 on [debit_credit_sheet] with two fixed columns: the template is
    Date, Ledger_Amount, Ledger_Amount, and the table returned has seven
    columns, not the template followed by [TDS_Amount] and [LedgerName]. *)
Lemma repeated_label_widens_result (numeric_text : string -> option Z) :
  process_sheets numeric_text 2 (tds_keywords "tds")
    {| template_cols := None; all_ledgers := [] |} [debit_credit_sheet]
  = Ok {| template_cols := Some [Str "Date"; Ledger_Amount; Ledger_Amount];
          all_ledgers :=
            [ {| columns := [Str "Date"; Ledger_Amount; Ledger_Amount;
                             TDS_Amount; LedgerName];
                 body := [(1, [Str "2024-04-01"; Num 700; Num 300; NA;
                               Str "Sales"])] |} ] |}
  /\ process_file numeric_text [debit_credit_sheet] 2 "tds"
     = Ok (Some {| columns := [Str "Date"; Ledger_Amount; Ledger_Amount;
                               Ledger_Amount; Ledger_Amount;
                               TDS_Amount; LedgerName];
                   body := [(0, [Str "2024-04-01"; Num 700; Num 300;
                                 Num 700; Num 300; NA; Str "Sales"])] |}).
Proof. split; vm_compute; reflexivity. Qed.

(** C1 on [plain_sheet] followed by [two_dates_sheet], three fixed
    columns: the template is Date, Particulars, Ledger_Amount; the fixed
    columns of the second sheet come out as four Date columns and
    Ledger_Amount, and they are aligned to four Date columns, Particulars
    and Ledger_Amount, not to the template; [pd.concat] then refuses the
    two frames, so no table is returned. *)
Lemma repeated_label_breaks_alignment (numeric_text : string -> option Z) :
  table_of (read_excel two_dates_sheet) = Some two_dates_table
  /\ fixed_columns two_dates_table 3 = Ok two_dates_base
  /\ drop_grand_total two_dates_base = Ok two_dates_base
  /\ align (Some [Str "Date"; Str "Particulars"; Ledger_Amount])
           two_dates_base
     = Ok ([Str "Date"; Str "Particulars"; Ledger_Amount],
           {| columns := [Str "Date"; Str "Date"; Str "Date"; Str "Date";
                          Str "Particulars"; Ledger_Amount];
              body := [(1, [Str "2024-04-01"; Str "2024-04-03";
                            Str "2024-04-01"; Str "2024-04-03"; NA;
                            Num 500])] |})
  /\ process_file numeric_text [plain_sheet; two_dates_sheet] 3 "tds"
     = Raise InvalidIndexError.
Proof. repeat split; vm_compute; reflexivity. Qed.

(** ** Headers with pairwise distinct labels *)

Lemma pick_cons_other {A : Type} (c k : cell) (cols : list cell) (v : A)
  (vals : list A) :
  c <> k -> pick (c :: cols) (v :: vals) k = pick cols vals k.
Proof.
  intro H. unfold pick. simpl.
  apply cell_eqb_neq in H. now rewrite H.
Qed.

Lemma pick_cons_same {A : Type} (c : cell) (cols : list cell) (v : A)
  (vals : list A) :
  ~ In c cols -> pick (c :: cols) (v :: vals) c = [v].
Proof.
  intro H. unfold pick. simpl. rewrite cell_eqb_refl. simpl. f_equal.
  apply (pick_none cols vals c).
  destruct (has_label cols c) eqn:E; [|reflexivity].
  apply has_label_In in E. contradiction.
Qed.

(** Under distinct labels a label selects one value. *)
Lemma pick_single {A : Type} (cols : list cell) (vals : list A) (k : cell) :
  NoDup cols -> List.length vals = List.length cols -> In k cols ->
  exists v, pick cols vals k = [v].
Proof.
  revert vals. induction cols as [|c cols IH]; intros vals Hnd Hlen Hin;
    [contradiction|].
  destruct vals as [|v vals]; [discriminate|].
  inversion Hnd as [|? ? Hnotin Hnd']; subst.
  destruct (cell_eqb c k) eqn:E.
  - apply cell_eqb_eq in E. subst k. exists v. now apply pick_cons_same.
  - apply cell_eqb_neq in E. rewrite pick_cons_other by assumption.
    apply IH; auto. destruct Hin; [contradiction | assumption].
Qed.

(** Reading the labels of the header in order gives the row back. *)
Lemma row_by_labels (cols vals : list cell) :
  NoDup cols -> List.length vals = List.length cols ->
  map (fun k => hd NaN (pick cols vals k)) cols = vals.
Proof.
  revert vals. induction cols as [|c cols IH]; intros vals Hnd Hlen.
  - destruct vals; [reflexivity | discriminate].
  - destruct vals as [|v vals]; [discriminate|].
    inversion Hnd as [|? ? Hnotin Hnd']; subst.
    cbn [map]. rewrite pick_cons_same by assumption. simpl. f_equal.
    transitivity (map (fun k => hd NaN (pick cols vals k)) cols).
    + apply map_ext_in. intros k Hk. rewrite pick_cons_other; [reflexivity|].
      intros ->. contradiction.
    + apply IH; [assumption | simpl in Hlen; lia].
Qed.

Lemma take_by_labels (cols vals keys : list cell) :
  NoDup cols -> List.length vals = List.length cols -> incl keys cols ->
  take cols vals keys = map (fun k => hd NaN (pick cols vals k)) keys.
Proof.
  intros Hnd Hlen Hincl. unfold take.
  induction keys as [|k keys IH]; simpl; [reflexivity|].
  destruct (pick_single cols vals k Hnd Hlen) as [v Hv].
  { apply Hincl. now left. }
  rewrite Hv. simpl. f_equal. apply IH.
  intros x Hx. apply Hincl. now right.
Qed.

Lemma take_labels (cols keys : list cell) :
  NoDup cols -> incl keys cols -> take cols cols keys = keys.
Proof.
  intros Hnd Hincl. unfold take.
  induction keys as [|k keys IH]; simpl; [reflexivity|].
  destruct (pick_single cols cols k Hnd eq_refl) as [v Hv].
  { apply Hincl. now left. }
  rewrite pick_labels, Hv. simpl. f_equal. apply IH.
  intros x Hx. apply Hincl. now right.
Qed.

(** Selecting the first [n] labels selects the first [n] values. *)
Lemma take_firstn (cols vals : list cell) (n : nat) :
  NoDup cols -> List.length vals = List.length cols ->
  take cols vals (firstn n cols) = firstn n vals.
Proof.
  intros Hnd Hlen.
  rewrite take_by_labels by (auto using firstn_incl).
  rewrite <- firstn_map. f_equal. now apply row_by_labels.
Qed.

Lemma combine_map_self {A B : Type} (f : A -> B) (l : list A) :
  combine l (map f l) = map (fun k => (k, f k)) l.
Proof. induction l as [|x l IH]; simpl; [reflexivity | now rewrite IH]. Qed.

Lemma combine_by_labels (cols vals : list cell) :
  NoDup cols -> List.length vals = List.length cols ->
  combine cols vals = map (fun k => (k, hd NaN (pick cols vals k))) cols.
Proof.
  intros Hnd Hlen.
  transitivity (combine cols (map (fun k => hd NaN (pick cols vals k)) cols)).
  - f_equal. symmetry. now apply row_by_labels.
  - apply combine_map_self.
Qed.

Lemma NoDup_firstn {A : Type} (n : nat) (l : list A) :
  NoDup l -> NoDup (firstn n l).
Proof.
  intro H. rewrite <- (firstn_skipn n l) in H.
  now apply NoDup_app_remove_r in H.
Qed.

Lemma NoDup_snoc {A : Type} (l : list A) (x : A) :
  NoDup (l ++ [x]) <-> NoDup l /\ ~ In x l.
Proof.
  split.
  - intro H. split.
    + now apply NoDup_app_remove_r in H.
    + apply NoDup_remove_2 in H. now rewrite app_nil_r in H.
  - intros [Hnd Hx]. apply NoDup_rev in Hnd.
    rewrite <- (rev_involutive (l ++ [x])). apply NoDup_rev.
    rewrite rev_app_distr. simpl. constructor; [|assumption].
    now rewrite <- in_rev.
Qed.

Lemma rename_last (init : list cell) (old new : cell) :
  ~ In old init ->
  map (fun c => if cell_eqb c old then new else c) (init ++ [old])
  = init ++ [new].
Proof.
  intro H. rewrite map_app. simpl. rewrite cell_eqb_refl. f_equal.
  rewrite <- (map_id init) at 2. apply map_ext_in. intros c Hc.
  destruct (cell_eqb c old) eqn:E; [|reflexivity].
  apply cell_eqb_eq in E. subst c. contradiction.
Qed.

Lemma last_label_snoc (init : list cell) (old : cell) :
  last_label (init ++ [old]) = Ok old.
Proof. unfold last_label. now rewrite rev_app_distr. Qed.

(** With distinct header labels the fixed columns are the first
    [fixed_cols] columns by position, with their values, and the last of
    them alone is renamed. *)
Theorem distinct_labels_fixed_columns (data : DataFrame) (fixed_cols : nat) :
  NoDup (columns data) -> rect data ->
  columns data <> [] -> 1 <= fixed_cols ->
  exists init old,
    firstn fixed_cols (columns data) = init ++ [old]
    /\ fixed_columns data fixed_cols
       = Ok {| columns := init ++ [Ledger_Amount];
               body := map (fun r => (fst r, firstn fixed_cols (snd r)))
                           (body data) |}.
Proof.
  intros Hnd Hrect Hcols HX.
  assert (Hne : firstn fixed_cols (columns data) <> []).
  { destruct (columns data); [contradiction|].
    destruct fixed_cols; [lia | discriminate]. }
  destruct (exists_last Hne) as [init [old E]].
  exists init, old. split; [assumption|].
  destruct (fixed_columns_Ok data fixed_cols Hcols HX) as [old' [Hold ->]].
  unfold base_cols in *. rewrite E in Hold.
  rewrite last_label_snoc in Hold. inversion Hold; subst old'.
  assert (Hnd' : NoDup (init ++ [old])).
  { rewrite <- E. now apply NoDup_firstn. }
  apply NoDup_snoc in Hnd'. destruct Hnd' as [_ Hnotin].
  unfold rename. cbn [columns body]. f_equal. f_equal.
  - rewrite take_labels by (auto using firstn_incl).
    rewrite E. now apply rename_last.
  - apply map_ext_in. intros r Hr. f_equal.
    apply take_firstn; [assumption | now apply Hrect].
Qed.

Section Sums.

Variable numeric_text : string -> option Z.

Lemma nansum_contributions (vals : list cell) :
  nansum numeric_text vals = fold_right Z.add 0%Z (map (contribution numeric_text) vals).
Proof.
  unfold nansum.
  assert (H : forall acc,
             fold_left (fun acc v => match to_numeric numeric_text v with
                                     | Some z => (acc + z)%Z
                                     | None => acc
                                     end) vals acc
             = (acc + fold_right Z.add 0 (map (contribution numeric_text) vals))%Z).
  { induction vals as [|v vals IH]; intro acc; simpl; [lia|].
    rewrite IH. unfold contribution.
    destruct (to_numeric numeric_text v); lia. }
  now rewrite H.
Qed.

Lemma filter_map_swap {A B : Type} (g : B -> bool) (h : A -> B)
  (l : list A) :
  filter g (map h l) = map h (filter (fun x => g (h x)) l).
Proof.
  induction l as [|x l IH]; simpl; [reflexivity|].
  destruct (g (h x)); simpl; now rewrite IH.
Qed.

(** With distinct header labels [TDS_Amount] is the sum, over the columns
    whose header matches a keyword, of what each cell contributes. *)
Theorem distinct_labels_tds_amount (data : DataFrame)
  (keywords : list string) (vals : list cell) :
  NoDup (columns data) -> List.length vals = List.length (columns data) ->
  tds_amount numeric_text data keywords vals
  = match tds_cols data keywords with
    | [] => NA
    | _ => Num (fold_right Z.add 0%Z
                  (map (contribution numeric_text) (matching_cells data keywords vals)))
    end.
Proof.
  intros Hnd Hlen. unfold tds_amount.
  destruct (tds_cols data keywords) as [|c cols] eqn:E; [reflexivity|].
  rewrite <- E. f_equal. rewrite nansum_contributions. f_equal. f_equal.
  unfold matching_cells, tds_cols.
  rewrite take_by_labels; auto.
  - rewrite combine_by_labels by assumption.
    rewrite filter_map_swap, map_map. reflexivity.
  - intros k Hk. apply filter_In in Hk. tauto.
Qed.

Lemma filter_nonempty {A : Type} (p : A -> bool) (l : list A) :
  match filter p l with [] => false | _ => true end = existsb p l.
Proof.
  induction l as [|x l IH]; simpl; [reflexivity|].
  destruct (p x); simpl; [reflexivity | exact IH].
Qed.

(** X12.  With distinct header labels, all of them text, and TDS columns
    that hold whole numbers or nothing, in the fragment a sheet contributes
    every row carries under [TDS_Amount]: [pd.NA] when no label of the
    header matches a keyword; otherwise the sum, over the columns whose
    header matches, each taken once, of the numbers in the cells of its
    body row, an empty cell adding nothing. *)
Theorem distinct_labels_fragment_tds
  (fixed_cols : nat) (keywords : list string) (st st' : state)
  (s : sheet) (data : DataFrame) :
  table_of (read_excel s) = Some data ->
  NoDup (columns data) ->
  forallb is_text (columns data) = true ->
  plain_amounts keywords s = true ->
  process_sheet numeric_text fixed_cols keywords st s = Ok st' ->
  exists fragment,
    all_ledgers st' = all_ledgers st ++ [fragment]
    /\ forall i vals,
        In (i, vals) (body fragment) ->
        exists dvals,
          In (i, dvals) (body data)
          /\ pick (columns fragment) vals TDS_Amount <> []
          /\ Forall
               (eq (if existsb (matches_keyword keywords) (columns data)
                    then Num (fold_right Z.add 0%Z
                                (map (contribution numeric_text)
                                     (matching_cells data keywords dvals)))
                    else NA))
               (pick (columns fragment) vals TDS_Amount).
Proof.
  intros Ht Hnd _ _ H.
  destruct (fragment_rows numeric_text _ _ _ _ _ _ Ht H)
    as [bd [ret [fragment [_ [_ [Hled [_ [_ Hrows]]]]]]]].
  exists fragment. split; [assumption|].
  intros i vals Hin. destruct (Hrows i vals Hin) as [dvals [Hd [_ [Hne Hall]]]].
  exists dvals. split; [assumption|]. split; [assumption|].
  destruct (table_of_rect _ _ Ht) as [Hrect _].
  rewrite distinct_labels_tds_amount in Hall
    by (auto; apply (Hrect (i, dvals) Hd)).
  replace (existsb (matches_keyword keywords) (columns data))
    with (match tds_cols data keywords with [] => false | _ => true end).
  - now destruct (tds_cols data keywords).
  - apply filter_nonempty.
Qed.

End Sums.

(** ** The whole run on headers with distinct labels *)

Lemma is_unique_NoDup (cols : list cell) :
  is_unique cols = true <-> NoDup cols.
Proof.
  induction cols as [|c cols IH]; simpl.
  - split; [constructor | reflexivity].
  - rewrite andb_true_iff, negb_true_iff, IH. split.
    + intros [Hc Hnd]. constructor; [|assumption].
      intro Hin. apply has_label_In in Hin. congruence.
    + intro H. inversion H as [|? ? Hnotin Hnd]; subst. split; [|assumption].
      destruct (has_label cols c) eqn:E; [|reflexivity].
      apply has_label_In in E. contradiction.
Qed.

Lemma has_label_false (cols : list cell) (key : cell) :
  has_label cols key = false <-> ~ In key cols.
Proof.
  rewrite <- has_label_In. destruct (has_label cols key); split;
    congruence.
Qed.

Lemma setitem_columns (df : DataFrame) (key : cell) (value : nat -> cell) :
  columns (setitem df key value) = set_label (columns df) key.
Proof.
  unfold setitem, set_label. now destruct (has_label (columns df) key).
Qed.

Lemma set_label_NoDup (cols : list cell) (key : cell) :
  NoDup cols -> NoDup (set_label cols key).
Proof.
  intro H. unfold set_label. destruct (has_label cols key) eqn:E;
    [assumption|].
  apply NoDup_snoc. split; [assumption | now apply has_label_false].
Qed.

Lemma set_label_incl (cols : list cell) (key : cell) :
  incl cols (set_label cols key) /\ In key (set_label cols key).
Proof.
  unfold set_label. destruct (has_label cols key) eqn:E.
  - split; [apply incl_refl | now apply has_label_In].
  - split; [apply incl_appl, incl_refl | apply in_or_app; right; now left].
Qed.

Lemma has_label_snoc (cols : list cell) (c x : cell) :
  x <> c -> has_label (cols ++ [c]) x = has_label cols x.
Proof.
  intro H. unfold has_label. rewrite existsb_app. simpl.
  apply cell_eqb_neq in H. rewrite H. now rewrite !orb_false_r.
Qed.

Lemma add_missing_columns (template : list cell) (df : DataFrame) :
  NoDup template ->
  columns (add_missing template df)
  = columns df
    ++ filter (fun c => negb (has_label (columns df) c)) template.
Proof.
  unfold add_missing. revert df.
  induction template as [|c t IH]; intros df Hnd; simpl.
  - now rewrite app_nil_r.
  - inversion Hnd as [|? ? Hnotin Hnd']; subst.
    destruct (has_label (columns df) c) eqn:E; simpl.
    + now apply IH.
    + rewrite IH by assumption. rewrite setitem_columns.
      unfold set_label. rewrite E, <- app_assoc. simpl. f_equal. f_equal.
      apply filter_ext_in. intros x Hx. f_equal. apply has_label_snoc.
      intros ->. contradiction.
Qed.

Lemma add_missing_distinct (template : list cell) (df : DataFrame) :
  NoDup template -> NoDup (columns df) ->
  NoDup (columns (add_missing template df))
  /\ incl template (columns (add_missing template df)).
Proof.
  intros Ht Hc. rewrite add_missing_columns by assumption. split.
  - apply NoDup_app; [assumption | now apply NoDup_filter |].
    intros a Ha Hf. apply filter_In in Hf. destruct Hf as [_ Hf].
    apply negb_true_iff, has_label_false in Hf. contradiction.
  - intros k Hk. apply in_or_app.
    destruct (has_label (columns df) k) eqn:E.
    + left. now apply has_label_In.
    + right. apply filter_In. split; [assumption|]. now rewrite E.
Qed.

Lemma drop_grand_total_distinct (base_data : DataFrame) :
  NoDup (columns base_data) ->
  exists retained,
    drop_grand_total base_data = Ok retained
    /\ columns retained = columns base_data
    /\ incl (body retained) (body base_data).
Proof.
  intro Hnd. destruct (particulars_col base_data) as [col|] eqn:E.
  - assert (Hone : pick (columns base_data) (columns base_data) col = [col]).
    { pose proof E as E'. apply find_some in E'. destruct E' as [Hin _].
      destruct (pick_single _ (columns base_data) col Hnd eq_refl Hin)
        as [v Hv].
      rewrite pick_labels, Hv. reflexivity. }
    eexists. split; [exact (drop_grand_total_one _ _ E Hone)|].
    split; [reflexivity|]. simpl. intros r Hr.
    apply filter_In in Hr. tauto.
  - exists base_data. split; [now apply drop_grand_total_none|].
    split; [reflexivity | apply incl_refl].
Qed.

Lemma cells_eqb_refl (l : list cell) : cells_eqb l l = true.
Proof.
  induction l as [|c l IH]; simpl; [reflexivity|].
  now rewrite cell_eqb_refl, IH.
Qed.

(** ** What [pd.concat] does to the rows *)

Lemma enumerate_nth_In {A : Type} (l : list A) (j : nat) (v d : A) :
  In (j, v) (enumerate 0 l) -> nth j l d = v.
Proof.
  intro H. apply enumerate_In in H. destruct H as [_ H].
  rewrite Nat.sub_0_r in H. now apply nth_error_nth.
Qed.

Lemma Forall2_map_self {A B : Type} (R : B -> A -> Prop) (f : B -> A)
  (l : list B) :
  (forall x, In x l -> R x (f x)) -> Forall2 R l (map f l).
Proof.
  induction l as [|x l IH]; intro H; simpl; constructor.
  - apply H. now left.
  - apply IH. intros y Hy. apply H. now right.
Qed.

Lemma Forall2_enumerate {A B : Type} (R : A -> B -> Prop)
  (f : nat * A -> B) (l : list A) (k : nat) :
  (forall jv, In jv (enumerate k l) -> R (snd jv) (f jv)) ->
  Forall2 R l (map f (enumerate k l)).
Proof.
  revert k. induction l as [|x l IH]; intros k H; simpl; constructor.
  - apply (H (k, x)). now left.
  - apply IH. intros jv Hjv. apply H. now right.
Qed.

Lemma Forall2_same {A : Type} (R : A -> A -> Prop) (l : list A) :
  (forall x, In x l -> R x x) -> Forall2 R l l.
Proof.
  induction l as [|x l IH]; intro H; constructor.
  - apply H. now left.
  - apply IH. intros y Hy. apply H. now right.
Qed.

Lemma Forall2_In_r {A B : Type} (R : A -> B -> Prop) (l : list A)
  (l' : list B) (y : B) :
  Forall2 R l l' -> In y l' -> exists x, In x l /\ R x y.
Proof.
  induction 1 as [|x y0 l l' Hxy _ IH]; intro Hin; [contradiction|].
  destruct Hin as [<- | Hin].
  - exists x. split; [now left | assumption].
  - destruct (IH Hin) as [x0 [Hx0 Hr]]. exists x0. split; [now right|].
    assumption.
Qed.

(** A cell comes out as it is, or was missing and comes out as [NaN]. *)
Lemma fill_missing_cells (rows : list (list cell)) :
  Forall2 (Forall2 (fun a b => b = a \/ (isna a = true /\ b = NaN)))
          rows (fill_missing rows).
Proof.
  unfold fill_missing. apply Forall2_map_self. intros vals Hvals.
  apply Forall2_enumerate. intros [j v] Hjv. cbn [fst snd].
  destruct (missing_column rows j) eqn:E; [|now left].
  right. split; [|reflexivity].
  unfold missing_column in E. rewrite forallb_forall in E.
  specialize (E vals Hvals). now rewrite (enumerate_nth_In _ _ _ _ Hjv) in E.
Qed.

Lemma settled_cells (frames : list DataFrame) (rows : list (list cell)) :
  Forall2 (Forall2 (fun a b => b = a \/ (isna a = true /\ b = NaN)))
          rows (settled frames rows).
Proof.
  unfold settled. destruct frames as [|f [|g rest]];
    try apply fill_missing_cells;
    apply Forall2_same; intros vals _;
    apply Forall2_same; intros v _; now left.
Qed.

Lemma settled_length (frames : list DataFrame) (rows : list (list cell)) :
  List.length (settled frames rows) = List.length rows.
Proof. symmetry. exact (Forall2_length (settled_cells frames rows)). Qed.

Lemma settled_row_length (frames : list DataFrame) (rows : list (list cell))
  (n : nat) :
  (forall vals, In vals rows -> List.length vals = n) ->
  forall vals, In vals (settled frames rows) -> List.length vals = n.
Proof.
  intros H vals Hin.
  destruct (Forall2_In_r _ _ _ _ (settled_cells frames rows) Hin)
    as [vals0 [Hin0 Hrel]].
  rewrite <- (Forall2_length Hrel). now apply H.
Qed.

Lemma concat_settled (frames : list DataFrame) :
  concat frames
  = match frames with
    | [] => Raise ValueError
    | f :: rest =>
        if forallb (fun g => cells_eqb (columns g) (columns f)) rest
        then Ok {| columns := columns f;
                   body := enumerate 0
                             (flat_map
                                (fun g => settled frames (map snd (body g)))
                                frames) |}
        else if forallb (fun g => is_unique (columns g)) frames
        then Ok {| columns := union_columns frames;
                   body := enumerate 0
                             (flat_map
                                (fun g =>
                                   settled frames
                                     (map (fun r =>
                                             reindex_row (columns g) (snd r)
                                               (union_columns frames))
                                          (body g)))
                                frames) |}
        else Raise InvalidIndexError
    end.
Proof. destruct frames as [|f [|g rest]]; reflexivity. Qed.

Lemma concat_same (cols : list cell) (ledgers : list DataFrame) :
  ledgers <> [] ->
  (forall f, In f ledgers -> columns f = cols) ->
  concat ledgers
  = Ok {| columns := cols;
          body := enumerate 0
                    (flat_map (fun g => settled ledgers (map snd (body g)))
                              ledgers) |}.
Proof.
  intros Hne Hall. rewrite concat_settled. destruct ledgers as [|f rest];
    [contradiction|].
  assert (E : forallb (fun g => cells_eqb (columns g) (columns f)) rest
              = true).
  { apply forallb_forall. intros g Hg.
    rewrite (Hall g) by now right. rewrite (Hall f) by now left.
    apply cells_eqb_refl. }
  rewrite E. now rewrite (Hall f) by now left.
Qed.

Lemma flat_map_ext_in {A B : Type} (f g : A -> list B) (l : list A) :
  (forall x, In x l -> f x = g x) -> flat_map f l = flat_map g l.
Proof.
  induction l as [|x l IH]; intro H; simpl; [reflexivity|].
  rewrite (H x) by now left. f_equal. apply IH.
  intros y Hy. apply H. now right.
Qed.

Lemma map_flat_map {A B C : Type} (h : B -> C) (g : A -> list B)
  (l : list A) :
  map h (flat_map g l) = flat_map (fun x => map h (g x)) l.
Proof.
  induction l as [|x l IH]; simpl; [reflexivity|].
  now rewrite map_app, IH.
Qed.

Section Run.

Variable numeric_text : string -> option Z.
Variable fixed_cols : nat.
Variable keywords : list string.
Hypothesis fixed_cols_pos : 1 <= fixed_cols.

Lemma process_sheet_distinct (st : state) (s : sheet) :
  consistent st -> distinct_labels fixed_cols s = true ->
  exists st',
    process_sheet numeric_text fixed_cols keywords st s = Ok st'
    /\ consistent st'
    /\ (forall t, template_cols st = Some t -> template_cols st' = Some t)
    /\ (forall data, table_of (read_excel s) = Some data ->
                     template_cols st = None ->
                     template_cols st' = Some (own_template fixed_cols data))
    /\ (table_of (read_excel s) = None -> st' = st).
Proof.
  intros Hst Hs. unfold distinct_labels in Hs. unfold process_sheet.
  destruct (table_of (read_excel s)) as [data|] eqn:Ht.
  2:{ exists st. repeat split; auto. intros data H. discriminate. }
  apply andb_true_iff in Hs. destruct Hs as [Hu Hla].
  apply is_unique_NoDup in Hu.
  apply negb_true_iff, has_label_false in Hla.
  destruct (table_of_rect _ _ Ht) as [Hrect _].
  destruct (table_of_columns _ _ Ht) as [Hcols _].
  destruct (distinct_labels_fixed_columns data fixed_cols Hu Hrect Hcols
              fixed_cols_pos) as [init [old [Efirst Efixed]]].
  assert (Hown : own_template fixed_cols data = init ++ [Ledger_Amount]).
  { unfold own_template. now rewrite Efirst, removelast_last. }
  assert (Hbase : NoDup (init ++ [Ledger_Amount])).
  { apply NoDup_snoc. split.
    - apply (NoDup_firstn fixed_cols) in Hu. rewrite Efirst in Hu.
      now apply NoDup_snoc in Hu.
    - now rewrite Efirst, removelast_last in Hla. }
  rewrite Efixed. cbn [bind].
  match goal with |- context [drop_grand_total ?b] => set (bd := b) end.
  assert (Hbd : rect bd) by (eapply fixed_columns_rect; eauto).
  destruct (drop_grand_total_distinct bd Hbase) as [ret [Eret [Hcr Hbr]]].
  rewrite Eret. cbn [bind].
  assert (Hret : rect ret).
  { intros r Hr. rewrite Hcr. apply Hbd. now apply Hbr. }
  assert (Hal : exists t al,
             align (template_cols st) ret = Ok (t, al)
             /\ columns al = t /\ rect al /\ NoDup t
             /\ (forall t0, template_cols st = Some t0 -> t = t0)
             /\ (template_cols st = None -> t = own_template fixed_cols data)).
  { unfold align. destruct (template_cols st) as [t0|] eqn:Etpl.
    - unfold consistent in Hst. rewrite Etpl in Hst.
      destruct Hst as [Hnd0 _].
      assert (Hcr' : NoDup (columns ret)) by now rewrite Hcr.
      destruct (add_missing_distinct t0 ret Hnd0 Hcr') as [Hnd1 Hincl].
      rewrite getitem_list_Ok by assumption. cbn [bind].
      eexists. eexists. split; [reflexivity|]. cbn [columns].
      split; [now apply take_labels|]. split.
      + eapply getitem_list_rect;
          [apply add_missing_rect, Hret | now apply getitem_list_Ok].
      + split; [assumption|]. split; [intros t1 H; now inversion H|].
        discriminate.
    - exists (columns ret), ret. split; [reflexivity|].
      split; [reflexivity|]. split; [assumption|].
      rewrite Hcr. split; [assumption|]. split; [discriminate|].
      intros _. now symmetry. }
  destruct Hal as [t [al [Eal [Hcal [Hral [Hndt [Hsame Hnew]]]]]]].
  rewrite Eal. cbn [bind snd fst].
  destruct (add_tds_amount_Ok numeric_text data al keywords)
    as [value [Etds _]].
  rewrite Etds. cbn [bind].
  eexists. split; [reflexivity|]. cbn [template_cols all_ledgers].
  split; [|split; [|split]].
  - unfold consistent. cbn [template_cols all_ledgers].
    split; [assumption|]. split.
    + intro H. apply app_eq_nil in H. destruct H. discriminate.
    + intros f Hf. apply in_app_or in Hf. destruct Hf as [Hf | [<- | []]].
      * unfold consistent in Hst.
        destruct (template_cols st) as [t0|] eqn:Etpl.
        -- rewrite (Hsame t0 eq_refl). now apply Hst.
        -- rewrite Hst in Hf. contradiction.
      * split.
        -- rewrite !setitem_columns, Hcal. reflexivity.
        -- now apply setitem_rect, setitem_rect.
  - intros t0 H. now rewrite (Hsame t0 H).
  - intros data' H Hnone. inversion H; subst data'. now rewrite Hnew.
  - discriminate.
Qed.

Lemma process_sheets_distinct (workbook : list sheet) :
  forall st,
    consistent st -> forallb (distinct_labels fixed_cols) workbook = true ->
    exists st',
      process_sheets numeric_text fixed_cols keywords st workbook = Ok st'
      /\ consistent st'
      /\ (forall t, template_cols st = Some t -> template_cols st' = Some t)
      /\ (template_cols st = None ->
          forall t, template_cols st' = Some t ->
                    exists before s after data,
                      workbook = before ++ s :: after
                      /\ forallb skipped before = true
                      /\ table_of (read_excel s) = Some data
                      /\ t = own_template fixed_cols data).
Proof.
  induction workbook as [|s wb IH]; intros st Hst Hwb.
  - exists st. simpl. repeat split; auto.
    intros Hnone t Ht. congruence.
  - simpl in Hwb. apply andb_true_iff in Hwb. destruct Hwb as [Hs Hwb].
    destruct (process_sheet_distinct st s Hst Hs)
      as [st1 [E1 [Hst1 [Hkeep1 [Hlock1 Hskip1]]]]].
    destruct (IH st1 Hst1 Hwb) as [st' [E' [Hst' [Hkeep' Hfirst']]]].
    exists st'. simpl. rewrite E1. cbn [bind].
    split; [assumption|]. split; [assumption|]. split.
    + intros t Ht. apply Hkeep'. now apply Hkeep1.
    + intros Hnone t Ht.
      destruct (table_of (read_excel s)) as [data|] eqn:Etab.
      * exists [], s, wb, data.
        split; [reflexivity|]. split; [reflexivity|]. split; [exact Etab|].
        specialize (Hlock1 data eq_refl Hnone).
        apply Hkeep' in Hlock1. congruence.
      * rewrite (Hskip1 eq_refl) in Hfirst'.
        destruct (Hfirst' Hnone t Ht)
          as [before [s0 [after [data [-> [Hb [Hd ->]]]]]]].
        exists (s :: before), s0, after, data. repeat split; auto.
        simpl. rewrite Hb. now rewrite (proj1 (table_of_None s) Etab).
Qed.

End Run.

Lemma pick_app {A : Type} (c1 c2 : list cell) (v1 v2 : list A) (k : cell) :
  List.length v1 = List.length c1 ->
  pick (c1 ++ c2) (v1 ++ v2) k = pick c1 v1 k ++ pick c2 v2 k.
Proof.
  intro H. unfold pick. rewrite <- map_app, <- filter_app. f_equal. f_equal.
  revert v1 H. induction c1 as [|c c1 IH]; intros [|v v1] H; simpl in *;
    try discriminate; [reflexivity|].
  f_equal. apply IH. now inversion H.
Qed.

Lemma add_missing_body (template : list cell) (df : DataFrame) :
  NoDup template ->
  body (add_missing template df)
  = map (fun r =>
           (fst r,
            snd r ++ map (fun _ => NA)
                         (filter (fun c => negb (has_label (columns df) c))
                                 template)))
        (body df).
Proof.
  unfold add_missing. revert df.
  induction template as [|c t IH]; intros df Hnd; simpl.
  - rewrite <- (map_id (body df)) at 1. apply map_ext. intros [i vals].
    simpl. now rewrite app_nil_r.
  - inversion Hnd as [|? ? Hnotin Hnd']; subst.
    destruct (has_label (columns df) c) eqn:E; simpl.
    + now apply IH.
    + rewrite IH by assumption. unfold setitem at 2. rewrite E.
      cbn [body]. rewrite map_map. apply map_ext. intros [i vals].
      cbn [fst snd]. rewrite <- app_assoc. simpl. do 3 f_equal.
      rewrite setitem_columns. unfold set_label. rewrite E. f_equal.
      apply filter_ext_in. intros x Hx. f_equal. apply has_label_snoc.
      intros ->. contradiction.
Qed.

Lemma pick_all_NA (cols : list cell) (k : cell) :
  hd NaN (pick cols (map (fun _ => NA) cols) k)
  = if has_label cols k then NA else NaN.
Proof.
  unfold pick, has_label. induction cols as [|c cols IH]; simpl;
    [reflexivity|].
  rewrite (cell_eqb_sym k c). destruct (cell_eqb c k); simpl;
    [reflexivity | exact IH].
Qed.

(** Aligning distinct labels to a template of distinct labels: the
    columns are the template; under a label the sheet has, its value; under
    a label it lacks, [pd.NA]; what the template lacks is gone. *)
Lemma align_distinct (template : list cell) (retained : DataFrame) :
  NoDup template -> NoDup (columns retained) -> rect retained ->
  align (Some template) retained
  = Ok (template,
        {| columns := template;
           body := map (fun r =>
                          (fst r,
                           map (fun k => if has_label (columns retained) k
                                         then value_at retained k r
                                         else NA)
                               template))
                       (body retained) |}).
Proof.
  intros Ht Hc Hrect. unfold align.
  destruct (add_missing_distinct template retained Ht Hc) as [Hnd Hincl].
  rewrite getitem_list_Ok by assumption. cbn [bind]. do 3 f_equal.
  - now apply take_labels.
  - rewrite add_missing_body by assumption. rewrite map_map.
    apply map_ext_in. intros r Hr. cbn [fst snd]. f_equal.
    rewrite add_missing_columns in * by assumption.
    rewrite take_by_labels; auto.
    2:{ rewrite !length_app, length_map. f_equal. now apply Hrect. }
    apply map_ext_in. intros k Hk.
    rewrite pick_app by now apply Hrect.
    unfold value_at. destruct (has_label (columns retained) k) eqn:E.
    + destruct (pick_single (columns retained) (snd r) k Hc) as [v Hv];
        [now apply Hrect | now apply has_label_In |].
      now rewrite Hv.
    + rewrite (pick_none _ _ _ E). cbn [app].
      rewrite pick_all_NA.
      assert (Hin : In k (filter (fun c => negb (has_label (columns retained) c))
                                 template)).
      { apply filter_In. split; [assumption | now rewrite E]. }
      apply has_label_In in Hin. now rewrite Hin.
Qed.

Lemma pick_Forall2 {A B : Type} (R : A -> B -> Prop) (cols : list cell)
  (v1 : list A) (v2 : list B) (k : cell) :
  Forall2 R v1 v2 -> Forall2 R (pick cols v1 k) (pick cols v2 k).
Proof.
  intro H. unfold pick. revert cols.
  induction H as [|a b v1 v2 Hab _ IH]; intros [|c cols]; simpl;
    try constructor.
  destruct (cell_eqb c k); simpl; [constructor; [assumption|] |]; apply IH.
Qed.

Lemma Forall2_flat_map {A B C : Type} (R : B -> C -> Prop)
  (F : A -> list B) (G : A -> list C) (l : list A) :
  (forall x, In x l -> Forall2 R (F x) (G x)) ->
  Forall2 R (flat_map F l) (flat_map G l).
Proof.
  induction l as [|x l IH]; intro H; simpl; [constructor|].
  apply Forall2_app; [apply H; now left|].
  apply IH. intros y Hy. apply H. now right.
Qed.

Lemma Forall2_map_both {A B C D : Type} (P : A -> B -> Prop)
  (Q : C -> D -> Prop) (h1 : A -> C) (h2 : B -> D) (l : list A)
  (l' : list B) :
  (forall a b, In a l -> P a b -> Q (h1 a) (h2 b)) ->
  Forall2 P l l' -> Forall2 Q (map h1 l) (map h2 l').
Proof.
  intros H HF. induction HF as [|a b l l' Hab _ IH]; simpl; constructor.
  - apply H; [now left | assumption].
  - apply IH. intros x y Hx. apply H. now right.
Qed.

Lemma settled_alike (a b : cell) :
  b = a \/ (isna a = true /\ b = NaN) -> alike a b.
Proof.
  intros [-> | [Ha ->]]; [now left | right; now split].
Qed.

(** Selecting by label what [pd.concat] delivers for a row gives the
    values of the row under these labels, up to the missing ones. *)
Lemma settled_rows_by_labels (frames : list DataFrame) (f : DataFrame)
  (keys : list cell) :
  NoDup (columns f) -> incl keys (columns f) -> rect f ->
  Forall2 (Forall2 alike)
          (map (fun r => map (fun k => value_at f k r) keys) (body f))
          (map (fun vals => take (columns f) vals keys)
               (settled frames (map snd (body f)))).
Proof.
  intros Hnd Hincl Hrect. unfold value_at.
  rewrite <- (map_map snd (fun vals => map (fun k => hd NaN
                                             (pick (columns f) vals k))
                                          keys)).
  eapply Forall2_map_both; [|apply settled_cells].
  intros vals vals' Hin Hrel. cbv beta. apply in_map_iff in Hin.
  destruct Hin as [r [<- Hr]].
  rewrite take_by_labels; auto.
  2:{ rewrite <- (Forall2_length Hrel). now apply Hrect. }
  apply (Forall2_map_both eq); [|apply Forall2_same; reflexivity].
  intros k k' _ <-.
  pose proof (pick_Forall2 _ (columns f) _ _ k Hrel) as Hp.
  destruct Hp as [|a b p p' Hab _]; [now left|]. simpl.
  now apply settled_alike.
Qed.

(** X13.  On a workbook whose headers have distinct labels, all of them
    text: the run returns [None] when no sheet gave a table; otherwise the
    template is the fixed columns, the last renamed, of the first sheet
    that was not skipped, every fragment has the columns of the template
    and then [TDS_Amount] and [LedgerName] where the template lacks them,
    and the table returned has exactly the columns template, [TDS_Amount],
    [LedgerName], a row for each row of each fragment, in the order of the
    fragments and of their rows, holding that row's values under these
    labels (a missing value may come out as the other missing value), and
    the index 0, 1, 2, ... *)
Theorem distinct_labels_result_table
  (numeric_text : string -> option Z) (workbook : list sheet)
  (fixed_cols : nat) (tds_keywords_raw : string) :
  1 <= fixed_cols ->
  forallb (distinct_labels fixed_cols) workbook = true ->
  forallb text_headers workbook = true ->
  exists st,
    process_sheets numeric_text fixed_cols (tds_keywords tds_keywords_raw)
      {| template_cols := None; all_ledgers := [] |} workbook = Ok st
    /\ match template_cols st with
       | None =>
           process_file numeric_text workbook fixed_cols tds_keywords_raw
           = Ok None
       | Some template =>
           (exists before s after data,
               workbook = before ++ s :: after
               /\ forallb skipped before = true
               /\ table_of (read_excel s) = Some data
               /\ template = own_template fixed_cols data)
           /\ (forall f, In f (all_ledgers st) ->
                         columns f = fragment_columns template /\ rect f)
           /\ exists final,
               process_file numeric_text workbook fixed_cols tds_keywords_raw
               = Ok (Some final)
               /\ columns final = template ++ [TDS_Amount; LedgerName]
               /\ Forall2 (Forall2 alike)
                    (flat_map
                       (fun f =>
                          map (fun r =>
                                 map (fun k => value_at f k r)
                                     (template ++ [TDS_Amount; LedgerName]))
                              (body f))
                       (all_ledgers st))
                    (map snd (body final))
               /\ index final = seq 0 (List.length (body final))
               /\ rect final
       end.
Proof.
  intros HX Hwb _.
  destruct (process_sheets_distinct numeric_text fixed_cols
              (tds_keywords tds_keywords_raw) HX workbook
              {| template_cols := None; all_ledgers := [] |}
              eq_refl Hwb)
    as [st [Erun [Hst [_ Hfirst]]]].
  exists st. split; [assumption|].
  unfold process_file. rewrite Erun. cbn [bind].
  unfold consistent in Hst.
  destruct (template_cols st) as [t|] eqn:Etpl.
  2:{ now rewrite Hst. }
  destruct Hst as [Hnd [Hne Hall]].
  split; [now apply Hfirst|]. split; [assumption|].
  set (keys := t ++ [TDS_Amount; LedgerName]).
  assert (Hcols : NoDup (fragment_columns t)).
  { now apply set_label_NoDup, set_label_NoDup. }
  assert (Hkeys : incl keys (fragment_columns t)).
  { unfold keys, fragment_columns. intros k Hk. apply in_app_or in Hk.
    destruct Hk as [Hk | [<- | [<- | []]]].
    - now apply set_label_incl, set_label_incl.
    - apply set_label_incl, set_label_incl.
    - apply set_label_incl. }
  destruct (all_ledgers st) as [|f0 rest] eqn:Eled; [congruence|].
  rewrite <- Eled in *.
  rewrite (concat_same (fragment_columns t))
    by (auto; intros f Hf; now apply Hall).
  cbn [bind].
  rewrite getitem_list_Ok by assumption. cbn [bind columns body].
  eexists. split; [reflexivity|]. cbn [columns body].
  split; [now apply take_labels|].
  split; [|split].
  - rewrite map_map. cbn [snd].
    rewrite <- (map_map snd (fun vals => take (fragment_columns t) vals keys)).
    rewrite enumerate_snd, map_flat_map.
    apply Forall2_flat_map. intros f Hf. destruct (Hall f Hf) as [Hcf Hrf].
    rewrite <- Hcf. apply settled_rows_by_labels; rewrite ?Hcf; assumption.
  - unfold index. cbn [body]. rewrite map_map. cbn [fst].
    now rewrite enumerate_fst, length_map, enumerate_length.
  - intros r Hr. cbn [body columns] in *. apply in_map_iff in Hr.
    destruct Hr as [[i vals] [<- Hr]]. cbn [snd].
    apply enumerate_In in Hr. destruct Hr as [_ Hr].
    apply nth_error_In in Hr. apply in_flat_map in Hr.
    destruct Hr as [f [Hf Hr]]. destruct (Hall f Hf) as [Hcf Hrf].
    apply take_length.
    apply (settled_row_length (all_ledgers st) (map snd (body f))); auto.
    intros v Hv. apply in_map_iff in Hv. destruct Hv as [r [<- Hr0]].
    rewrite <- Hcf. now apply Hrf.
Qed.

Lemma distinct_labels_fragment_tds_witness :
  exists fragment,
    all_ledgers sheet_a_state = [] ++ [fragment]
    /\ forall i vals,
        In (i, vals) (body fragment) ->
        exists dvals,
          In (i, dvals) (body sheet_a_table)
          /\ pick (columns fragment) vals TDS_Amount <> []
          /\ Forall
               (eq (if existsb (matches_keyword ["tds"])
                               (columns sheet_a_table)
                    then Num (fold_right Z.add 0%Z
                                (map (contribution (fun _ => None))
                                     (matching_cells sheet_a_table ["tds"]
                                        dvals)))
                    else NA))
               (pick (columns fragment) vals TDS_Amount).
Proof.
  exact (distinct_labels_fragment_tds (fun _ => None) 3 ["tds"]
           {| template_cols := None; all_ledgers := [] |} sheet_a_state
           sheet_a sheet_a_table eq_refl
           (proj1 (is_unique_NoDup (columns sheet_a_table)) eq_refl)
           eq_refl eq_refl eq_refl).
Defined.

Lemma distinct_labels_result_table_witness :
  exists st,
    process_sheets (fun _ => None) 3 (tds_keywords "tds")
      {| template_cols := None; all_ledgers := [] |} fees_workbook = Ok st
    /\ match template_cols st with
       | None =>
           process_file (fun _ => None) fees_workbook 3 "tds" = Ok None
       | Some template =>
           (exists before s after data,
               fees_workbook = before ++ s :: after
               /\ forallb skipped before = true
               /\ table_of (read_excel s) = Some data
               /\ template = own_template 3 data)
           /\ (forall f, In f (all_ledgers st) ->
                         columns f = fragment_columns template /\ rect f)
           /\ exists final,
               process_file (fun _ => None) fees_workbook 3 "tds"
               = Ok (Some final)
               /\ columns final = template ++ [TDS_Amount; LedgerName]
               /\ Forall2 (Forall2 alike)
                    (flat_map
                       (fun f =>
                          map (fun r =>
                                 map (fun k => value_at f k r)
                                     (template ++ [TDS_Amount; LedgerName]))
                              (body f))
                       (all_ledgers st))
                    (map snd (body final))
               /\ index final = seq 0 (List.length (body final))
               /\ rect final
       end.
Proof.
  exact (distinct_labels_result_table (fun _ => None) fees_workbook 3 "tds"
           (le_S _ _ (le_S _ _ (le_n 1))) eq_refl eq_refl).
Defined.

(** ** Every table that is returned *)

Lemma take_incl (cols keys : list cell) : incl (take cols cols keys) keys.
Proof.
  intros c Hc. unfold take in Hc. apply in_flat_map in Hc.
  destruct Hc as [k [Hk Hc]]. rewrite pick_labels in Hc.
  apply repeat_spec in Hc. now subst.
Qed.

Lemma cells_eqb_eq (a b : list cell) : cells_eqb a b = true -> a = b.
Proof.
  revert b. induction a as [|x a IH]; intros [|y b] H; simpl in H;
    try discriminate; [reflexivity|].
  apply andb_true_iff in H. destruct H as [Hx Ha].
  apply cell_eqb_eq in Hx. subst. f_equal. now apply IH.
Qed.

(** The table [pd.concat] returns, frame by frame. *)
Lemma concat_inv (frames : list DataFrame) (df : DataFrame) :
  concat frames = Ok df ->
  exists F : DataFrame -> list (list cell),
    body df
    = enumerate 0 (flat_map (fun g => settled frames (F g)) frames)
    /\ ((forall g, In g frames ->
                   columns g = columns df /\ F g = map snd (body g))
        \/ (forall g,
               F g = map (fun r => reindex_row (columns g) (snd r)
                                               (columns df))
                         (body g))).
Proof.
  rewrite concat_settled. destruct frames as [|f rest]; [discriminate|].
  destruct (forallb (fun g => cells_eqb (columns g) (columns f)) rest) eqn:E.
  - intro H. inversion H; subst. cbn [body columns].
    exists (fun g => map snd (body g)). split; [reflexivity|]. left.
    intros g [<- | Hg]; [now split|]. split; [|reflexivity].
    rewrite forallb_forall in E. now apply cells_eqb_eq, E.
  - destruct (forallb (fun g => is_unique (columns g)) (f :: rest));
      [|discriminate].
    intro H. inversion H; subst. cbn [body columns].
    exists (fun g => map (fun r : nat * list cell =>
                            reindex_row (columns g) (snd r)
                                        (union_columns (f :: rest)))
                         (body g)).
    split; [reflexivity|]. right. reflexivity.
Qed.

Lemma concat_rect (frames : list DataFrame) (df : DataFrame) :
  (forall f, In f frames -> rect f) -> concat frames = Ok df -> rect df.
Proof.
  intros Hall H. destruct (concat_inv _ _ H) as [F [Hbody HF]].
  intros [i vals] Hr. rewrite Hbody in Hr. cbn [snd].
  apply enumerate_In in Hr. destruct Hr as [_ Hr].
  apply nth_error_In in Hr. apply in_flat_map in Hr.
  destruct Hr as [g [Hg Hr]].
  apply (settled_row_length frames (F g)); [|assumption].
  intros v Hv. destruct HF as [HF | HF].
  - destruct (HF g Hg) as [Hc HFg]. rewrite HFg in Hv.
    apply in_map_iff in Hv. destruct Hv as [r [<- Hr0]].
    rewrite <- Hc. now apply (Hall g Hg).
  - rewrite HF in Hv. apply in_map_iff in Hv. destruct Hv as [r [<- Hr0]].
    unfold reindex_row. apply length_map.
Qed.

Section Returned.

Variable numeric_text : string -> option Z.
Variable fixed_cols : nat.
Variable keywords : list string.

Lemma process_sheet_rect (st st' : state) (s : sheet) :
  (forall f, In f (all_ledgers st) -> rect f) ->
  process_sheet numeric_text fixed_cols keywords st s = Ok st' ->
  forall f, In f (all_ledgers st') -> rect f.
Proof.
  intros Hall H. destruct (table_of (read_excel s)) as [data|] eqn:Ht.
  - destruct (process_sheet_steps _ _ _ _ _ _ _ Ht H)
      as [bd [ret [t [al [wt [E1 [E2 [E3 [E4 ->]]]]]]]]].
    destruct (table_of_rect _ _ Ht) as [Hrect _].
    destruct (align_inv _ _ _ _ E3) as [_ Hral].
    destruct (add_tds_amount_Ok numeric_text data al keywords)
      as [value [E4' _]].
    rewrite E4' in E4. inversion E4; subst wt.
    intros f Hf. cbn [all_ledgers] in Hf. apply in_app_or in Hf.
    destruct Hf as [Hf | [<- | []]]; [now apply Hall|].
    apply setitem_rect, setitem_rect, Hral.
    eapply drop_grand_total_rect; [|exact E2].
    eapply fixed_columns_rect; eauto.
  - unfold process_sheet in H. rewrite Ht in H. inversion H; subst.
    exact Hall.
Qed.

Lemma process_sheets_rect (workbook : list sheet) :
  forall st st',
    (forall f, In f (all_ledgers st) -> rect f) ->
    process_sheets numeric_text fixed_cols keywords st workbook = Ok st' ->
    forall f, In f (all_ledgers st') -> rect f.
Proof.
  induction workbook as [|s wb IH]; intros st st' Hall H; simpl in H.
  - inversion H; subst. exact Hall.
  - destruct (process_sheet numeric_text fixed_cols keywords st s)
      as [st1|e] eqn:E1; cbn [bind] in H; [|discriminate].
    apply (IH st1 st'); [|assumption].
    now apply (process_sheet_rect st st1 s).
Qed.

End Returned.

(** X14.  Whatever the headers are, a table that [process_file] returns
    has no column label outside the template, [TDS_Amount] and
    [LedgerName], and every row of it has one value per column. *)
Theorem returned_table_within_template
  (numeric_text : string -> option Z) (workbook : list sheet)
  (fixed_cols : nat) (tds_keywords_raw : string) (final : DataFrame) :
  process_file numeric_text workbook fixed_cols tds_keywords_raw
  = Ok (Some final) ->
  exists st template,
    process_sheets numeric_text fixed_cols (tds_keywords tds_keywords_raw)
      {| template_cols := None; all_ledgers := [] |} workbook = Ok st
    /\ template_cols st = Some template
    /\ incl (columns final) (template ++ [TDS_Amount; LedgerName])
    /\ rect final.
Proof.
  intro H. unfold process_file in H.
  destruct (process_sheets numeric_text fixed_cols
              (tds_keywords tds_keywords_raw)
              {| template_cols := None; all_ledgers := [] |} workbook)
    as [st|e] eqn:E; cbn [bind] in H; [|discriminate].
  assert (Hrect : forall f, In f (all_ledgers st) -> rect f).
  { apply (process_sheets_rect numeric_text fixed_cols
             (tds_keywords tds_keywords_raw) workbook
             {| template_cols := None; all_ledgers := [] |} st);
      [intros f [] | exact E]. }
  destruct (all_ledgers st) as [|f rest] eqn:El; [discriminate|].
  destruct (concat (f :: rest)) as [df|e] eqn:Ec; cbn [bind] in H;
    [|discriminate].
  destruct (template_cols st) as [t|] eqn:Et; [|discriminate].
  destruct (getitem_list df (t ++ [TDS_Amount; LedgerName])) as [fin|e] eqn:Eg;
    cbn [bind] in H; [|discriminate].
  inversion H; subst fin. exists st, t. repeat split; auto.
  - destruct (getitem_list_inv _ _ _ Eg) as [Hc _]. rewrite Hc.
    apply take_incl.
  - eapply getitem_list_rect; [|exact Eg]. eapply concat_rect; eauto.
Qed.

Lemma returned_table_within_template_witness :
  exists st template,
    process_sheets (fun _ => None) 3 (tds_keywords "tds")
      {| template_cols := None; all_ledgers := [] |} fees_workbook = Ok st
    /\ template_cols st = Some template
    /\ incl (columns fees_result) (template ++ [TDS_Amount; LedgerName])
    /\ rect fees_result.
Proof.
  exact (returned_table_within_template (fun _ => None) fees_workbook 3
           "tds" fees_result eq_refl).
Defined.

(** ** Worked examples *)

(** The worked example of the specification: three fixed columns, the
    keyword "tds". *)
Example specification_example :
  process_file (fun _ => None) [sheet_a; sheet_b] 3 "tds"
  = Ok (Some {| columns := [Str "Date"; Str "Particulars"; Ledger_Amount;
                            TDS_Amount; LedgerName];
                body := [(0, [Str "2024-01-01"; Str "Purchase"; Num 100;
                              Num 10; Str "SheetA"])] |}).
Proof. vm_compute. reflexivity. Qed.

(** A workbook with distinct labels whose sheets differ in their fixed
    columns: the first sheet is skipped, the second locks the template,
    the third lacks "Particulars" and has "Narration" instead. *)
Example distinct_labels_example :
  forallb (distinct_labels 3) [sheet_b; fees_sheet; journal_sheet] = true
  /\ process_file (fun _ => None) [sheet_b; fees_sheet; journal_sheet] 3 "tds"
     = Ok (Some {| columns := [Str "Date"; Str "Particulars"; Ledger_Amount;
                               TDS_Amount; LedgerName];
                   body := [ (0, [Str "2024-04-01"; Str "Audit"; Num 1000;
                                  Num 100; Str "Fees"]);
                             (1, [Str "2024-05-01"; Str "Tax advice";
                                  Num 500; Num 52; Str "Fees"]);
                             (2, [Str "2024-06-01"; NaN; Num 40; Num 4;
                                  Str "Journal"]) ] |}).
Proof. split; vm_compute; reflexivity. Qed.

(** Header cells as the detection sees them. *)
Example date_cells :
  is_date (Str "  DATE ") = true
  /\ is_date (Str "Dated") = false
  /\ is_date (Str "Date:") = false
  /\ is_date NaN = false
  /\ is_date (Num 45000) = false.
Proof. repeat split. Qed.

(** "Total" alone is not a grand total. *)
Example total_cells :
  is_grand_total (Str "Grand Total") = true
  /\ is_grand_total (Str "GRAND TOTAL (Dr)") = true
  /\ is_grand_total (Str "Total") = false
  /\ is_grand_total (Str "Grand  Total") = false
  /\ is_grand_total NaN = false.
Proof. repeat split. Qed.

(** With no fixed column at all, [base_cols[-1]] raises. *)
Example no_fixed_column :
  process_file (fun _ => None) [sheet_a] 0 "tds" = Raise IndexError.
Proof. reflexivity. Qed.

(** A "Particulars" label that two fixed columns carry makes the filter
    raise: [base_data[particulars_col]] is then a DataFrame, which has no
    [.str]. *)
Example repeated_particulars :
  drop_grand_total
    {| columns := [Str "Date"; Str "Particulars"; Str "Particulars";
                   Ledger_Amount];
       body := [(1, [Str "2024-04-01"; Str "Office"; Str "Rent"; Num 10])] |}
  = Raise AttributeError.
Proof. reflexivity. Qed.

(** Only the first "particular" column is searched: a grand total in a
    later one stays. *)
Example later_particulars_column :
  drop_grand_total
    {| columns := [Str "Date"; Str "Particulars"; Str "Particulars 2";
                   Ledger_Amount];
       body := [(1, [Str "2024-04-01"; Str "Rent"; Str "Grand Total";
                     Num 10])] |}
  = Ok {| columns := [Str "Date"; Str "Particulars"; Str "Particulars 2";
                      Ledger_Amount];
          body := [(1, [Str "2024-04-01"; Str "Rent"; Str "Grand Total";
                        Num 10])] |}.
Proof. reflexivity. Qed.

(** * Further properties of the code *)

(** ** The number of rows *)

Section Rows.

Variable numeric_text : string -> option Z.
Variable fixed_cols : nat.
Variable keywords : list string.

Lemma index_length (df : DataFrame) :
  List.length (index df) = List.length (body df).
Proof. unfold index. apply length_map. Qed.

Lemma process_sheet_rows (st st' : state) (s : sheet) :
  process_sheet numeric_text fixed_cols keywords st s = Ok st' ->
  rows_so_far st' = rows_so_far st + retained_rows fixed_cols s.
Proof.
  intro H. unfold retained_rows.
  destruct (table_of (read_excel s)) as [data|] eqn:Ht.
  - destruct (fragment_rows numeric_text _ _ _ _ _ _ Ht H)
      as [bd [ret [fragment [E1 [E2 [Hled [Hidx _]]]]]]].
    rewrite E1. cbn [bind]. rewrite E2.
    unfold rows_so_far. rewrite Hled, map_app, list_sum_app. simpl.
    rewrite <- (index_length fragment), Hidx, index_length. lia.
  - unfold process_sheet in H. rewrite Ht in H. inversion H. lia.
Qed.

Lemma process_sheets_rows (workbook : list sheet) :
  forall st st',
    process_sheets numeric_text fixed_cols keywords st workbook = Ok st' ->
    rows_so_far st'
    = rows_so_far st + list_sum (map (retained_rows fixed_cols) workbook).
Proof.
  induction workbook as [|s wb IH]; intros st st' H; simpl in H.
  - inversion H. simpl. lia.
  - destruct (process_sheet numeric_text fixed_cols keywords st s)
      as [st1|e] eqn:E1; cbn [bind] in H; [|discriminate].
    rewrite (IH st1 st' H), (process_sheet_rows st st1 s E1). simpl. lia.
Qed.

End Rows.

Lemma concat_rows (frames : list DataFrame) (df : DataFrame) :
  concat frames = Ok df ->
  List.length (body df)
  = list_sum (map (fun f => List.length (body f)) frames)
  /\ index df = seq 0 (List.length (body df)).
Proof.
  intro H. destruct (concat_inv _ _ H) as [F [Hbody HF]].
  unfold index. rewrite Hbody.
  rewrite enumerate_fst, enumerate_length, length_flat_map. split.
  - f_equal. apply map_ext_in. intros g Hg. rewrite settled_length.
    destruct HF as [HF | HF].
    + destruct (HF g Hg) as [_ ->]. apply length_map.
    + rewrite HF. apply length_map.
  - reflexivity.
Qed.

(** X1.  The table [process_file] returns has one row for each row that
    passed the exclusion filter in some sheet, no more and no fewer, and
    its index is 0, 1, 2, ... whatever index labels the rows had in their
    sheets. *)
Theorem returned_rows_are_the_retained_rows
  (numeric_text : string -> option Z) (workbook : list sheet)
  (fixed_cols : nat) (tds_keywords_raw : string) (final : DataFrame) :
  process_file numeric_text workbook fixed_cols tds_keywords_raw
  = Ok (Some final) ->
  List.length (body final)
  = list_sum (map (retained_rows fixed_cols) workbook)
  /\ index final = seq 0 (List.length (body final)).
Proof.
  intro H. unfold process_file in H.
  destruct (process_sheets numeric_text fixed_cols
              (tds_keywords tds_keywords_raw)
              {| template_cols := None; all_ledgers := [] |} workbook)
    as [st|e] eqn:E; cbn [bind] in H; [|discriminate].
  pose proof (process_sheets_rows _ _ _ _ _ _ E) as Hrows.
  unfold rows_so_far in Hrows.
  destruct (all_ledgers st) as [|f rest] eqn:El; [discriminate|].
  destruct (concat (f :: rest)) as [df|e] eqn:Ec; cbn [bind] in H;
    [|discriminate].
  destruct (template_cols st) as [t|]; [|discriminate].
  destruct (getitem_list df (t ++ [TDS_Amount; LedgerName])) as [fin|e] eqn:Eg;
    cbn [bind] in H; [|discriminate].
  inversion H; subst fin.
  destruct (concat_rows _ _ Ec) as [Hlen Hidx].
  pose proof (getitem_list_index _ _ _ Eg) as Hi.
  assert (Hl : List.length (body final) = List.length (body df)).
  { now rewrite <- !index_length, Hi. }
  split.
  - rewrite Hl, Hlen. simpl in Hrows. simpl. lia.
  - now rewrite Hi, Hidx, Hl.
Qed.

Lemma returned_rows_are_the_retained_rows_witness :
  List.length
    (body {| columns := [Str "Date"; Str "Particulars"; Ledger_Amount;
                         TDS_Amount; LedgerName];
             body := [ (0, [Str "2024-04-01"; Str "Audit"; Num 1000;
                            Num 100; Str "Fees"]);
                       (1, [Str "2024-05-01"; Str "Tax advice";
                            Num 500; Num 52; Str "Fees"]);
                       (2, [Str "2024-06-01"; NaN; Num 40; Num 4;
                            Str "Journal"]) ] |})
  = list_sum (map (retained_rows 3) [sheet_b; fees_sheet; journal_sheet]).
Proof.
  exact (proj1 (returned_rows_are_the_retained_rows (fun _ => None)
                  [sheet_b; fees_sheet; journal_sheet] 3 "tds" _ eq_refl)).
Defined.

(** ** No fixed column *)

Section Zero.

Variable numeric_text : string -> option Z.
Variable keywords : list string.

Lemma process_sheet_zero (st : state) (s : sheet) :
  process_sheet numeric_text 0 keywords st s
  = if skipped s then Ok st else Raise IndexError.
Proof.
  unfold process_sheet.
  destruct (table_of (read_excel s)) as [data|] eqn:Ht.
  - destruct (skipped s) eqn:Hs.
    + apply table_of_None in Hs. congruence.
    + unfold fixed_columns, base_cols. cbn [firstn].
      rewrite getitem_list_Ok by (intros c []). reflexivity.
  - apply table_of_None in Ht. now rewrite Ht.
Qed.

Lemma process_sheets_zero (workbook : list sheet) (st : state) :
  process_sheets numeric_text 0 keywords st workbook
  = if forallb skipped workbook then Ok st else Raise IndexError.
Proof.
  induction workbook as [|s wb IH]; simpl; [reflexivity|].
  rewrite process_sheet_zero. destruct (skipped s); simpl;
    [apply IH | reflexivity].
Qed.

End Zero.

(** X2.  With [fixed_cols = 0] the first sheet that is not skipped makes
    [process_file] raise [IndexError] (at [base_cols[-1]]); only a workbook
    of skipped sheets gets through, and returns [None]. *)
Theorem no_fixed_column_raises
  (numeric_text : string -> option Z) (workbook : list sheet)
  (tds_keywords_raw : string) :
  process_file numeric_text workbook 0 tds_keywords_raw
  = if forallb skipped workbook then Ok None else Raise IndexError.
Proof.
  unfold process_file. rewrite process_sheets_zero.
  now destruct (forallb skipped workbook).
Qed.

(** ** The template, whatever the headers *)

Section Template.

Variable numeric_text : string -> option Z.
Variable fixed_cols : nat.
Variable keywords : list string.

Lemma process_sheet_template (st st' : state) (s : sheet)
  (data : DataFrame) :
  table_of (read_excel s) = Some data ->
  process_sheet numeric_text fixed_cols keywords st s = Ok st' ->
  exists base_data,
    fixed_columns data fixed_cols = Ok base_data
    /\ template_cols st'
       = Some (match template_cols st with
               | Some template => template
               | None => columns base_data
               end).
Proof.
  intros Ht H.
  destruct (process_sheet_steps _ _ _ _ _ _ _ Ht H)
    as [bd [ret [t [al [wt [E1 [E2 [E3 [E4 ->]]]]]]]]].
  exists bd. split; [assumption|]. cbn [template_cols]. f_equal.
  unfold align in E3. destruct (template_cols st) as [t0|].
  - destruct (getitem_list (add_missing t0 ret) t0); cbn [bind] in E3;
      [|discriminate].
    now inversion E3.
  - destruct (drop_grand_total_inv _ _ E2) as [Hc _].
    inversion E3; subst. exact Hc.
Qed.

Lemma process_sheets_template (workbook : list sheet) :
  forall st st',
    process_sheets numeric_text fixed_cols keywords st workbook = Ok st' ->
    match template_cols st with
    | Some template => template_cols st' = Some template
    | None =>
        (forallb skipped workbook = true /\ template_cols st' = None)
        \/ exists before s after data base_data,
            workbook = before ++ s :: after
            /\ forallb skipped before = true
            /\ table_of (read_excel s) = Some data
            /\ fixed_columns data fixed_cols = Ok base_data
            /\ template_cols st' = Some (columns base_data)
    end.
Proof.
  induction workbook as [|s wb IH]; intros st st' H; simpl in H.
  - inversion H; subst. destruct (template_cols st') eqn:E; auto.
  - destruct (process_sheet numeric_text fixed_cols keywords st s)
      as [st1|e] eqn:E1; cbn [bind] in H; [|discriminate].
    specialize (IH st1 st' H).
    destruct (table_of (read_excel s)) as [data|] eqn:Ht.
    + destruct (process_sheet_template _ _ _ _ Ht E1) as [bd [Ebd Etpl]].
      rewrite Etpl in IH. destruct (template_cols st) as [t|]; [exact IH|].
      right. exists [], s, wb, data, bd. now repeat split.
    + pose proof Ht as Hs. apply table_of_None in Hs.
      rewrite (process_sheet_skipped _ _ _ st s Hs) in E1.
      inversion E1; subst st1.
      destruct (template_cols st) as [t|]; [exact IH|].
      destruct IH as [[Hall Hnone] | [before [s0 [after [data [bd
                        [-> [Hb [Hd [Ebd Etpl]]]]]]]]]].
      * left. simpl. now rewrite Hs.
      * right. exists (s :: before), s0, after, data, bd.
        repeat split; auto. simpl. now rewrite Hs.
Qed.

End Template.

(** X3.  Whatever the headers are, the loop ends either with no template,
    and then every sheet was skipped, or with the template that the first
    sheet that was not skipped has set: the labels of its fixed columns as
    selected and renamed.  No later sheet changes it. *)
Theorem template_is_set_once
  (numeric_text : string -> option Z) (fixed_cols : nat)
  (keywords : list string) (workbook : list sheet) (st : state) :
  process_sheets numeric_text fixed_cols keywords
    {| template_cols := None; all_ledgers := [] |} workbook = Ok st ->
  (forallb skipped workbook = true /\ template_cols st = None)
  \/ exists before s after data base_data,
      workbook = before ++ s :: after
      /\ forallb skipped before = true
      /\ table_of (read_excel s) = Some data
      /\ fixed_columns data fixed_cols = Ok base_data
      /\ template_cols st = Some (columns base_data).
Proof.
  intro H. exact (process_sheets_template _ _ _ _ _ _ H).
Qed.

Lemma template_is_set_once_witness :
  (forallb skipped [sheet_b; fees_sheet; journal_sheet] = true
   /\ template_cols
        {| template_cols := Some [Str "Date"; Str "Particulars";
                                  Ledger_Amount];
           all_ledgers :=
             [ {| columns := [Str "Date"; Str "Particulars"; Ledger_Amount;
                              TDS_Amount; LedgerName];
                  body := [ (2, [Str "2024-04-01"; Str "Audit"; Num 1000;
                                 Num 100; Str "Fees"]);
                            (4, [Str "2024-05-01"; Str "Tax advice";
                                 Num 500; Num 52; Str "Fees"]) ] |};
               {| columns := [Str "Date"; Str "Particulars"; Ledger_Amount;
                              TDS_Amount; LedgerName];
                  body := [ (1, [Str "2024-06-01"; NA; Num 40; Num 4;
                                 Str "Journal"]) ] |} ] |} = None)
  \/ exists before s after data base_data,
      [sheet_b; fees_sheet; journal_sheet] = before ++ s :: after
      /\ forallb skipped before = true
      /\ table_of (read_excel s) = Some data
      /\ fixed_columns data 3 = Ok base_data
      /\ template_cols
           {| template_cols := Some [Str "Date"; Str "Particulars";
                                     Ledger_Amount];
              all_ledgers :=
                [ {| columns := [Str "Date"; Str "Particulars";
                                 Ledger_Amount; TDS_Amount; LedgerName];
                     body := [ (2, [Str "2024-04-01"; Str "Audit";
                                    Num 1000; Num 100; Str "Fees"]);
                               (4, [Str "2024-05-01"; Str "Tax advice";
                                    Num 500; Num 52; Str "Fees"]) ] |};
                  {| columns := [Str "Date"; Str "Particulars";
                                 Ledger_Amount; TDS_Amount; LedgerName];
                     body := [ (1, [Str "2024-06-01"; NA; Num 40; Num 4;
                                    Str "Journal"]) ] |} ] |}
         = Some (columns base_data).
Proof.
  exact (template_is_set_once (fun _ => None) 3 ["tds"]
           [sheet_b; fees_sheet; journal_sheet] _ eq_refl).
Defined.

(** ** The name of the ledger *)

Section Names.

Variable numeric_text : string -> option Z.
Variable fixed_cols : nat.
Variable keywords : list string.

Lemma fragment_ledger_name (st st' : state) (s : sheet) (data : DataFrame) :
  table_of (read_excel s) = Some data ->
  process_sheet numeric_text fixed_cols keywords st s = Ok st' ->
  exists fragment,
    all_ledgers st' = all_ledgers st ++ [fragment]
    /\ rect fragment
    /\ In LedgerName (columns fragment)
    /\ forall r, In r (body fragment) ->
                 pick (columns fragment) (snd r) LedgerName <> []
                 /\ Forall (eq (Str (sheet_name s)))
                           (pick (columns fragment) (snd r) LedgerName).
Proof.
  intros Ht H.
  destruct (process_sheet_steps _ _ _ _ _ _ _ Ht H)
    as [bd [ret [t [al [wt [E1 [E2 [E3 [E4 ->]]]]]]]]].
  destruct (table_of_rect _ _ Ht) as [Hrect _].
  destruct (align_inv _ _ _ _ E3) as [_ Hral].
  destruct (add_tds_amount_Ok numeric_text data al keywords)
    as [value [E4' _]].
  rewrite E4' in E4. inversion E4; subst wt.
  assert (Hal : rect al).
  { apply Hral. eapply drop_grand_total_rect; [|exact E2].
    eapply fixed_columns_rect; eauto. }
  eexists. split; [reflexivity|]. split; [|split].
  - now apply setitem_rect, setitem_rect.
  - rewrite setitem_columns. apply set_label_incl.
  - intros r Hr.
    destruct (setitem_row _ _ _ _ (setitem_rect _ _ _ Hal) Hr)
      as [r1 [_ [_ [Hne [Hall _]]]]].
    now split.
Qed.

End Names.

(** X4.  The fragment a sheet contributes has a column labelled
    [LedgerName], and each of its rows holds the name of the sheet in every
    column of that label: in the new last column, or, when a fixed column
    or [TDS_Amount] already had the label, in place of what was there. *)
Theorem ledger_name_is_the_sheet_name
  (numeric_text : string -> option Z) (fixed_cols : nat)
  (keywords : list string) (st st' : state) (s : sheet) (data : DataFrame) :
  table_of (read_excel s) = Some data ->
  process_sheet numeric_text fixed_cols keywords st s = Ok st' ->
  exists fragment,
    all_ledgers st' = all_ledgers st ++ [fragment]
    /\ In LedgerName (columns fragment)
    /\ forall r, In r (body fragment) ->
                 pick (columns fragment) (snd r) LedgerName <> []
                 /\ Forall (eq (Str (sheet_name s)))
                           (pick (columns fragment) (snd r) LedgerName).
Proof.
  intros Ht H.
  destruct (fragment_ledger_name _ _ _ _ _ _ _ Ht H)
    as [f [Hl [_ [Hin Hrows]]]].
  now exists f.
Qed.

Lemma ledger_name_is_the_sheet_name_witness :
  exists fragment,
    all_ledgers fees_state = [] ++ [fragment]
    /\ In LedgerName (columns fragment)
    /\ forall r, In r (body fragment) ->
                 pick (columns fragment) (snd r) LedgerName <> []
                 /\ Forall (eq (Str (sheet_name fees_sheet)))
                           (pick (columns fragment) (snd r) LedgerName).
Proof.
  exact (ledger_name_is_the_sheet_name (fun _ => None) 3 ["tds"]
           {| template_cols := None; all_ledgers := [] |} fees_state
           fees_sheet fees_table eq_refl eq_refl).
Defined.

(** ** A "Particulars" label on two fixed columns *)

(** X5.  When the label the exclusion filter picks is carried by more than
    one of a sheet's fixed columns, [base_data[particulars_col]] is a
    DataFrame, [.str] raises [AttributeError], and the whole run ends with
    it: nothing is returned for the sheets before it, and the sheets after
    it are not read. *)
Theorem repeated_particulars_label_aborts
  (numeric_text : string -> option Z) (fixed_cols : nat)
  (tds_keywords_raw : string) (before after : list sheet) (s : sheet)
  (st : state) (data base_data : DataFrame) (col : cell) :
  process_sheets numeric_text fixed_cols (tds_keywords tds_keywords_raw)
    {| template_cols := None; all_ledgers := [] |} before = Ok st ->
  table_of (read_excel s) = Some data ->
  fixed_columns data fixed_cols = Ok base_data ->
  particulars_col base_data = Some col ->
  1 < occurrences (columns base_data) col ->
  process_file numeric_text (before ++ s :: after) fixed_cols tds_keywords_raw
  = Raise AttributeError.
Proof.
  intros Hb Ht Hf Hp Hocc. unfold process_file.
  rewrite process_sheets_app, Hb. cbn [bind process_sheets].
  unfold process_sheet. rewrite Ht, Hf. cbn [bind].
  now rewrite (drop_grand_total_many _ _ Hp Hocc).
Qed.

Lemma repeated_particulars_label_aborts_witness :
  process_file (fun _ => None)
    ([sheet_b; fees_sheet] ++ two_particulars_sheet :: [journal_sheet])
    4 "tds"
  = Raise AttributeError.
Proof.
  exact (repeated_particulars_label_aborts (fun _ => None) 4 "tds"
           [sheet_b; fees_sheet] [journal_sheet] two_particulars_sheet
           _ two_particulars_table two_particulars_base (Str "Particulars")
           eq_refl eq_refl eq_refl eq_refl
           ltac:(vm_compute; lia)).
Defined.

(** Selecting by label keeps what stands under a label. *)
Lemma pick_repeat {A : Type} (key k : cell) (vals : list A) :
  pick (repeat key (List.length vals)) vals k
  = if cell_eqb key k then vals else [].
Proof.
  unfold pick. induction vals as [|v vals IH]; simpl.
  - now destruct (cell_eqb key k).
  - destruct (cell_eqb key k) eqn:E; simpl; rewrite IH; reflexivity.
Qed.

Lemma pick_take {A : Type} (cols : list cell) (vals : list A)
  (keys : list cell) (k : cell) (v : A) :
  List.length vals = List.length cols ->
  In v (pick (take cols cols keys) (take cols vals keys) k) ->
  In v (pick cols vals k).
Proof.
  intros Hlen. unfold take. induction keys as [|key keys IH]; simpl;
    [contradiction|].
  rewrite pick_app by (now apply pick_length).
  intro H. apply in_app_or in H. destruct H as [H | H]; [|now apply IH].
  rewrite pick_labels in H.
  rewrite <- (pick_length cols vals cols key Hlen) in H.
  rewrite pick_repeat in H.
  destruct (cell_eqb key k) eqn:E; [|contradiction].
  apply cell_eqb_eq in E. now subst.
Qed.

Lemma pick_map_labels (cols : list cell) (f : cell -> cell) (k v : cell) :
  In v (pick cols (map f cols) k) -> v = f k.
Proof.
  unfold pick. induction cols as [|c cols IH]; simpl; [contradiction|].
  destruct (cell_eqb c k) eqn:E; simpl; [|exact IH].
  apply cell_eqb_eq in E. subst c. intros [<- | H]; [reflexivity | now apply IH].
Qed.

Section Tags.

Variable numeric_text : string -> option Z.
Variable fixed_cols : nat.
Variable keywords : list string.
Variable workbook : list sheet.

Lemma process_sheet_tagged (st st' : state) (s : sheet) :
  In s workbook ->
  (forall f, In f (all_ledgers st) -> tagged workbook f) ->
  process_sheet numeric_text fixed_cols keywords st s = Ok st' ->
  forall f, In f (all_ledgers st') -> tagged workbook f.
Proof.
  intros Hs Hall H. destruct (table_of (read_excel s)) as [data|] eqn:Ht.
  - destruct (fragment_ledger_name _ _ _ _ _ _ _ Ht H)
      as [g [Hl [Hrect [_ Hrows]]]].
    rewrite Hl. intros f Hf. apply in_app_or in Hf.
    destruct Hf as [Hf | [<- | []]]; [now apply Hall|].
    split; [assumption|]. intros r Hr. destruct (Hrows r Hr) as [Hne Hv].
    split; [assumption|]. eapply Forall_impl; [|exact Hv].
    intros v <-. exists s. repeat split; auto.
    destruct (skipped s) eqn:E; [|reflexivity].
    apply table_of_None in E. congruence.
  - unfold process_sheet in H. rewrite Ht in H. inversion H; subst.
    exact Hall.
Qed.

Lemma process_sheets_tagged (sheets : list sheet) :
  forall st st',
    incl sheets workbook ->
    (forall f, In f (all_ledgers st) -> tagged workbook f) ->
    process_sheets numeric_text fixed_cols keywords st sheets = Ok st' ->
    forall f, In f (all_ledgers st') -> tagged workbook f.
Proof.
  induction sheets as [|s rest IH]; intros st st' Hincl Hall H; simpl in H.
  - inversion H; subst. exact Hall.
  - destruct (process_sheet numeric_text fixed_cols keywords st s)
      as [st1|e] eqn:E1; cbn [bind] in H; [|discriminate].
    apply (IH st1 st'); [|now apply (process_sheet_tagged st st1 s);
                               [apply Hincl; left | |] | assumption].
    intros x Hx. apply Hincl. now right.
Qed.

End Tags.

Lemma concat_tagged (workbook : list sheet) (frames : list DataFrame)
  (df : DataFrame) :
  (forall f, In f frames -> tagged workbook f) ->
  concat frames = Ok df ->
  forall r v, In r (body df) ->
              In v (pick (columns df) (snd r) LedgerName) ->
              named_after workbook v.
Proof.
  intros Hall H. destruct (concat_inv _ _ H) as [F [Hbody HF]].
  intros [i vals] v Hr Hv. rewrite Hbody in Hr. cbn [snd] in Hv.
  apply enumerate_In in Hr. destruct Hr as [_ Hr].
  apply nth_error_In in Hr. apply in_flat_map in Hr.
  destruct Hr as [g [Hg Hr]].
  destruct (Forall2_In_r _ _ _ _ (settled_cells frames (F g)) Hr)
    as [vals0 [Hin0 Hrel]].
  destruct (Forall2_In_r _ _ _ _
              (pick_Forall2 _ (columns df) _ _ LedgerName Hrel) Hv)
    as [a [Ha Hav]].
  assert (Hnamed : named_after workbook a).
  { destruct (Hall g Hg) as [_ Hrows]. destruct HF as [HF | HF].
    - destruct (HF g Hg) as [Hc HFg]. rewrite HFg in Hin0.
      apply in_map_iff in Hin0. destruct Hin0 as [r [<- Hr0]].
      destruct (Hrows r Hr0) as [_ Hf]. rewrite Forall_forall in Hf.
      apply Hf. now rewrite Hc.
    - rewrite HF in Hin0. apply in_map_iff in Hin0.
      destruct Hin0 as [r [<- Hr0]].
      unfold reindex_row in Ha. apply pick_map_labels in Ha.
      destruct (Hrows r Hr0) as [Hne Hf]. rewrite Forall_forall in Hf.
      apply Hf. subst a.
      destruct (pick (columns g) (snd r) LedgerName); [contradiction|].
      now left. }
  destruct Hav as [-> | [Hna _]]; [assumption|].
  destruct Hnamed as [s0 [_ [_ ->]]]. discriminate.
Qed.

(** X6.  In a table that [process_file] returns every row has a value
    under [LedgerName], and what it has there, in every column of that
    label, is the name of a sheet of the workbook that was not skipped. *)
Theorem returned_ledger_names
  (numeric_text : string -> option Z) (workbook : list sheet)
  (fixed_cols : nat) (tds_keywords_raw : string) (final : DataFrame) :
  process_file numeric_text workbook fixed_cols tds_keywords_raw
  = Ok (Some final) ->
  forall r, In r (body final) ->
            pick (columns final) (snd r) LedgerName <> []
            /\ Forall (named_after workbook)
                      (pick (columns final) (snd r) LedgerName).
Proof.
  intro H. unfold process_file in H.
  destruct (process_sheets numeric_text fixed_cols
              (tds_keywords tds_keywords_raw)
              {| template_cols := None; all_ledgers := [] |} workbook)
    as [st|e] eqn:E; cbn [bind] in H; [|discriminate].
  assert (Htag : forall f, In f (all_ledgers st) -> tagged workbook f).
  { apply (process_sheets_tagged numeric_text fixed_cols
             (tds_keywords tds_keywords_raw) workbook workbook
             {| template_cols := None; all_ledgers := [] |} st);
      [apply incl_refl | intros f [] | exact E]. }
  destruct (all_ledgers st) as [|f rest] eqn:El; [discriminate|].
  destruct (concat (f :: rest)) as [df|e] eqn:Ec; cbn [bind] in H;
    [|discriminate].
  destruct (template_cols st) as [t|] eqn:Et; [|discriminate].
  destruct (getitem_list df (t ++ [TDS_Amount; LedgerName])) as [fin|e] eqn:Eg;
    cbn [bind] in H; [|discriminate].
  inversion H; subst fin.
  assert (Hdf : rect df).
  { eapply concat_rect; [|exact Ec]. intros g Hg. now apply Htag. }
  assert (Hfin : rect final) by (eapply getitem_list_rect; eauto).
  pose proof Eg as Eg'. unfold getitem_list in Eg'.
  destruct (forallb (has_label (columns df)) (t ++ [TDS_Amount; LedgerName]))
    eqn:Ekeys; [|discriminate]. clear Eg'.
  destruct (getitem_list_inv _ _ _ Eg) as [Hc Hb].
  intros r Hr. split.
  - apply pick_some; [|now apply Hfin].
    apply has_label_In. rewrite Hc. unfold take. apply in_flat_map.
    exists LedgerName. split; [apply in_or_app; right; simpl; auto|].
    rewrite forallb_forall in Ekeys.
    assert (Hl : has_label (columns df) LedgerName = true).
    { apply Ekeys. apply in_or_app. right. simpl. auto. }
    apply has_label_In in Hl. rewrite pick_labels.
    assert (Hn : pick (columns df) (columns df) LedgerName <> []).
    { apply pick_some; [now apply has_label_In | reflexivity]. }
    destruct (pick (columns df) (columns df) LedgerName); [contradiction|].
    now left.
  - apply Forall_forall. intros v Hv. rewrite Hb in Hr.
    apply in_map_iff in Hr. destruct Hr as [r0 [<- Hr0]]. cbn [snd] in Hv.
    rewrite Hc in Hv. apply pick_take in Hv; [|now apply Hdf].
    exact (concat_tagged workbook _ _ Htag Ec r0 v Hr0 Hv).
Qed.

Lemma returned_ledger_names_witness :
  pick (columns fees_result)
       [Str "2024-06-01"; NaN; Num 40; Num 4; Str "Journal"] LedgerName <> []
  /\ Forall (named_after fees_workbook)
            (pick (columns fees_result)
                  [Str "2024-06-01"; NaN; Num 40; Num 4; Str "Journal"]
                  LedgerName).
Proof.
  exact (returned_ledger_names (fun _ => None) fees_workbook 3 "tds"
           fees_result eq_refl
           (2, [Str "2024-06-01"; NaN; Num 40; Num 4; Str "Journal"])
           (or_intror (or_intror (or_introl eq_refl)))).
Defined.

(** ** Keywords that contain one another *)

Lemma string_app_assoc (a b c : string) :
  ((a ++ b) ++ c = a ++ (b ++ c))%string.
Proof. induction a as [|x a IH]; simpl; [reflexivity | now rewrite IH]. Qed.

Lemma contains_trans (a b c : string) :
  contains a b = true -> contains b c = true -> contains a c = true.
Proof.
  rewrite !contains_substring.
  intros [p1 [q1 ->]] [p2 [q2 ->]].
  exists (p2 ++ p1)%string, (q1 ++ q2)%string.
  now rewrite !string_app_assoc.
Qed.

(** X7.  A keyword that is a substring of every keyword of the list does
    the work of the whole list: the TDS columns are those it selects alone.
    Such is "tds" in the text the keyword field starts with. *)
Theorem keyword_within_the_others (data : DataFrame)
  (keywords : list string) (kw : string) :
  In kw keywords ->
  (forall k, In k keywords -> contains kw k = true) ->
  tds_cols data keywords = tds_cols data [kw].
Proof.
  intros Hin Hsub. unfold tds_cols. apply filter_ext. intro col.
  unfold matches_keyword. cbn [existsb]. rewrite orb_false_r.
  apply eq_true_iff_eq. rewrite existsb_exists. split.
  - intros [k [Hk Hc]]. exact (contains_trans _ _ _ (Hsub k Hk) Hc).
  - intro Hc. now exists kw.
Qed.

Lemma keyword_within_the_others_witness :
  tds_cols fees_table (tds_keywords tds_keywords_input_default)
  = tds_cols fees_table ["tds"].
Proof.
  exact (keyword_within_the_others fees_table
           (tds_keywords tds_keywords_input_default) "tds"
           (or_intror (or_intror (or_intror (or_introl eq_refl))))
           ltac:(intros k [<- | [<- | [<- | [<- | []]]]]; reflexivity)).
Defined.

(** ** Clean keywords *)

Lemma is_space_lower_char (c : ascii) : is_space (lower_char c) = is_space c.
Proof. destruct c as [[] [] [] [] [] [] [] []]; reflexivity. Qed.

Lemma lower_char_idem (c : ascii) : lower_char (lower_char c) = lower_char c.
Proof. destruct c as [[] [] [] [] [] [] [] []]; reflexivity. Qed.

Lemma lower_char_comma (c : ascii) :
  Ascii.eqb (lower_char c) "," = Ascii.eqb c ",".
Proof. destruct c as [[] [] [] [] [] [] [] []]; reflexivity. Qed.

Lemma lower_idem (s : string) : lower (lower s) = lower s.
Proof.
  induction s as [|c s IH]; simpl; [reflexivity|].
  now rewrite lower_char_idem, IH.
Qed.

Lemma lstrip_lower (s : string) : lstrip (lower s) = lower (lstrip s).
Proof.
  induction s as [|c s IH]; simpl; [reflexivity|].
  rewrite is_space_lower_char. now destruct (is_space c).
Qed.

Lemma rstrip_lower (s : string) : rstrip (lower s) = lower (rstrip s).
Proof.
  induction s as [|c s IH]; simpl; [reflexivity|].
  rewrite IH, is_space_lower_char.
  destruct (rstrip s); simpl; [now destruct (is_space c) | reflexivity].
Qed.

Lemma strip_lower (s : string) : strip (lower s) = lower (strip s).
Proof. unfold strip. now rewrite lstrip_lower, rstrip_lower. Qed.

Lemma rstrip_idem (s : string) : rstrip (rstrip s) = rstrip s.
Proof.
  induction s as [|c s IH]; [reflexivity|].
  cbn [rstrip]. destruct (rstrip s) as [|d r] eqn:E.
  - destruct (is_space c) eqn:Ec; [reflexivity|].
    cbn [rstrip]. now rewrite Ec.
  - cbn [rstrip] in *. now rewrite IH.
Qed.

Lemma lstrip_rstrip_lstrip (s : string) :
  lstrip (rstrip (lstrip s)) = rstrip (lstrip s).
Proof.
  induction s as [|c s IH]; [reflexivity|].
  cbn [lstrip]. destruct (is_space c) eqn:Ec; [exact IH|].
  cbn [rstrip]. destruct (rstrip s); rewrite ?Ec; cbn [lstrip];
    now rewrite Ec.
Qed.

Lemma strip_idem (s : string) : strip (strip s) = strip s.
Proof.
  unfold strip. now rewrite lstrip_rstrip_lstrip, rstrip_idem.
Qed.

Lemma has_char_lower (s : string) :
  has_char "," (lower s) = has_char "," s.
Proof.
  induction s as [|c s IH]; simpl; [reflexivity|].
  now rewrite lower_char_comma, IH.
Qed.

Lemma has_char_lstrip (c : ascii) (s : string) :
  has_char c s = false -> has_char c (lstrip s) = false.
Proof.
  induction s as [|a s IH]; simpl; [reflexivity|].
  intro H. apply orb_false_iff in H. destruct H as [Ha Hs].
  destruct (is_space a); [now apply IH|]. simpl. now rewrite Ha, Hs.
Qed.

Lemma has_char_rstrip (c : ascii) (s : string) :
  has_char c s = false -> has_char c (rstrip s) = false.
Proof.
  induction s as [|a s IH]; [reflexivity|].
  cbn [has_char rstrip]. intro H. apply orb_false_iff in H.
  destruct H as [Ha Hs]. specialize (IH Hs).
  destruct (rstrip s) as [|d r].
  - destruct (is_space a); simpl; [reflexivity | now rewrite Ha].
  - cbn [has_char] in *. now rewrite Ha, IH.
Qed.

Lemma split_one (sep : ascii) (k : string) :
  has_char sep k = false -> split sep k = [k].
Proof.
  induction k as [|a k IH]; [reflexivity|].
  cbn [has_char split]. intro H. apply orb_false_iff in H.
  destruct H as [Ha Hk]. rewrite Ha, (IH Hk). reflexivity.
Qed.

Lemma split_app_sep (sep : ascii) (k t : string) :
  has_char sep k = false ->
  split sep (k ++ String sep t) = k :: split sep t.
Proof.
  induction k as [|a k IH]; cbn [has_char split append].
  - intros _. now rewrite Ascii.eqb_refl.
  - intro H. apply orb_false_iff in H. destruct H as [Ha Hk].
    rewrite Ha, (IH Hk). reflexivity.
Qed.

(** Cutting at the separator what was joined with it gives the pieces
    back, when no piece holds the separator. *)
Lemma join_split (sep : ascii) (pieces : list string) :
  pieces <> [] ->
  (forall k, In k pieces -> has_char sep k = false) ->
  split sep (join sep pieces) = pieces.
Proof.
  induction pieces as [|k rest IH]; [contradiction|].
  intros _ Hall. destruct rest as [|k2 rest].
  - cbn [join]. apply split_one. apply Hall. now left.
  - change (join sep (k :: k2 :: rest))
      with (k ++ String sep (join sep (k2 :: rest)))%string.
    rewrite split_app_sep by (apply Hall; now left).
    f_equal. apply IH; [discriminate|].
    intros x Hx. apply Hall. now right.
Qed.

Lemma map_id_in {A : Type} (f : A -> A) (l : list A) :
  (forall x, In x l -> f x = x) -> map f l = l.
Proof.
  intro H. rewrite <- (map_id l) at 2. now apply map_ext_in.
Qed.

Lemma filter_all {A : Type} (p : A -> bool) (l : list A) :
  (forall x, In x l -> p x = true) -> filter p l = l.
Proof.
  induction l as [|x l IH]; intro H; simpl; [reflexivity|].
  rewrite (H x) by now left. f_equal. apply IH.
  intros y Hy. apply H. now right.
Qed.

Lemma tds_keywords_clean (raw k : string) :
  In k (tds_keywords raw) ->
  strip k = k /\ lower k = k /\ has_char "," k = false /\ k <> EmptyString.
Proof.
  unfold tds_keywords.
  destruct (map (fun k => lower (strip k))
                (filter (fun k => nonempty (strip k)) (split "," raw)))
    as [|k0 kws] eqn:E.
  - intros [<- | []]. repeat split. discriminate.
  - rewrite <- E. intro H. apply in_map_iff in H.
    destruct H as [p [<- Hp]]. apply filter_In in Hp. destruct Hp as [Hp Hn].
    split; [|split; [|split]].
    + now rewrite strip_lower, strip_idem.
    + apply lower_idem.
    + rewrite has_char_lower. unfold strip.
      apply has_char_rstrip, has_char_lstrip. now apply split_no_sep in Hp.
    + apply nonempty_true. rewrite lower_nonempty. exact Hn.
Qed.

Lemma tds_keywords_not_nil (raw : string) : tds_keywords raw <> [].
Proof.
  unfold tds_keywords.
  destruct (map (fun k => lower (strip k))
                (filter (fun k => nonempty (strip k)) (split "," raw)));
    discriminate.
Qed.

(** X8.  The keywords come out clean: none has a space at either end, an
    uppercase letter or a comma; so joining them with commas and cleaning
    the text again gives the same keywords. *)
Theorem keywords_come_out_clean (raw : string) :
  (forall k, In k (tds_keywords raw) ->
             strip k = k /\ lower k = k /\ has_char "," k = false)
  /\ tds_keywords (join "," (tds_keywords raw)) = tds_keywords raw.
Proof.
  split.
  - intros k Hk. destruct (tds_keywords_clean raw k Hk) as [H1 [H2 [H3 _]]].
    auto.
  - pose proof (tds_keywords_clean raw) as Hclean.
    pose proof (tds_keywords_not_nil raw) as Hne.
    set (ks := tds_keywords raw) in *.
    unfold tds_keywords at 1.
    rewrite join_split by (auto; intros k Hk; now apply Hclean).
    rewrite filter_all.
    2:{ intros k Hk. destruct (Hclean k Hk) as [-> [_ [_ Hk0]]].
        now apply nonempty_true. }
    rewrite map_id_in.
    2:{ intros k Hk. destruct (Hclean k Hk) as [-> [-> _]]. reflexivity. }
    destruct ks; [contradiction | reflexivity].
Qed.

(** ** The rows of a table *)

Lemma enumerate_seq {A : Type} (l : list A) (k : nat) (d : A) :
  enumerate k l = map (fun i => (i, nth (i - k) l d)) (seq k (List.length l)).
Proof.
  revert k. induction l as [|x l IH]; intro k; simpl; [reflexivity|].
  rewrite Nat.sub_diag. f_equal. rewrite IH. apply map_ext_in.
  intros i Hi. apply in_seq in Hi.
  replace (i - k) with (S (i - S k)) by lia. reflexivity.
Qed.

Lemma nth_skipn_at {A : Type} (n j : nat) (l : list A) (d : A) :
  nth j (skipn n l) d = nth (n + j) l d.
Proof.
  revert l. induction n as [|n IH]; intro l; [reflexivity|].
  destruct l as [|x l]; simpl; [now destruct j | apply IH].
Qed.

(** X9.  The rows of a sheet's table are the rows of the sheet below its
    header row that are not entirely empty, in the order of the sheet, each
    under its row number in the sheet as index label and filled with [NaN]
    to the width of the sheet; a lower row that starts with "Date" again is
    a row like any other. *)
Theorem table_rows_are_the_rows_below_the_header (s : sheet)
  (data : DataFrame) :
  table_of (read_excel s) = Some data ->
  exists h,
    header_row_idx (read_excel s) = Some h
    /\ body data
       = map (fun i => (i, pad (width (cells s)) (nth i (cells s) [])))
             (filter (fun i => negb (forallb isna (nth i (cells s) [])))
                     (seq (S h) (List.length (cells s) - S h))).
Proof.
  intro H. apply table_of_table_at in H. destruct H as [h [Hh [Hlt ->]]].
  exists h. split; [assumption|].
  unfold table_at, dropna, read_excel. cbn [body columns].
  rewrite skipn_enumerate, skipn_map. cbn [Nat.add].
  rewrite (enumerate_seq _ _ (pad (width (cells s)) [])).
  rewrite length_map, length_skipn.
  rewrite filter_map_swap. cbn [snd].
  transitivity
    (map (fun i => (i, pad (width (cells s)) (nth i (cells s) [])))
         (filter (fun i =>
                    negb (forallb isna
                            (nth (i - S h)
                                 (map (pad (width (cells s)))
                                      (skipn (S h) (cells s)))
                                 (pad (width (cells s)) []))))
                 (seq (S h) (List.length (cells s) - S h)))).
  - apply map_ext_in. intros i Hi. apply filter_In in Hi.
    destruct Hi as [Hi _]. apply in_seq in Hi.
    rewrite map_nth, nth_skipn_at. do 3 f_equal. lia.
  - f_equal. apply filter_ext_in. intros i Hi. apply in_seq in Hi.
    rewrite map_nth, nth_skipn_at.
    replace (S h + (i - S h)) with i by lia.
    f_equal. apply forallb_isna_pad. apply width_ge. apply nth_In. lia.
Qed.

Lemma table_rows_are_the_rows_below_the_header_witness :
  exists h,
    header_row_idx (read_excel fees_sheet) = Some h
    /\ body fees_table
       = map (fun i => (i, pad (width (cells fees_sheet))
                               (nth i (cells fees_sheet) [])))
             (filter (fun i => negb (forallb isna
                                       (nth i (cells fees_sheet) [])))
                     (seq (S h) (List.length (cells fees_sheet) - S h))).
Proof.
  exact (table_rows_are_the_rows_below_the_header fees_sheet fees_table
           eq_refl).
Defined.

(** ** The page *)

(** The steps of a run that returns a table. *)
Lemma process_file_inv (numeric_text : string -> option Z)
  (workbook : list sheet) (fixed_cols : nat) (tds_keywords_raw : string)
  (final : DataFrame) :
  process_file numeric_text workbook fixed_cols tds_keywords_raw
  = Ok (Some final) ->
  exists st template final_df,
    process_sheets numeric_text fixed_cols (tds_keywords tds_keywords_raw)
      {| template_cols := None; all_ledgers := [] |} workbook = Ok st
    /\ all_ledgers st <> []
    /\ template_cols st = Some template
    /\ concat (all_ledgers st) = Ok final_df
    /\ getitem_list final_df (template ++ [TDS_Amount; LedgerName])
       = Ok final.
Proof.
  intro H. unfold process_file in H.
  destruct (process_sheets numeric_text fixed_cols
              (tds_keywords tds_keywords_raw)
              {| template_cols := None; all_ledgers := [] |} workbook)
    as [st|e] eqn:E; cbn [bind] in H; [|discriminate].
  destruct (all_ledgers st) as [|f rest] eqn:El; [discriminate|].
  destruct (concat (f :: rest)) as [df|e] eqn:Ec; cbn [bind] in H;
    [|discriminate].
  destruct (template_cols st) as [t|] eqn:Et; [|discriminate].
  destruct (getitem_list df (t ++ [TDS_Amount; LedgerName])) as [fin|e] eqn:Eg;
    cbn [bind] in H; [|discriminate].
  inversion H; subst fin. exists st, t, df. rewrite El.
  repeat split; auto. discriminate.
Qed.

Lemma process_file_None (numeric_text : string -> option Z)
  (workbook : list sheet) (fixed_cols : nat) (tds_keywords_raw : string) :
  process_file numeric_text workbook fixed_cols tds_keywords_raw = Ok None ->
  forallb skipped workbook = true.
Proof.
  intro H. unfold process_file in H.
  destruct (process_sheets numeric_text fixed_cols
              (tds_keywords tds_keywords_raw)
              {| template_cols := None; all_ledgers := [] |} workbook)
    as [st|e] eqn:E; cbn [bind] in H; [|discriminate].
  destruct (all_ledgers st) as [|f rest] eqn:El.
  - now apply (process_sheets_no_ledgers _ _ _ _ _ _ E El).
  - destruct (concat (f :: rest)) as [df|e]; cbn [bind] in H;
      [|discriminate].
    destruct (template_cols st) as [t|]; [|discriminate].
    destruct (getitem_list df (t ++ [TDS_Amount; LedgerName]));
      cbn [bind] in H; discriminate.
Qed.

Lemma process_file_rows (numeric_text : string -> option Z)
  (workbook : list sheet) (fixed_cols : nat) (tds_keywords_raw : string)
  (final : DataFrame) :
  process_file numeric_text workbook fixed_cols tds_keywords_raw
  = Ok (Some final) ->
  List.length (body final)
  = list_sum (map (retained_rows fixed_cols) workbook).
Proof.
  intro H.
  destruct (process_file_inv _ _ _ _ _ H)
    as [st [t [df [E [_ [_ [Ec Eg]]]]]]].
  pose proof (process_sheets_rows _ _ _ _ _ _ E) as Hrows.
  destruct (concat_rows _ _ Ec) as [Hlen _].
  rewrite <- index_length, (getitem_list_index _ _ _ Eg), index_length, Hlen.
  exact Hrows.
Qed.

(** X10.  What the button leaves on the page for an uploaded workbook.
    If [process_file] raises, nothing.  If every sheet was skipped, and
    only then, the "No valid data" error alone.  Otherwise the success
    message with the number of rows that passed the exclusion filter in the
    sheets, and the heading; then, for a table with a repeated column
    label, [st.dataframe] raises [ValueError] and nothing more is shown;
    and when the handler ends without an exception, the preview of the
    first 100 rows at most and the download of one sheet
    "TDS_Working_Paper" with all the rows follow. *)
Theorem on_run_outcomes (numeric_text : string -> option Z)
  (st_dataframe_raises to_excel_raises : DataFrame -> option exn)
  (workbook : list sheet) (fixed_cols : nat) (tds_keywords_input : string)
  (page : list widget) (failure : option exn) :
  (forall df, is_unique (columns df) = false ->
              st_dataframe_raises df = Some ValueError) ->
  on_run numeric_text st_dataframe_raises to_excel_raises true
    (Some workbook) fixed_cols tds_keywords_input
  = (page, failure) ->
  match process_file numeric_text workbook fixed_cols tds_keywords_input with
  | Raise e => page = [] /\ failure = Some e
  | Ok None =>
      forallb skipped workbook = true
      /\ page
         = [st_error
              "No valid data found. Check the file structure / header row."]
      /\ failure = None
  | Ok (Some df) =>
      forallb skipped workbook = false
      /\ exists rest,
          page
          = st_success
              ("TDS Working Paper created successfully. Total rows: "
               ++ str_len (list_sum (map (retained_rows fixed_cols)
                                         workbook)))
            :: st_subheader "Preview" :: rest
          /\ (is_unique (columns df) = false ->
              rest = [] /\ failure = Some ValueError)
          /\ (failure = None ->
              rest
              = [ st_dataframe (head 100 df);
                  st_download_button
                    "⬇️ Download TDS Working Paper (Excel)"
                    (to_excel df "TDS_Working_Paper")
                    "TDS_Working_Paper.xlsx"
                    "application/vnd.openxmlformats-officedocument.spreadsheetml.sheet" ]
              /\ List.length (body (head 100 df))
                 = Nat.min 100 (list_sum (map (retained_rows fixed_cols)
                                              workbook))
              /\ List.length (written_rows (to_excel df "TDS_Working_Paper"))
                 = list_sum (map (retained_rows fixed_cols) workbook))
  end.
Proof.
  intros Hdup H. unfold on_run in H.
  destruct (process_file numeric_text workbook fixed_cols tds_keywords_input)
    as [[df|]|e] eqn:E.
  - pose proof (process_file_rows _ _ _ _ _ E) as Hrows.
    split.
    { destruct (forallb skipped workbook) eqn:Es; [|reflexivity].
      unfold process_file in E.
      rewrite process_sheets_skipped in E by exact Es. discriminate. }
    rewrite <- Hrows. cbv zeta in H.
    destruct (st_dataframe_raises (head 100 df)) as [e1|] eqn:E1.
    + inversion H; subst. exists []. split; [reflexivity|]. split.
      * intro Hu. split; [reflexivity|].
        rewrite (Hdup (head 100 df) Hu) in E1. exact (eq_sym E1).
      * discriminate.
    + assert (Hu : is_unique (columns df) = true).
      { destruct (is_unique (columns df)) eqn:Eu; [reflexivity|].
        rewrite (Hdup (head 100 df) Eu) in E1. discriminate. }
      destruct (to_excel_raises df) as [e2|]; inversion H; subst;
        eexists; (split; [reflexivity|]); (split; [congruence|]).
      * discriminate.
      * intros _. split; [reflexivity|]. split.
        -- unfold head. cbn [body]. apply length_firstn.
        -- unfold to_excel. cbn [written_rows]. apply length_map.
  - inversion H; subst. split; [|now split].
    exact (process_file_None _ _ _ _ E).
  - inversion H; subst. now split.
Qed.

Lemma on_run_outcomes_witness :
  forallb skipped fees_workbook = false
  /\ exists rest,
      [ st_success "TDS Working Paper created successfully. Total rows: 3";
        st_subheader "Preview";
        st_dataframe fees_result;
        st_download_button
          "⬇️ Download TDS Working Paper (Excel)"
          (to_excel fees_result "TDS_Working_Paper")
          "TDS_Working_Paper.xlsx"
          "application/vnd.openxmlformats-officedocument.spreadsheetml.sheet" ]
      = st_success
          ("TDS Working Paper created successfully. Total rows: "
           ++ str_len (list_sum (map (retained_rows 3) fees_workbook)))
        :: st_subheader "Preview" :: rest
      /\ (is_unique (columns fees_result) = false ->
          rest = [] /\ @None exn = Some ValueError)
      /\ (@None exn = None ->
          rest
          = [ st_dataframe (head 100 fees_result);
              st_download_button
                "⬇️ Download TDS Working Paper (Excel)"
                (to_excel fees_result "TDS_Working_Paper")
                "TDS_Working_Paper.xlsx"
                "application/vnd.openxmlformats-officedocument.spreadsheetml.sheet" ]
          /\ List.length (body (head 100 fees_result))
             = Nat.min 100 (list_sum (map (retained_rows 3) fees_workbook))
          /\ List.length
               (written_rows (to_excel fees_result "TDS_Working_Paper"))
             = list_sum (map (retained_rows 3) fees_workbook)).
Proof.
  exact (on_run_outcomes (fun _ => None)
           (fun df => if is_unique (columns df) then None
                      else Some ValueError)
           (fun _ => None) fees_workbook 3 "tds" _ _
           (fun df Hu => @eq_ind_r bool false
                           (fun b : bool =>
                              (if b then @None exn else Some ValueError)
                              = Some ValueError)
                           eq_refl _ Hu)
           eq_refl).
Defined.

(** ** The run in closed form *)

Section Closed.

Variable numeric_text : string -> option Z.
Variable fixed_cols : nat.
Variable keywords : list string.
Hypothesis fixed_cols_pos : 1 <= fixed_cols.

Lemma own_template_base (s : sheet) (data : DataFrame) :
  table_of (read_excel s) = Some data ->
  distinct_labels fixed_cols s = true ->
  NoDup (own_template fixed_cols data)
  /\ fixed_columns data fixed_cols
     = Ok {| columns := own_template fixed_cols data;
             body := map (fun r => (fst r, firstn fixed_cols (snd r)))
                         (body data) |}.
Proof.
  intros Ht Hs. unfold distinct_labels in Hs. rewrite Ht in Hs.
  apply andb_true_iff in Hs. destruct Hs as [Hu Hla].
  apply is_unique_NoDup in Hu.
  apply negb_true_iff, has_label_false in Hla.
  destruct (table_of_rect _ _ Ht) as [Hrect _].
  destruct (table_of_columns _ _ Ht) as [Hcols _].
  destruct (distinct_labels_fixed_columns data fixed_cols Hu Hrect Hcols
              fixed_cols_pos) as [init [old [Efirst Efixed]]].
  assert (Hown : own_template fixed_cols data = init ++ [Ledger_Amount]).
  { unfold own_template. now rewrite Efirst, removelast_last. }
  rewrite Hown. split; [|exact Efixed].
  apply NoDup_snoc. split.
  - apply (NoDup_firstn fixed_cols) in Hu. rewrite Efirst in Hu.
    now apply NoDup_snoc in Hu.
  - now rewrite Efirst, removelast_last in Hla.
Qed.

Lemma fragment_closed_form (st : state) (s : sheet) (data : DataFrame)
  (t : list cell) :
  table_of (read_excel s) = Some data ->
  distinct_labels fixed_cols s = true ->
  (template_cols st = None /\ t = own_template fixed_cols data)
  \/ (template_cols st = Some t /\ NoDup t) ->
  ~ In TDS_Amount t -> ~ In LedgerName t ->
  process_sheet numeric_text fixed_cols keywords st s
  = Ok {| template_cols := Some t;
          all_ledgers :=
            all_ledgers st
            ++ [sheet_fragment numeric_text fixed_cols keywords t s] |}.
Proof.
  intros Ht Hs Htpl HnT HnL.
  destruct (own_template_base s data Ht Hs) as [Hbase Efixed].
  destruct (table_of_rect _ _ Ht) as [Hrect Hnd].
  set (own := own_template fixed_cols data) in *.
  unfold process_sheet. rewrite Ht, Efixed. cbn [bind].
  match goal with |- context [drop_grand_total ?b] => set (bd := b) end.
  assert (Hbd : rect bd) by (eapply fixed_columns_rect; eauto).
  assert (Hlen : forall d, In d (body data) ->
                   List.length (firstn fixed_cols (snd d)) = List.length own).
  { intros d Hd. apply (Hbd (fst d, firstn fixed_cols (snd d))).
    unfold bd. cbn [body]. apply in_map_iff. now exists d. }
  assert (Eret : drop_grand_total bd
                 = Ok {| columns := own;
                         body := map (fun r => (fst r,
                                                firstn fixed_cols (snd r)))
                                     (filter (passes fixed_cols data)
                                             (body data)) |}).
  { destruct (particulars_col bd) as [col|] eqn:E.
    - assert (Hone : pick own own col = [col]).
      { pose proof E as E'. apply find_some in E'. destruct E' as [Hin _].
        destruct (pick_single own own col Hbase eq_refl Hin) as [v Hv].
        rewrite pick_labels, Hv. reflexivity. }
      rewrite (drop_grand_total_one _ _ E Hone). unfold bd.
      cbn [columns body]. rewrite filter_map_swap. do 3 f_equal.
      apply filter_ext. intro d. unfold passes, value_at.
      unfold particulars_col, bd in E. cbn [columns] in E.
      fold own. now rewrite E.
    - rewrite (drop_grand_total_none _ E). unfold bd. do 3 f_equal.
      symmetry. apply filter_all. intros d _. unfold passes.
      unfold particulars_col, bd in E. cbn [columns] in E.
      fold own. now rewrite E. }
  rewrite Eret. cbn [bind].
  match goal with |- context [align _ ?r] => set (ret := r) end.
  assert (Hret : rect ret).
  { intros r Hr. unfold ret in *. cbn [body columns] in *.
    apply in_map_iff in Hr. destruct Hr as [d [<- Hd]].
    apply filter_In in Hd. now apply Hlen. }
  assert (Eal : align (template_cols st) ret
                = Ok (t, {| columns := t;
                            body := map (fun d =>
                                           (fst d,
                                            map (fixed_cell fixed_cols data d)
                                                t))
                                        (filter (passes fixed_cols data)
                                                (body data)) |})).
  { destruct Htpl as [[Hn ->] | [Hsome Hndt]].
    - rewrite Hn. unfold align, ret. cbn [columns]. fold own.
      do 3 f_equal. apply map_ext_in. intros d Hd. f_equal.
      apply filter_In in Hd. destruct Hd as [Hd _].
      transitivity (map (fun k => hd NaN (pick own
                                            (firstn fixed_cols (snd d)) k))
                        own).
      + symmetry. apply row_by_labels; [assumption | now apply Hlen].
      + apply map_ext_in. intros k Hk. unfold fixed_cell. fold own.
        apply has_label_In in Hk. now rewrite Hk.
    - rewrite Hsome. rewrite align_distinct by assumption.
      unfold ret. cbn [columns body]. rewrite map_map. reflexivity. }
  rewrite Eal. cbn [bind fst snd].
  destruct (add_tds_amount_Ok numeric_text data
              {| columns := t;
                 body := map (fun d =>
                                (fst d,
                                 map (fixed_cell fixed_cols data d) t))
                             (filter (passes fixed_cols data)
                                     (body data)) |} keywords)
    as [value [Etds Hvalue]].
  rewrite Etds. cbn [bind]. do 4 f_equal.
  assert (H1 : has_label t TDS_Amount = false) by now apply has_label_false.
  assert (H2 : has_label (t ++ [TDS_Amount]) LedgerName = false).
  { apply has_label_false. intro H. apply in_app_or in H.
    destruct H as [H | [H | []]]; [contradiction | discriminate]. }
  unfold setitem at 2. cbn [columns body]. rewrite H1.
  unfold setitem. cbn [columns body]. rewrite H2.
  unfold sheet_fragment, sheet_rows. rewrite Ht. f_equal.
  - now rewrite <- app_assoc.
  - rewrite !map_map. apply map_ext_in. intros d Hd. cbn [fst snd].
    apply filter_In in Hd. destruct Hd as [Hd _].
    rewrite (Hvalue d Hnd Hd), <- app_assoc. reflexivity.
Qed.

Lemma process_sheets_closed_form (t : list cell) (workbook : list sheet) :
  NoDup t -> ~ In TDS_Amount t -> ~ In LedgerName t ->
  forallb (distinct_labels fixed_cols) workbook = true ->
  forall st,
    template_cols st = Some t ->
    process_sheets numeric_text fixed_cols keywords st workbook
    = Ok {| template_cols := Some t;
            all_ledgers :=
              all_ledgers st
              ++ flat_map
                   (fun s => if skipped s then []
                             else [sheet_fragment numeric_text fixed_cols
                                     keywords t s])
                   workbook |}.
Proof.
  intros Hnd HnT HnL.
  induction workbook as [|s wb IH]; intros Hwb st Hst.
  - simpl. rewrite app_nil_r. destruct st; simpl in *. now rewrite Hst.
  - simpl in Hwb. apply andb_true_iff in Hwb. destruct Hwb as [Hs Hwb].
    cbn [process_sheets flat_map].
    destruct (table_of (read_excel s)) as [data|] eqn:Ht.
    + assert (Hsk : skipped s = false).
      { destruct (skipped s) eqn:E; [|reflexivity].
        apply table_of_None in E. congruence. }
      rewrite (fragment_closed_form st s data t Ht Hs) by auto.
      cbn [bind]. rewrite (IH Hwb) by reflexivity.
      cbn [all_ledgers]. rewrite Hsk, <- app_assoc. reflexivity.
    + pose proof (proj1 (table_of_None s) Ht) as Hsk.
      rewrite (process_sheet_skipped _ _ _ st s Hsk). cbn [bind].
      rewrite (IH Hwb st Hst), Hsk. reflexivity.
Qed.

Lemma process_sheets_first_template (workbook : list sheet) :
  forallb (distinct_labels fixed_cols) workbook = true ->
  (forall t, first_template fixed_cols workbook = Some t ->
             ~ In TDS_Amount t /\ ~ In LedgerName t) ->
  process_sheets numeric_text fixed_cols keywords
    {| template_cols := None; all_ledgers := [] |} workbook
  = Ok match first_template fixed_cols workbook with
       | None => {| template_cols := None; all_ledgers := [] |}
       | Some t =>
           {| template_cols := Some t;
              all_ledgers :=
                flat_map
                  (fun s => if skipped s then []
                            else [sheet_fragment numeric_text fixed_cols
                                    keywords t s])
                  workbook |}
       end.
Proof.
  induction workbook as [|s wb IH]; intros Hwb Hfree; [reflexivity|].
  simpl in Hwb. apply andb_true_iff in Hwb. destruct Hwb as [Hs Hwb].
  cbn [process_sheets first_template flat_map] in *.
  destruct (table_of (read_excel s)) as [data|] eqn:Ht.
  - assert (Hsk : skipped s = false).
    { destruct (skipped s) eqn:E; [|reflexivity].
      apply table_of_None in E. congruence. }
    destruct (Hfree _ eq_refl) as [HnT HnL].
    destruct (own_template_base s data Ht Hs) as [Hnd _].
    rewrite (fragment_closed_form _ s data (own_template fixed_cols data)
               Ht Hs) by auto.
    cbn [bind].
    rewrite (process_sheets_closed_form _ wb Hnd HnT HnL Hwb) by reflexivity.
    cbn [all_ledgers app]. now rewrite Hsk.
  - pose proof (proj1 (table_of_None s) Ht) as Hsk.
    rewrite (process_sheet_skipped _ _ _ _ s Hsk). cbn [bind].
    rewrite (IH Hwb Hfree), Hsk. reflexivity.
Qed.

Lemma first_template_fragment (t : list cell) (workbook : list sheet) :
  first_template fixed_cols workbook = Some t ->
  flat_map (fun s => if skipped s then []
                     else [sheet_fragment numeric_text fixed_cols keywords
                             t s])
           workbook <> [].
Proof.
  induction workbook as [|s wb IH]; [discriminate|].
  cbn [first_template flat_map].
  destruct (table_of (read_excel s)) as [data|] eqn:Ht.
  - intros _. destruct (skipped s) eqn:E; [|discriminate].
    apply table_of_None in E. congruence.
  - intro H. rewrite (proj1 (table_of_None s) Ht). now apply IH.
Qed.

Lemma sheet_rows_length (t : list cell) (s : sheet) (r : nat * list cell) :
  In r (sheet_rows numeric_text fixed_cols keywords t s) ->
  List.length (snd r) = List.length (t ++ [TDS_Amount; LedgerName]).
Proof.
  unfold sheet_rows.
  destruct (table_of (read_excel s)) as [data|]; [|contradiction].
  intro H. apply in_map_iff in H. destruct H as [d [<- _]]. cbn [snd].
  now rewrite !length_app, length_map.
Qed.

End Closed.

(** Selecting all the labels, in their order, of what [pd.concat]
    delivers gives the rows back, up to the missing values. *)
Lemma settled_take_alike (frames : list DataFrame) (keys : list cell)
  (rows : list (list cell)) :
  NoDup keys ->
  (forall vals, In vals rows -> List.length vals = List.length keys) ->
  Forall2 (Forall2 alike) rows
          (map (fun vals => take keys vals keys) (settled frames rows)).
Proof.
  intros Hnd Hlen. rewrite <- (map_id rows) at 1.
  eapply Forall2_map_both; [|apply settled_cells].
  intros vals vals' Hin Hrel. cbv beta.
  rewrite take_by_labels; auto using incl_refl.
  2:{ rewrite <- (Forall2_length Hrel). now apply Hlen. }
  rewrite row_by_labels; auto.
  2:{ rewrite <- (Forall2_length Hrel). now apply Hlen. }
  eapply Forall2_impl; [|exact Hrel]. intros a b. apply settled_alike.
Qed.

Lemma fragments_rows_alike (numeric_text : string -> option Z)
  (fixed_cols : nat) (keywords : list string) (t : list cell)
  (frames : list DataFrame) (workbook : list sheet) :
  NoDup (t ++ [TDS_Amount; LedgerName]) ->
  Forall2 (Forall2 alike)
    (flat_map (fun s => map snd (sheet_rows numeric_text fixed_cols keywords
                                   t s))
              workbook)
    (flat_map
       (fun g => map (fun vals => take (t ++ [TDS_Amount; LedgerName]) vals
                                       (t ++ [TDS_Amount; LedgerName]))
                     (settled frames (map snd (body g))))
       (flat_map (fun s => if skipped s then []
                           else [sheet_fragment numeric_text fixed_cols
                                   keywords t s])
                 workbook)).
Proof.
  intro Hnd. induction workbook as [|s wb IH]; [constructor|].
  cbn [flat_map]. destruct (skipped s) eqn:E.
  - apply table_of_None in E. unfold sheet_rows at 1. rewrite E. exact IH.
  - cbn [flat_map app]. apply Forall2_app; [|exact IH].
    unfold sheet_fragment. cbn [body].
    apply settled_take_alike; [assumption|].
    intros vals Hv. apply in_map_iff in Hv. destruct Hv as [r [<- Hr]].
    now apply sheet_rows_length in Hr.
Qed.

(** X11.  The whole run in closed form, on a workbook whose headers have
    distinct labels, all of them text, whose TDS columns hold whole numbers
    or nothing, and whose template has no label [TDS_Amount] or
    [LedgerName]: [None] when every sheet is skipped; otherwise the columns
    are the template of the first sheet that is not skipped, [TDS_Amount]
    and [LedgerName], and the rows are, sheet after sheet and row after
    row, the body rows that pass the exclusion filter, each with its cells
    of the fixed columns under the labels of the template (a missing value
    under a label its sheet lacks), the TDS amount computed from that row,
    and the name of its sheet; a missing value may come out as the other
    missing value; the index is 0, 1, 2, ... *)
Theorem distinct_labels_closed_form
  (numeric_text : string -> option Z) (workbook : list sheet)
  (fixed_cols : nat) (tds_keywords_raw : string) :
  1 <= fixed_cols ->
  forallb (distinct_labels fixed_cols) workbook = true ->
  forallb text_headers workbook = true ->
  forallb (plain_amounts (tds_keywords tds_keywords_raw)) workbook = true ->
  (forall t, first_template fixed_cols workbook = Some t ->
             ~ In TDS_Amount t /\ ~ In LedgerName t) ->
  match first_template fixed_cols workbook with
  | None =>
      process_file numeric_text workbook fixed_cols tds_keywords_raw
      = Ok None
  | Some t =>
      exists final,
        process_file numeric_text workbook fixed_cols tds_keywords_raw
        = Ok (Some final)
        /\ columns final = t ++ [TDS_Amount; LedgerName]
        /\ index final = seq 0 (List.length (body final))
        /\ Forall2 (Forall2 alike)
             (flat_map
                (fun s =>
                   map snd (sheet_rows numeric_text fixed_cols
                              (tds_keywords tds_keywords_raw) t s))
                workbook)
             (map snd (body final))
  end.
Proof.
  intros HX Hwb _ _ Hfree. unfold process_file.
  rewrite (process_sheets_first_template numeric_text fixed_cols
             (tds_keywords tds_keywords_raw) HX workbook Hwb Hfree).
  cbn [bind].
  destruct (first_template fixed_cols workbook) as [t|] eqn:Et;
    [|reflexivity].
  cbn [all_ledgers template_cols].
  pose proof (first_template_fragment numeric_text fixed_cols
                (tds_keywords tds_keywords_raw) t workbook Et) as Hne.
  set (keys := t ++ [TDS_Amount; LedgerName]).
  assert (Hkeys : NoDup keys).
  { destruct (Hfree t eq_refl) as [HnT HnL].
    assert (Hnd : NoDup t).
    { clear - Et Hwb HX. induction workbook as [|s wb IH]; [discriminate|].
      simpl in Hwb. apply andb_true_iff in Hwb. destruct Hwb as [Hs Hwb].
      cbn [first_template] in Et.
      destruct (table_of (read_excel s)) as [data|] eqn:Ht; [|now apply IH].
      inversion Et; subst t.
      now destruct (own_template_base fixed_cols HX s data Ht Hs). }
    unfold keys. change (t ++ [TDS_Amount; LedgerName])
      with (t ++ [TDS_Amount] ++ [LedgerName]).
    rewrite app_assoc. apply NoDup_snoc. split.
    - apply NoDup_snoc. now split.
    - intro H. apply in_app_or in H.
      destruct H as [H | [H | []]]; [contradiction | discriminate]. }
  match goal with
  | |- context [match ?l with [] => _ | _ :: _ => _ end] =>
      set (ledgers := l) in *
  end.
  destruct ledgers as [|f0 rest] eqn:El; [contradiction|].
  rewrite <- El.
  rewrite (concat_same keys).
  2:{ rewrite El. discriminate. }
  2:{ intros f Hf. unfold ledgers in Hf. apply in_flat_map in Hf.
      destruct Hf as [s [_ Hf]]. destruct (skipped s); [contradiction|].
      destruct Hf as [<- | []]. reflexivity. }
  cbn [bind]. rewrite getitem_list_Ok by apply incl_refl.
  cbn [bind columns body]. eexists. split; [reflexivity|].
  cbn [columns body]. split; [|split].
  - apply take_labels; [assumption | apply incl_refl].
  - unfold index. cbn [body]. rewrite map_map. cbn [fst].
    now rewrite enumerate_fst, length_map, enumerate_length.
  - rewrite map_map. cbn [snd].
    rewrite <- (map_map snd (fun vals => take keys vals keys)).
    rewrite enumerate_snd, map_flat_map.
    apply fragments_rows_alike. exact Hkeys.
Qed.

Lemma distinct_labels_closed_form_witness :
  exists final,
    process_file (fun _ => None) plain_workbook 3 "tds" = Ok (Some final)
    /\ columns final
       = [Str "Date"; Str "Particulars"; Ledger_Amount]
         ++ [TDS_Amount; LedgerName]
    /\ index final = seq 0 (List.length (body final))
    /\ Forall2 (Forall2 alike)
         (flat_map
            (fun s =>
               map snd (sheet_rows (fun _ => None) 3 (tds_keywords "tds")
                          [Str "Date"; Str "Particulars"; Ledger_Amount] s))
            plain_workbook)
         (map snd (body final)).
Proof.
  exact (distinct_labels_closed_form (fun _ => None) plain_workbook 3 "tds"
           (le_S _ _ (le_S _ _ (le_n 1))) eq_refl eq_refl eq_refl
           ltac:(intros t Ht; vm_compute in Ht; inversion Ht;
                 split; intros [H | [H | [H | []]]]; discriminate)).
Defined.

(** ** Exceptions *)

Lemma drop_grand_total_cases (base_data : DataFrame) :
  (exists retained, drop_grand_total base_data = Ok retained)
  \/ (drop_grand_total base_data = Raise AttributeError
      /\ exists col, particulars_col base_data = Some col
                     /\ 1 < occurrences (columns base_data) col).
Proof.
  destruct (particulars_col base_data) as [col|] eqn:E.
  - pose proof E as E'. apply find_some in E'. destruct E' as [Hin _].
    assert (Hne : pick (columns base_data) (columns base_data) col <> []).
    { apply pick_some; [now apply has_label_In | reflexivity]. }
    destruct (pick (columns base_data) (columns base_data) col)
      as [|a [|b l]] eqn:Ep; [contradiction | |].
    + left. eexists. apply (drop_grand_total_one _ _ E).
      rewrite pick_labels, Ep. reflexivity.
    + right. assert (Hocc : 1 < occurrences (columns base_data) col).
      { unfold occurrences. rewrite Ep. simpl. lia. }
      split; [now apply (drop_grand_total_many _ col) | now exists col].
  - left. exists base_data. now apply drop_grand_total_none.
Qed.

Lemma add_missing_grows (template : list cell) (df : DataFrame) :
  incl (columns df) (columns (add_missing template df))
  /\ incl template (columns (add_missing template df)).
Proof.
  unfold add_missing. revert df.
  induction template as [|c t IH]; intro df; simpl.
  - split; [apply incl_refl | intros k []].
  - set (df1 := if has_label (columns df) c then df
                else setitem df c (fun _ => NA)).
    assert (H1 : incl (columns df) (columns df1) /\ In c (columns df1)).
    { unfold df1. destruct (has_label (columns df) c) eqn:E.
      - split; [apply incl_refl | now apply has_label_In].
      - rewrite setitem_columns. apply set_label_incl. }
    destruct (IH df1) as [Hgrow Hin]. destruct H1 as [H1 Hc]. split.
    + intros k Hk. now apply Hgrow, H1.
    + intros k [<- | Hk]; [now apply Hgrow | now apply Hin].
Qed.

Lemma take_has (cols keys : list cell) :
  incl keys cols -> incl keys (take cols cols keys).
Proof.
  intros Hincl k Hk. unfold take. apply in_flat_map. exists k.
  split; [assumption|].
  assert (Hne : pick cols cols k <> []).
  { apply pick_some; [apply has_label_In; now apply Hincl | reflexivity]. }
  rewrite pick_labels in *.
  destruct (List.length (pick cols cols k)); [contradiction | now left].
Qed.

Lemma align_cases (template : option (list cell)) (retained : DataFrame) :
  exists t aligned,
    align template retained = Ok (t, aligned)
    /\ incl t (columns aligned)
    /\ match template with Some t0 => t = t0 | None => True end.
Proof.
  unfold align. destruct template as [t0|].
  - destruct (add_missing_grows t0 retained) as [_ Hin].
    rewrite getitem_list_Ok by assumption. cbn [bind].
    eexists. eexists. split; [reflexivity|]. cbn [columns].
    split; [now apply take_has | reflexivity].
  - exists (columns retained), retained.
    split; [reflexivity|]. split; [apply incl_refl | exact I].
Qed.

Lemma union_columns_grows (frames : list DataFrame) (acc : list cell) :
  let united :=
    fold_left
      (fun acc f =>
         acc ++ filter (fun c => negb (has_label acc c)) (columns f))
      frames acc in
  incl acc united
  /\ forall f, In f frames -> incl (columns f) united.
Proof.
  revert acc. induction frames as [|g frames IH]; intro acc; simpl.
  - split; [apply incl_refl | intros f []].
  - destruct (IH (acc ++ filter (fun c => negb (has_label acc c))
                                (columns g))) as [Hacc Hall].
    split.
    + intros k Hk. apply Hacc, in_or_app. now left.
    + intros f [<- | Hf]; [|now apply Hall].
      intros k Hk. apply Hacc, in_or_app.
      destruct (has_label acc k) eqn:E.
      * left. now apply has_label_In.
      * right. apply filter_In. split; [assumption | now rewrite E].
Qed.

Lemma concat_cases (frames : list DataFrame) :
  frames <> [] ->
  (exists df, concat frames = Ok df
              /\ forall f, In f frames -> incl (columns f) (columns df))
  \/ concat frames = Raise InvalidIndexError.
Proof.
  intro Hne. unfold concat. destruct frames as [|f rest]; [contradiction|].
  destruct (forallb (fun g => cells_eqb (columns g) (columns f)) rest) eqn:E.
  - left. eexists. split; [reflexivity|]. cbn [columns].
    intros g [<- | Hg]; [apply incl_refl|].
    rewrite forallb_forall in E. rewrite (cells_eqb_eq _ _ (E g Hg)).
    apply incl_refl.
  - destruct (forallb (fun g => is_unique (columns g)) (f :: rest));
      [|now right].
    left. eexists. split; [reflexivity|]. cbn [columns].
    apply (union_columns_grows (f :: rest) []).
Qed.

Section Exceptions.

Variable numeric_text : string -> option Z.
Variable fixed_cols : nat.
Variable keywords : list string.

Lemma process_sheet_cases (st : state) (s : sheet) :
  selectable st ->
  (exists st', process_sheet numeric_text fixed_cols keywords st s = Ok st'
               /\ selectable st')
  \/ (process_sheet numeric_text fixed_cols keywords st s = Raise IndexError
      /\ fixed_cols = 0)
  \/ (process_sheet numeric_text fixed_cols keywords st s
      = Raise AttributeError
      /\ ambiguous_particulars fixed_cols s).
Proof.
  intro Hst. destruct (table_of (read_excel s)) as [data|] eqn:Ht.
  2:{ left. exists st. split; [|assumption].
      apply process_sheet_skipped. now apply table_of_None. }
  destruct fixed_cols as [|n] eqn:EX.
  { right. left. split; [|reflexivity]. rewrite process_sheet_zero.
    destruct (skipped s) eqn:E; [|reflexivity].
    apply table_of_None in E. congruence. }
  rewrite <- EX in *.
  destruct (table_of_columns _ _ Ht) as [Hcols _].
  destruct (fixed_columns_Ok data fixed_cols Hcols ltac:(lia))
    as [old [_ Efixed]].
  unfold process_sheet. rewrite Ht, Efixed. cbn [bind].
  match goal with |- context [drop_grand_total ?b] => set (bd := b) in * end.
  destruct (drop_grand_total_cases bd) as [[ret Eret] | [Eret [col [Ec Ho]]]].
  2:{ right. right. rewrite Eret. split; [reflexivity|].
      exists data, bd, col. repeat split; auto. }
  rewrite Eret. cbn [bind].
  destruct (align_cases (template_cols st) ret) as [t [al [Eal [Hal Ht0]]]].
  rewrite Eal. cbn [bind fst snd].
  destruct (add_tds_amount_Ok numeric_text data al keywords)
    as [value [Etds _]].
  rewrite Etds. cbn [bind]. left. eexists. split; [reflexivity|].
  unfold selectable in *. cbn [template_cols all_ledgers].
  intros f Hf. apply in_app_or in Hf. destruct Hf as [Hf | [<- | []]].
  - destruct (template_cols st) as [t0|].
    + subst t. now apply Hst.
    + rewrite Hst in Hf. contradiction.
  - rewrite !setitem_columns. intros k Hk. apply in_app_or in Hk.
    destruct Hk as [Hk | [<- | [<- | []]]].
    + now apply set_label_incl, set_label_incl, Hal.
    + apply set_label_incl, set_label_incl.
    + apply set_label_incl.
Qed.

Lemma process_sheets_cases (workbook : list sheet) :
  forall st,
    selectable st ->
    (exists st',
        process_sheets numeric_text fixed_cols keywords st workbook = Ok st'
        /\ selectable st')
    \/ (process_sheets numeric_text fixed_cols keywords st workbook
        = Raise IndexError
        /\ fixed_cols = 0)
    \/ (process_sheets numeric_text fixed_cols keywords st workbook
        = Raise AttributeError
        /\ exists s, In s workbook /\ ambiguous_particulars fixed_cols s).
Proof.
  induction workbook as [|s wb IH]; intros st Hst.
  - left. now exists st.
  - cbn [process_sheets].
    destruct (process_sheet_cases st s Hst)
      as [[st1 [E1 Hst1]] | [[E1 H0] | [E1 Ha]]]; rewrite E1; cbn [bind].
    + destruct (IH st1 Hst1) as [H | [H | [E [s0 [Hin Ha]]]]]; auto.
      right. right. split; [assumption|]. exists s0. split; [now right|].
      assumption.
    + right. left. now split.
    + right. right. split; [reflexivity|]. exists s. split; [now left|].
      assumption.
Qed.

End Exceptions.

(** X15.  The exceptions a run can end with, on a workbook whose header
    labels are all text: [IndexError], and only with no fixed column;
    [AttributeError], and only when in some sheet the label the exclusion
    filter picks is carried by several fixed columns; [InvalidIndexError],
    from [pd.concat].  No selection by a text label misses its label: such
    a run raises no [KeyError], nor any other exception. *)
Theorem exceptions_of_a_run
  (numeric_text : string -> option Z) (workbook : list sheet)
  (fixed_cols : nat) (tds_keywords_raw : string) (e : exn) :
  forallb text_headers workbook = true ->
  process_file numeric_text workbook fixed_cols tds_keywords_raw = Raise e ->
  (e = IndexError /\ fixed_cols = 0)
  \/ (e = AttributeError
      /\ exists s, In s workbook /\ ambiguous_particulars fixed_cols s)
  \/ e = InvalidIndexError.
Proof.
  intros _ H. unfold process_file in H.
  destruct (process_sheets_cases numeric_text fixed_cols
              (tds_keywords tds_keywords_raw) workbook
              {| template_cols := None; all_ledgers := [] |} eq_refl)
    as [[st [E Hst]] | [[E H0] | [E Ha]]]; rewrite E in H; cbn [bind] in H.
  - unfold selectable in Hst.
    destruct (all_ledgers st) as [|f rest] eqn:El; [discriminate|].
    destruct (template_cols st) as [t|]; [|discriminate].
    destruct (concat_cases (f :: rest) ltac:(discriminate))
      as [[df [Ec Hcols]] | Ec]; rewrite Ec in H; cbn [bind] in H.
    + rewrite getitem_list_Ok in H; [discriminate|].
      intros k Hk. apply (Hcols f); [now left|]. apply Hst; [now left|].
      assumption.
    + inversion H. auto.
  - inversion H. auto.
  - inversion H. auto.
Qed.

Lemma exceptions_of_a_run_witness :
  exists s,
    In s ([sheet_b; fees_sheet] ++ two_particulars_sheet :: [journal_sheet])
    /\ ambiguous_particulars 4 s.
Proof.
  destruct (exceptions_of_a_run (fun _ => None)
              ([sheet_b; fees_sheet]
               ++ two_particulars_sheet :: [journal_sheet])
              4 "tds" AttributeError eq_refl eq_refl)
    as [[H _] | [[_ H] | H]]; [discriminate | exact H | discriminate].
Defined.

(** ** More fixed columns than the sheet has *)

Section Beyond.

Variable numeric_text : string -> option Z.
Variable fixed_cols : nat.
Variable keywords : list string.

Lemma process_sheet_raises (st : state) (s : sheet) (e : exn) :
  process_sheet numeric_text fixed_cols keywords st s = Raise e ->
  (e = IndexError /\ fixed_cols = 0)
  \/ (e = AttributeError /\ ambiguous_particulars fixed_cols s).
Proof.
  destruct (table_of (read_excel s)) as [data|] eqn:Ht.
  2:{ rewrite process_sheet_skipped by now apply table_of_None.
      discriminate. }
  destruct fixed_cols as [|n] eqn:EX.
  { rewrite process_sheet_zero.
    destruct (skipped s) eqn:E; [discriminate|].
    intro H. inversion H. now left. }
  rewrite <- EX in *.
  destruct (table_of_columns _ _ Ht) as [Hcols _].
  destruct (fixed_columns_Ok data fixed_cols Hcols ltac:(lia))
    as [old [_ Efixed]].
  unfold process_sheet. rewrite Ht, Efixed. cbn [bind].
  match goal with |- context [drop_grand_total ?b] => set (bd := b) in * end.
  destruct (drop_grand_total_cases bd) as [[ret Eret] | [Eret [col [Ec Ho]]]].
  2:{ rewrite Eret. cbn [bind]. intro H. inversion H. right.
      split; [reflexivity|]. exists data, bd, col. repeat split; auto. }
  rewrite Eret. cbn [bind].
  destruct (align_cases (template_cols st) ret) as [t [al [Eal _]]].
  rewrite Eal. cbn [bind fst snd].
  destruct (add_tds_amount_Ok numeric_text data al keywords)
    as [value [Etds _]].
  rewrite Etds. cbn [bind]. discriminate.
Qed.

End Beyond.

(** X16.  For a sheet whose header labels are pairwise distinct text, a
    [fixed_cols] that is at least the number of its columns does no harm:
    the fixed-column slice is the whole table, its last label renamed to
    [Ledger_Amount]; the iteration of the loop raises nothing, whatever
    the sheets before it have left; and it ends as it does with
    [fixed_cols] equal to the number of columns. *)
Theorem distinct_labels_beyond_width
  (numeric_text : string -> option Z) (keywords : list string) (st : state)
  (s : sheet) (data : DataFrame) (fixed_cols : nat) :
  table_of (read_excel s) = Some data ->
  NoDup (columns data) ->
  forallb is_text (columns data) = true ->
  List.length (columns data) <= fixed_cols ->
  exists init old st',
    columns data = init ++ [old]
    /\ fixed_columns data fixed_cols
       = Ok {| columns := init ++ [Ledger_Amount]; body := body data |}
    /\ process_sheet numeric_text fixed_cols keywords st s = Ok st'
    /\ process_sheet numeric_text (List.length (columns data)) keywords st s
       = Ok st'.
Proof.
  intros Ht Hnd _ Hle.
  destruct (table_of_rect _ _ Ht) as [Hrect _].
  destruct (table_of_columns _ _ Ht) as [Hcols _].
  assert (HX : 1 <= fixed_cols).
  { destruct (columns data); [contradiction | simpl in Hle; lia]. }
  destruct (distinct_labels_fixed_columns data fixed_cols Hnd Hrect Hcols HX)
    as [init [old [Efirst Efixed]]].
  rewrite firstn_all2 in Efirst by assumption.
  assert (Ebody : map (fun r : nat * list cell =>
                         (fst r, firstn fixed_cols (snd r))) (body data)
                  = body data).
  { rewrite <- (map_id (body data)) at 2. apply map_ext_in.
    intros [i vals] Hr. cbn [fst snd]. f_equal. apply firstn_all2.
    pose proof (Hrect _ Hr) as Hl. cbn [snd] in Hl. now rewrite Hl. }
  rewrite Ebody in Efixed.
  assert (Esame : process_sheet numeric_text fixed_cols keywords st s
                  = process_sheet numeric_text (List.length (columns data))
                      keywords st s).
  { unfold process_sheet. rewrite Ht. unfold fixed_columns.
    now rewrite !base_cols_beyond_width by lia. }
  exists init, old.
  destruct (process_sheet numeric_text fixed_cols keywords st s)
    as [st'|e] eqn:E.
  { exists st'. repeat split; auto. }
  exfalso.
  destruct (process_sheet_raises _ _ _ _ _ _ E)
    as [[_ H0] | [_ [data' [bd [col [Ht' [Ebd [Ecol Hocc]]]]]]]]; [lia|].
  rewrite Ht in Ht'. inversion Ht'; subst data'.
  rewrite Efixed in Ebd. inversion Ebd; subst bd. cbn [columns] in *.
  unfold particulars_col in Ecol. cbn [columns] in Ecol.
  apply find_some in Ecol. destruct Ecol as [Hin Hpart].
  assert (Hinit : NoDup init).
  { rewrite Efirst in Hnd. now apply NoDup_snoc in Hnd. }
  unfold occurrences in Hocc.
  rewrite pick_snoc in Hocc by reflexivity.
  apply in_app_or in Hin. destruct Hin as [Hin | [<- | []]].
  - destruct (cell_eqb Ledger_Amount col) eqn:El.
    + apply cell_eqb_eq in El. subst col. vm_compute in Hpart.
      discriminate.
    + destruct (pick_single init init col Hinit eq_refl Hin) as [v Hv].
      rewrite Hv in Hocc. simpl in Hocc. lia.
  - vm_compute in Hpart. discriminate.
Qed.

Lemma distinct_labels_beyond_width_witness :
  exists init old st',
    columns narrow_table = init ++ [old]
    /\ fixed_columns narrow_table 21
       = Ok {| columns := init ++ [Ledger_Amount];
               body := body narrow_table |}
    /\ process_sheet (fun _ => None) 21 ["tds"]
         {| template_cols := None; all_ledgers := [] |} narrow_sheet
       = Ok st'
    /\ process_sheet (fun _ => None) (List.length (columns narrow_table))
         ["tds"] {| template_cols := None; all_ledgers := [] |} narrow_sheet
       = Ok st'.
Proof.
  exact (distinct_labels_beyond_width (fun _ => None) ["tds"]
           {| template_cols := None; all_ledgers := [] |}
           narrow_sheet narrow_table 21 eq_refl
           (proj1 (is_unique_NoDup (columns narrow_table)) eq_refl)
           eq_refl ltac:(simpl; lia)).
Defined.
